(** * Air Quality Europe dashboard: the data pipeline of [Streamlite/main.py]

    A shallow embedding of the functions of [main.py] that carry logic
    ([country_name], [eaqi_label], [eaqi_color], [normalize_columns],
    [fix_single_column_csv_like], [load_excel_local], [prepare],
    [city_means_for_day]) and the properties its specification states
    about them, followed by the selection that the script of the page makes
    between [prepare] and [city_means_for_day] (the days, the rows of a
    day, the countries) and by further properties of the code.

    Conventions of the embedding.
    - A Python [float] is an IEEE-754 binary64 number, taken from the
      Standard Library's executable specification [spec_float]; the missing
      value of pandas is the float NaN.
    - A Python [str] is held as the bytes of its UTF-8 encoding. Its
      methods [strip], [upper] and [lower] work on Unicode text and are not
      code of the repository: they are parameters ([PyStr]). On ASCII text
      they are the functions of [Str], which run the pipeline on the sample
      tables. [replace(" ", "_")] and the test ["," in s] are on single
      ASCII characters, whose byte occurs in no other character's
      encoding: they are computed on the bytes.
    - A [DataFrame] is a mutable object: tables live in a store and the
      functions receive and return references, as in Python. Its column
      labels are strings ([str(c)] is [c]).
    - The pandas functions the program calls and whose code is not in the
      repository ([pd.to_numeric], [pd.to_datetime], [Series.astype(str)],
      [pd.read_csv]) are parameters of the pipeline, and so is the order in
      which [groupby] lists the groups ([PdGroupBy]). A small executable
      instance of them is given in [PandasModel] to run the pipeline on
      sample tables. The mean of a group is computed as pandas does, with a
      compensated sum.

    The file gives the embedding first, then the definitions the
    statements use (with the sample tables), then the lemmas and the
    properties. *)

From Stdlib Require Import ZArith Bool Ascii String DecimalString List Lia.
From Stdlib Require Import Floats.SpecFloat.
From stdpp Require Import base option list strings sorting gmap.

Local Open Scope string_scope.
Local Open Scope list_scope.

(** ** binary64 floats *)

Module F64.

Definition prec : Z := 53.
Definition emax : Z := 1024.

Definition float : Type := spec_float.

Definition nan : float := S754_nan.
Definition pinf : float := S754_infinity false.
Definition ninf : float := S754_infinity true.

(** [float(z)] for a Python integer [z]. *)
Definition of_Z (z : Z) : float := binary_normalize prec emax z 0 false.

Definition add : float → float → float := SFadd prec emax.
Definition sub : float → float → float := SFsub prec emax.
Definition div : float → float → float := SFdiv prec emax.

Definition leb : float → float → bool := SFleb.
Definition ltb : float → float → bool := SFltb.
Definition eqb : float → float → bool := SFeqb.

Definition is_nan (x : float) : bool :=
  match x with S754_nan => true | _ => false end.

Definition is_finite (x : float) : bool :=
  match x with S754_zero _ | S754_finite _ _ _ => true | _ => false end.

(** The decimal [m / 10^k], correctly rounded when [m] and [10^k] are
    both floats (at most 15 digits): one correctly rounded division of two
    exact operands. *)
Definition of_decimal (m : Z) (k : nat) : float :=
  div (of_Z m) (of_Z (10 ^ Z.of_nat k)).

(** The exact value of a finite float multiplied by 2^1074, which is an
    integer (1074 is the opposite of the least exponent of binary64). *)
Definition scaled (x : float) : option Z :=
  match x with
  | S754_zero _ => Some 0%Z
  | S754_finite s m e => Some (cond_Zopp s (Zpos m * 2 ^ (e + 1074)))%Z
  | _ => None
  end.

End F64.

Abbreviation float := F64.float.

(** ** Python strings *)

(** The functions of Python on ASCII text. *)
Module Str.

(** [str.isspace] on one ASCII character: tab, line feed, vertical tab,
    form feed, carriage return, the four separators 28..31 and space. *)
Definition isspace (c : ascii) : bool :=
  let n := nat_of_ascii c in
  (((9 <=? n) && (n <=? 13)) || ((28 <=? n) && (n <=? 32)))%nat.

Definition lower_char (c : ascii) : ascii :=
  let n := nat_of_ascii c in
  if ((65 <=? n) && (n <=? 90))%nat then ascii_of_nat (n + 32) else c.

Definition upper_char (c : ascii) : ascii :=
  let n := nat_of_ascii c in
  if ((97 <=? n) && (n <=? 122))%nat then ascii_of_nat (n - 32) else c.

Fixpoint map (f : ascii → ascii) (s : string) : string :=
  match s with
  | EmptyString => EmptyString
  | String c s' => String (f c) (map f s')
  end.

Fixpoint lstrip (s : string) : string :=
  match s with
  | EmptyString => EmptyString
  | String c s' => if isspace c then lstrip s' else s
  end.

Fixpoint rstrip (s : string) : string :=
  match s with
  | EmptyString => EmptyString
  | String c s' =>
      match rstrip s' with
      | EmptyString => if isspace c then EmptyString else String c EmptyString
      | r => String c r
      end
  end.

(** [s.strip()], [s.lower()] and [s.upper()] when [s] is ASCII text. *)
Definition strip (s : string) : string := rstrip (lstrip s).
Definition lower : string → string := map lower_char.
Definition upper : string → string := map upper_char.
(** [s.replace(a, b)] for one-character [a] and [b]. *)
Definition replace (a b : ascii) : string → string :=
  map (λ c, if Ascii.eqb c a then b else c).

(** [a in s] for a one-character [a]. *)
Fixpoint contains (a : ascii) (s : string) : bool :=
  match s with
  | EmptyString => false
  | String c s' => Ascii.eqb c a || contains a s'
  end.

(** [sep.join(ls)] *)
Definition join (sep : string) (ls : list string) : string :=
  String.concat sep ls.

(** What [lstrip] returns starts with no white space. *)
Definition head_ok (s : string) : Prop :=
  match s with
  | EmptyString => True
  | String c _ => isspace c = false
  end.

(** Facts on single characters are checked on the 256 of them. *)
Definition all_chars (p : ascii → bool) : bool :=
  forallb (λ n, p (ascii_of_nat n)) (seq 0 256).

(** ASCII text: every byte is below 128. *)
Fixpoint is_ascii (s : string) : bool :=
  match s with
  | EmptyString => true
  | String c s' => (nat_of_ascii c <? 128)%nat && is_ascii s'
  end.

End Str.

(** [str.strip()], [str.upper()] and [str.lower()], on any text. *)
Class PyStr : Type := {
  py_strip : string → string;
  py_upper : string → string;
  py_lower : string → string }.

(** What is known of them here: on ASCII text they are the functions of
    [Str]. *)
Definition ascii_faithful (py : PyStr) : Prop :=
  ∀ s, Str.is_ascii s = true →
       py_strip s = Str.strip s ∧ py_upper s = Str.upper s ∧ py_lower s = Str.lower s.

(** The three functions cut down to ASCII text, for the sample tables. *)
Definition AsciiStr : PyStr :=
  {| py_strip := Str.strip; py_upper := Str.upper; py_lower := Str.lower |}.

(** ** Configuration constants of [main.py] *)

Definition GOOD_MAX : Z := 40.
Definition MEDIUM_MAX : Z := 80.

Definition COLOR_GOOD : string := "#0078FF".
Definition COLOR_MED : string := "#FFA500".
Definition COLOR_BAD : string := "#DC143C".
Definition COLOR_UNKNOWN : string := "#A0A0A0".

Definition ISO2_TO_COUNTRY_FR : gmap string string :=
  list_to_map
    [ ("AL", "Albanie"); ("AT", "Autriche"); ("BA", "Bosnie-Herzégovine");
      ("BE", "Belgique"); ("BG", "Bulgarie"); ("CH", "Suisse");
      ("CZ", "Tchéquie"); ("DE", "Allemagne"); ("DK", "Danemark");
      ("EE", "Estonie"); ("ES", "Espagne"); ("FI", "Finlande");
      ("FR", "France"); ("GB", "Royaume-Uni"); ("GR", "Grèce");
      ("HR", "Croatie"); ("HU", "Hongrie"); ("IE", "Irlande");
      ("IS", "Islande"); ("IT", "Italie"); ("LT", "Lituanie");
      ("LU", "Luxembourg"); ("LV", "Lettonie"); ("MD", "Moldavie");
      ("ME", "Monténégro"); ("MK", "Macédoine du Nord"); ("MT", "Malte");
      ("NL", "Pays-Bas"); ("NO", "Norvège"); ("PL", "Pologne");
      ("PT", "Portugal"); ("RO", "Roumanie"); ("RS", "Serbie");
      ("SE", "Suède"); ("SI", "Slovénie"); ("SK", "Slovaquie");
      ("UA", "Ukraine") ].

(** ** Cell values *)

(** [datetime.date] *)
Record date : Type := Date { year : Z; month : Z; day : Z }.

(** The Python objects a cell of a table holds: [None] (and [NaT]), a
    [str], a number (integers are held by their float value; the missing
    number is NaN) or a [datetime.date]. *)
Inductive cell : Type :=
| CNone
| CStr (s : string)
| CNum (x : float)
| CDate (d : date).

(** [pd.isna] on a scalar. *)
Definition isna (c : cell) : bool :=
  match c with
  | CNone => true
  | CNum x => F64.is_nan x
  | _ => false
  end.

(** ** Classification policy *)

Definition country_name {py : PyStr} (code : cell) : string :=
  match code with
  | CStr code =>
      let c := py_upper (py_strip code) in
      default c (ISO2_TO_COUNTRY_FR !! c)
  | _ => "Inconnu"
  end.

Definition eaqi_label (v : float) : string :=
  if F64.is_nan v then "Inconnu"
  else if F64.leb v (F64.of_Z GOOD_MAX) then "Bon"
  else if F64.leb v (F64.of_Z MEDIUM_MAX) then "Moyen"
  else "Mauvais".

Definition eaqi_color (v : float) : string :=
  if F64.is_nan v then COLOR_UNKNOWN
  else if F64.leb v (F64.of_Z GOOD_MAX) then COLOR_GOOD
  else if F64.leb v (F64.of_Z MEDIUM_MAX) then COLOR_MED
  else COLOR_BAD.

(** ** Tables *)

(** A [DataFrame]: its column labels, in order, and its rows. The cell of
    row [r] in the column of index [i] is [r !! i]. *)
Record DataFrame : Type := Frame { columns : list string; rows : list (list cell) }.

Module Frame.

(** The tables of the model: no two columns bear the same label, and
    every row has one cell per column. (pandas lets two columns share a
    label and then answers [df[name]] with a table; the pipeline is not
    followed there.) *)
Definition wf (f : DataFrame) : bool :=
  bool_decide (NoDup (columns f))
  && forallb (λ r, Nat.eqb (length r) (length (columns f))) (rows f).

(** Position of the first column labelled [name]. *)
Fixpoint index_of (name : string) (cs : list string) : option nat :=
  match cs with
  | [] => None
  | c :: cs' => if String.eqb c name then Some 0 else S <$> index_of name cs'
  end.

Definition cell_at (i : nat) (r : list cell) : cell := default CNone (r !! i).

(** [df.iloc[:, i]] *)
Definition icol (i : nat) (f : DataFrame) : list cell := map (cell_at i) (rows f).

(** [df[name]] *)
Definition getitem (name : string) (f : DataFrame) : option (list cell) :=
  i ← index_of name (columns f); Some (icol i f).

(** [df[name] = values]: the column is replaced where it stands, or added
    as the last one. *)
Definition setitem (name : string) (values : list cell) (f : DataFrame) : DataFrame :=
  match index_of name (columns f) with
  | Some i => Frame (columns f) (zip_with (λ r v, <[i:=v]> r) (rows f) values)
  | None => Frame (columns f ++ [name]) (zip_with (λ r v, r ++ [v]) (rows f) values)
  end.

(** [df.columns = names] *)
Definition set_columns (names : list string) (f : DataFrame) : DataFrame :=
  Frame names (rows f).

(** Positions of the columns of [subset], when all are there. *)
Definition indices (subset : list string) (f : DataFrame) : option (list nat) :=
  mapM (λ name, index_of name (columns f)) subset.

(** A row with no missing value at the positions [ix]. *)
Definition complete (ix : list nat) (r : list cell) : bool :=
  forallb (λ i, negb (isna (cell_at i r))) ix.

(** [df.dropna(subset=subset)] *)
Definition dropna (subset : list string) (f : DataFrame) : option DataFrame :=
  ix ← indices subset f;
  Some (Frame (columns f) (List.filter (complete ix) (rows f))).

End Frame.

(** ** Grouping *)

(** The order in which [groupby] lists the groups: pandas sorts them by
    key ([sort=True] is the default), with an order on the cells that is
    its own. The groups listed are those it is given, rearranged. *)
Class PdGroupBy : Type := {
  group_order : list (list cell) → list (list cell);
  group_order_perm : ∀ ks, group_order ks ≡ₚ ks }.

Module Group.

(** Equality of two cells as grouping keys: Python's [==], which on floats
    is the IEEE one (0.0 equals -0.0). *)
Definition cell_eqb (a b : cell) : bool :=
  match a, b with
  | CNone, CNone => true
  | CStr s, CStr t => String.eqb s t
  | CNum x, CNum y => F64.eqb x y
  | CDate d, CDate e =>
      Z.eqb (year d) (year e) && Z.eqb (month d) (month e) && Z.eqb (day d) (day e)
  | _, _ => false
  end.

Fixpoint key_eqb (k1 k2 : list cell) : bool :=
  match k1, k2 with
  | [], [] => true
  | a :: k1', b :: k2' => cell_eqb a b && key_eqb k1' k2'
  | _, _ => false
  end.

(** The key of a row: its cells at the key positions. *)
Definition key_of (ix : list nat) (r : list cell) : list cell :=
  map (λ i, Frame.cell_at i r) ix.

(** The distinct keys of a list, each at its first occurrence. *)
Fixpoint distinct (ks : list (list cell)) : list (list cell) :=
  match ks with
  | [] => []
  | k :: ks' => k :: List.filter (λ k', negb (key_eqb k k')) (distinct ks')
  end.

(** The rows of the group of key [k]. *)
Definition members (ix : list nat) (k : list cell) (rs : list (list cell)) : list (list cell) :=
  List.filter (λ r, key_eqb k (key_of ix r)) rs.

(** The float values of a column of numbers; [None] when a cell is not a
    number. *)
Definition numbers (cs : list cell) : option (list float) :=
  mapM (λ c, match c with CNum x => Some x | _ => None end) cs.

(** One step of the sum of [group_mean] (pandas 2, [_libs/groupby.pyx]),
    which [groupby(...).agg(...=(..., "mean"))] runs on a column of
    floats: the sum carries a compensation term,
    [y = val - compensation; t = sumx + y;
     compensation = t - sumx - y; sumx = t],
    and a compensation that is NaN (an infinite value went by) is set back
    to 0. *)
Definition kahan_step (st : float * float) (val : float) : float * float :=
  let '(sumx, compensation) := st in
  let y := F64.sub val compensation in
  let t := F64.add sumx y in
  let c := F64.sub (F64.sub t sumx) y in
  (t, if F64.is_nan c then F64.of_Z 0 else c).

(** The compensated sum of the values, from the left. *)
Definition kahan_sum (xs : list float) : float :=
  fst (fold_left kahan_step xs (F64.of_Z 0, F64.of_Z 0)).

(** The mean of a group: the compensated sum of its values that are not
    NaN, divided by their count; NaN when no value is left. *)
Definition mean (xs : list float) : float :=
  let ys := List.filter (λ x, negb (F64.is_nan x)) xs in
  match ys with
  | [] => F64.nan
  | _ => F64.div (kahan_sum ys) (F64.of_Z (Z.of_nat (length ys)))
  end.

(** [df.groupby(keys, as_index=False).agg(value=(value, "mean"))]: the rows
    with a missing key are left out, and each remaining key gives one row,
    the key followed by the mean of the group. The groups are listed in
    the order of pandas. *)
Definition groupby_mean {gb : PdGroupBy} (keys : list string) (value : string)
    (f : DataFrame) : option DataFrame :=
  ix ← Frame.indices keys f;
  iv ← Frame.index_of value (columns f);
  let rs := List.filter (Frame.complete ix) (rows f) in
  _ ← numbers (map (Frame.cell_at iv) rs);
  Some (Frame (keys ++ [value])
          (map (λ k, k ++ [CNum (mean (default [] (numbers (map (Frame.cell_at iv) (members ix k rs)))))])
               (group_order (distinct (map (key_of ix) rs))))).

End Group.

(** ** The store of tables and the exceptions *)

(** A table is a Python object: a variable holds a reference to it. *)
Abbreviation ref := nat (only parsing).
Abbreviation store := (list DataFrame) (only parsing).

(** The exceptions that end a call.
    - [ValueError missing found]: the error [prepare] raises, whose message
      is made of [sorted(missing)] and [list(df.columns)];
    - [KeyError labels]: pandas finds no column for one of [labels];
    - [TypeError]: a mean is asked of a column that holds other things than
      numbers;
    - [LengthError]: a column is assigned values of another length;
    - [Unbound r]: no table at [r] (no Python program reaches it). *)
Inductive exn : Type :=
| ValueError (missing found : list string)
| KeyError (labels : list string)
| TypeError
| LengthError
| Unbound (r : ref).

Inductive outcome (A : Type) : Type :=
| Return (a : A)
| Raise (e : exn).
Arguments Return {A} a.
Arguments Raise {A} e.

(** Computations on the store. What was written before an exception
    stays written. *)
Definition M (A : Type) : Type := store → outcome A * store.

#[global] Instance M_ret : MRet M := λ A a h, (Return a, h).
#[global] Instance M_bind : MBind M := λ A B k m h,
  match m h with
  | (Return a, h') => k a h'
  | (Raise e, h') => (Raise e, h')
  end.

Definition raise {A : Type} (e : exn) : M A := λ h, (Raise e, h).

(** The table a reference points to. *)
Definition deref (r : ref) : M DataFrame := λ h,
  match h !! r with
  | Some f => (Return f, h)
  | None => (Raise (Unbound r), h)
  end.

(** Overwrite, in place, the table a reference points to. *)
Definition assign (r : ref) (f : DataFrame) : M unit := λ h, (Return tt, <[r:=f]> h).

(** A new table, at a reference that no variable holds yet. *)
Definition alloc (f : DataFrame) : M ref := λ h, (Return (length h), h ++ [f]).

(** [df[name]] *)
Definition getitem (df : ref) (name : string) : M (list cell) :=
  f ← deref df;
  match Frame.getitem name f with
  | Some c => mret c
  | None => raise (KeyError [name])
  end.

(** [df[name] = values] *)
Definition setitem (df : ref) (name : string) (values : list cell) : M unit :=
  f ← deref df;
  if Nat.eqb (length values) (length (rows f))
  then assign df (Frame.setitem name values f)
  else raise LengthError.

(** The line feed, ["\n"] in Python. *)
Definition LF : string := String (ascii_of_nat 10) EmptyString.

(** The float of a cell of a float64 column. *)
Definition as_float (c : cell) : float :=
  match c with CNum x => x | _ => F64.nan end.

(** A parsed date as a cell: [NaT] is a missing value. *)
Definition date_cell (d : option date) : cell :=
  match d with Some d => CDate d | None => CNone end.

(** [sorted(s)] for a set of strings. *)
Definition sorted (s : gset string) : list string :=
  merge_sort String.le (elements s).

(** ** The pipeline of [main.py] *)

Section Pipeline.

Context {py : PyStr} {gb : PdGroupBy}.

(** The pandas functions the pipeline calls:
    [pd.read_excel(path, engine="openpyxl", sheet_name=0)],
    [pd.read_csv(io.StringIO(text))], [str] on a cell (what
    [astype(str)] applies), [pd.to_datetime(column, errors="coerce").dt.date]
    and [pd.to_numeric(column, errors="coerce")]. *)
Variable read_excel : string → DataFrame.
Variable read_csv : string → DataFrame.
Variable astype_str : cell → string.
Variable to_datetime : list cell → list (option date).
Variable to_numeric : list cell → list float.

(** [str(c).strip().lower().replace(" ", "_")] *)
Definition norm_name (c : string) : string :=
  Str.replace " " "_" (py_lower (py_strip c)).

Definition normalize_columns (df : ref) : M ref :=
  f ← deref df;
  _ ← assign df (Frame.set_columns (map norm_name (columns f)) f);
  mret df.

Definition fix_single_column_csv_like (df : ref) : M ref :=
  f ← deref df;
  if negb (Nat.eqb (length (columns f)) 1) then mret df
  else
    let header := default "" (head (columns f)) in
    if negb (Str.contains "," header) then mret df
    else
      let lines := header :: map astype_str (Frame.icol 0 f) in
      let csv_text := Str.join LF lines in
      alloc (read_csv csv_text).

(** The cache of [st.cache_data] is left out: it hands a copy of the
    table over at each run. *)
Definition load_excel_local (path : string) : M ref :=
  df ← alloc (read_excel path);
  df ← fix_single_column_csv_like df;
  df ← normalize_columns df;
  mret df.

Definition needed : gset string :=
  {[ "city"; "country"; "date"; "latitude"; "longitude"; "european_aqi" ]}.

Definition prepare (df : ref) : M ref :=
  f ← deref df;
  let missing := needed ∖ list_to_set (columns f) in
  if bool_decide (missing ≠ ∅)
  then raise (ValueError (sorted missing) (columns f))
  else
    c ← getitem df "date";
    _ ← setitem df "date" (map date_cell (to_datetime c));
    c ← getitem df "latitude";
    _ ← setitem df "latitude" (map CNum (to_numeric c));
    c ← getitem df "longitude";
    _ ← setitem df "longitude" (map CNum (to_numeric c));
    c ← getitem df "european_aqi";
    _ ← setitem df "european_aqi" (map CNum (to_numeric c));
    c ← getitem df "country";
    _ ← setitem df "country_name" (map (λ x, CStr (country_name x)) c);
    f ← deref df;
    let subset := ["date"; "latitude"; "longitude"; "european_aqi"; "city"; "country"] in
    match Frame.dropna subset f with
    | Some g => alloc g
    | None => raise (KeyError subset)
    end.

Definition city_means_for_day (df_day : ref) : M ref :=
  f ← deref df_day;
  let keys := ["city"; "country"; "country_name"; "latitude"; "longitude"] in
  match Group.groupby_mean keys "european_aqi" f with
  | None =>
      match Frame.indices (keys ++ ["european_aqi"]) f with
      | None => raise (KeyError (keys ++ ["european_aqi"]))
      | Some _ => raise TypeError
      end
  | Some g =>
      out ← alloc g;
      v ← getitem out "european_aqi";
      _ ← setitem out "label" (map (λ c, CStr (eaqi_label (as_float c))) v);
      v ← getitem out "european_aqi";
      _ ← setitem out "color" (map (λ c, CStr (eaqi_color (as_float c))) v);
      mret out
  end.

End Pipeline.

(** ** An executable instance of the pandas functions

    Enough of pandas to run the pipeline on sample tables: plain decimal
    numbers and the spellings of infinity and NaN, ISO dates, and
    comma-separated text with double-quoted fields. The theorems on the
    pipeline hold for every instance; this one is used at concrete inputs. *)

Module PandasModel.

Definition digit (c : ascii) : option Z :=
  let n := nat_of_ascii c in
  if ((48 <=? n) && (n <=? 57))%nat then Some (Z.of_nat n - 48)%Z else None.

(** The number written by a string of digits, after the digits [acc]. *)
Fixpoint digits (acc : Z) (s : string) : option Z :=
  match s with
  | EmptyString => Some acc
  | String c s' => d ← digit c; digits (10 * acc + d)%Z s'
  end.

(** The part of [s] before the first [sep] and the part after it (no
    second part when [sep] is not there). *)
Fixpoint cut (sep : ascii) (s : string) : string * option string :=
  match s with
  | EmptyString => (EmptyString, None)
  | String c s' =>
      if Ascii.eqb c sep then (EmptyString, Some s')
      else let '(a, b) := cut sep s' in (String c a, b)
  end.

(** An unsigned decimal: digits, with or without a fraction. *)
Definition unsigned_decimal (s : string) : option float :=
  let '(i, fr) := cut "." s in
  let fr := default EmptyString fr in
  if Nat.eqb (String.length i + String.length fr) 0 then None
  else m ← digits 0 (String.append i fr); Some (F64.of_decimal m (String.length fr)).

Definition decimal (s : string) : option float :=
  match s with
  | String "-" s' => SFopp <$> unsigned_decimal s'
  | String "+" s' => unsigned_decimal s'
  | _ => unsigned_decimal s
  end.

(** The float a string spells, NaN when it spells none. *)
Definition float_of_string (s : string) : float :=
  let t := Str.lower (Str.strip s) in
  if bool_decide (t ∈ ["inf"; "+inf"; "infinity"; "+infinity"]) then F64.pinf
  else if bool_decide (t ∈ ["-inf"; "-infinity"]) then F64.ninf
  else default F64.nan (decimal t).

(** [pd.to_numeric(column, errors="coerce")] *)
Definition to_numeric (column : list cell) : list float :=
  map (λ c, match c with
            | CNum x => x
            | CStr s => float_of_string s
            | _ => F64.nan
            end) column.

Definition leap (y : Z) : bool :=
  ((y mod 4 =? 0) && (negb (y mod 100 =? 0) || (y mod 400 =? 0)))%Z.

Definition days_in_month (y m : Z) : Z :=
  if (m =? 2)%Z then (if leap y then 29 else 28)%Z
  else if bool_decide (m ∈ [4; 6; 9; 11]%Z) then 30%Z else 31%Z.

(** The date written [YYYY-MM-DD]. *)
Definition date_of_string (s : string) : option date :=
  let '(y, r) := cut "-" s in
  r ← r;
  let '(m, d) := cut "-" r in
  d ← d;
  if negb (Nat.eqb (String.length y) 4 && Nat.eqb (String.length m) 2
           && Nat.eqb (String.length d) 2) then None
  else
    y ← digits 0 y; m ← digits 0 m; d ← digits 0 d;
    if ((1 <=? m) && (m <=? 12) && (1 <=? d) && (d <=? days_in_month y m))%Z
    then Some (Date y m d) else None.

(** [pd.to_datetime(column, errors="coerce").dt.date] *)
Definition to_datetime (column : list cell) : list (option date) :=
  map (λ c, match c with
            | CDate d => Some d
            | CStr s => date_of_string (Str.strip s)
            | _ => None
            end) column.

(** The lines of a text. *)
Fixpoint lines (cur : string) (s : string) : list string :=
  match s with
  | EmptyString => [cur]
  | String c s' =>
      if Ascii.eqb c (ascii_of_nat 10) then cur :: lines EmptyString s'
      else lines (String.append cur (String c EmptyString)) s'
  end.

(** The fields of a line: commas separate them, except between double
    quotes, which are dropped. *)
Fixpoint fields (inq : bool) (cur : string) (s : string) : list string :=
  match s with
  | EmptyString => [cur]
  | String c s' =>
      if Ascii.eqb c (ascii_of_nat 34) then fields (negb inq) cur s'
      else if Ascii.eqb c "," && negb inq then cur :: fields false EmptyString s'
      else fields inq (String.append cur (String c EmptyString)) s'
  end.

(** The strings pandas reads as a missing value. *)
Definition na_values : list string :=
  [ ""; "#N/A"; "#N/A N/A"; "#NA"; "-1.#IND"; "-1.#QNAN"; "-NaN"; "-nan";
    "1.#IND"; "1.#QNAN"; "<NA>"; "N/A"; "NA"; "NULL"; "NaN"; "None"; "n/a";
    "nan"; "null" ].

Definition is_na (s : string) : bool := bool_decide (s ∈ na_values).

Definition numeric (s : string) : bool :=
  is_na s || negb (F64.is_nan (float_of_string s)).

(** A field as a cell of a column of numbers, or of a column of text. *)
Definition typed (num : bool) (s : string) : cell :=
  if is_na s then CNum F64.nan
  else if num then CNum (float_of_string s) else CStr s.

(** [pd.read_csv(io.StringIO(text))]: the first line names the columns,
    blank lines are skipped, a short line is completed with missing values,
    and a column whose every field is a number is a column of numbers. *)
Definition read_csv (text : string) : DataFrame :=
  match List.filter (λ l, negb (String.eqb l EmptyString)) (lines EmptyString text) with
  | [] => Frame [] []
  | header :: body =>
      let names := fields false EmptyString header in
      let n := length names in
      let raw := map (λ l, take n (fields false EmptyString l ++ replicate n EmptyString)) body in
      let num := map (λ j, forallb (λ r, numeric (default EmptyString (r !! j))) raw) (seq 0 n) in
      Frame names (map (λ r, zip_with typed num r) raw)
  end.

Definition N_str (n : N) : string := NilZero.string_of_uint (N.to_uint n).

Fixpoint zeros (n : nat) : string :=
  match n with O => EmptyString | S n' => String "0" (zeros n') end.

(** [s.zfill(w)] *)
Definition zfill (w : nat) (s : string) : string :=
  String.append (zeros (w - String.length s)) s.

(** [s.rstrip("0")] *)
Fixpoint rstrip0 (s : string) : string :=
  match s with
  | EmptyString => EmptyString
  | String c s' =>
      match rstrip0 s' with
      | EmptyString => if Ascii.eqb c "0" then EmptyString else String c EmptyString
      | r => String c r
      end
  end.

(** The decimal writing of a float, with all its digits (Python stops at
    the first digits that read back as the same float, and turns to the
    exponent form from 1e16 on). *)
Definition float_str (x : float) : string :=
  match x with
  | S754_nan => "nan"
  | S754_infinity s => if s then "-inf" else "inf"
  | S754_zero s => if s then "-0.0" else "0.0"
  | S754_finite s m e =>
      let sign := if s then "-" else EmptyString in
      match e with
      | Zneg k =>
          let k := Pos.to_nat k in
          let d := zfill (S k) (N_str (Npos m * 5 ^ N.of_nat k)) in
          let n := (String.length d - k)%nat in
          let fr := rstrip0 (substring n k d) in
          String.append sign
            (String.append (substring 0 n d)
               (String.append "." (if String.eqb fr EmptyString then "0" else fr)))
      | _ => String.append sign (String.append (N_str (Z.to_N (Zpos m * 2 ^ e))) ".0")
      end
  end.

(** [str(d)] for a date: [YYYY-MM-DD]. *)
Definition date_str (d : date) : string :=
  String.append (zfill 4 (N_str (Z.to_N (year d))))
    (String.append "-"
       (String.append (zfill 2 (N_str (Z.to_N (month d))))
          (String.append "-" (zfill 2 (N_str (Z.to_N (day d))))))).

(** [str(c)], which [astype(str)] applies to every cell. *)
Definition astype_str (c : cell) : string :=
  match c with
  | CStr s => s
  | CNone => "None"
  | CNum x => float_str x
  | CDate d => date_str d
  end.

(** The order of the groups when the keys are made of strings and of
    numbers: by key, cell after cell, the strings in the order of their
    characters and the numbers in their order. *)
Definition cell_leb (a b : cell) : bool :=
  match a, b with
  | CStr s, CStr t => String.leb s t
  | CNum x, CNum y => F64.leb x y
  | _, _ => true
  end.

Fixpoint key_leb (k1 k2 : list cell) : bool :=
  match k1, k2 with
  | a :: k1', b :: k2' => if Group.cell_eqb a b then key_leb k1' k2' else cell_leb a b
  | _, _ => true
  end.

Definition key_le (k1 k2 : list cell) : Prop := key_leb k1 k2 = true.

#[global] Instance key_le_dec : RelDecision key_le :=
  λ k1 k2, decide (key_leb k1 k2 = true).

Definition group_by : PdGroupBy :=
  {| group_order := merge_sort key_le;
     group_order_perm := merge_sort_Permutation key_le |}.

End PandasModel.

(** ** Definitions for the statements *)

(** Membership in an explicit list. *)
Ltac in_list := repeat first [apply list_elem_of_here | apply list_elem_of_further].
Ltac list_cases H := rewrite ?elem_of_cons, ?elem_of_nil in H; intuition congruence.
Ltac nodup_list :=
  repeat (apply NoDup_cons; split;
          [rewrite ?elem_of_cons, ?elem_of_nil; intuition discriminate|]);
  apply NoDup_nil_2.

(** The three tests of [eaqi_label] and [eaqi_color] on a value: it is
    missing, at most 40, at most 80. *)
Definition tests (v : float) : bool * bool * bool :=
  (F64.is_nan v, F64.leb v (F64.of_Z GOOD_MAX), F64.leb v (F64.of_Z MEDIUM_MAX)).

(** The columns [prepare] needs, as a list. *)
Definition needed_list : list string :=
  ["city"; "country"; "date"; "latitude"; "longitude"; "european_aqi"].

(** The columns [prepare] filters the rows on. *)
Definition subset : list string :=
  ["date"; "latitude"; "longitude"; "european_aqi"; "city"; "country"].

(** The column [name], empty when there is none. *)
Definition col (name : string) (f : DataFrame) : list cell :=
  default [] (Frame.getitem name f).

Section ParsedTable.

Context {py : PyStr}.
Variable to_datetime : list cell → list (option date).
Variable to_numeric : list cell → list float.

(** The table [prepare] leaves where its argument was: the date and the
    three numbers parsed, and the country name in a column of its own. *)
Definition parse_date (f : DataFrame) : DataFrame :=
  Frame.setitem "date" (map date_cell (to_datetime (col "date" f))) f.
Definition parse_number (name : string) (f : DataFrame) : DataFrame :=
  Frame.setitem name (map CNum (to_numeric (col name f))) f.
Definition name_country (f : DataFrame) : DataFrame :=
  Frame.setitem "country_name" (map (λ x, CStr (country_name x)) (col "country" f)) f.
Definition parsed (f : DataFrame) : DataFrame :=
  name_country
    (parse_number "european_aqi"
       (parse_number "longitude" (parse_number "latitude" (parse_date f)))).

(** The line [i] of a table passes the filter of [prepare] when its date
    and its three numbers parse and its city and country are there. *)
Definition keeps (f : DataFrame) (i : nat) : bool :=
  negb (isna (date_cell (default None (to_datetime (col "date" f) !! i))))
  && negb (F64.is_nan (default F64.nan (to_numeric (col "latitude" f) !! i)))
  && negb (F64.is_nan (default F64.nan (to_numeric (col "longitude" f) !! i)))
  && negb (F64.is_nan (default F64.nan (to_numeric (col "european_aqi" f) !! i)))
  && negb (isna (default CNone (col "city" f !! i)))
  && negb (isna (default CNone (col "country" f !! i))).

End ParsedTable.

(** The six columns of a sheet, in their usual order. *)
Definition six_columns : list string :=
  ["city"; "country"; "date"; "latitude"; "longitude"; "european_aqi"].

(** A sheet with no latitude column. *)
Definition sheet_no_latitude : DataFrame :=
  Frame ["city"; "country"; "date"; "longitude"; "european_aqi"]
    [ [CStr "Paris"; CStr "FR"; CStr "2024-01-01"; CStr "2.35"; CStr "42"] ].

(** A sheet with a complete row, a row whose latitude is no number, a row
    whose country code is in no table and a row whose country is no string. *)
Definition sheet_rows : DataFrame :=
  Frame six_columns
    [ [CStr "Paris"; CStr "FR"; CStr "2024-01-01"; CStr "48.85"; CStr "2.35"; CStr "42"];
      [CStr "Lyon"; CStr "FR"; CStr "2024-01-01"; CStr "N/A"; CStr "4.85"; CStr "30"];
      [CStr "Atlantis"; CStr "zz"; CStr "2024-01-01"; CStr "10.5"; CStr "-30.25"; CStr "55"];
      [CStr "Oslo"; CNum (F64.of_Z 47); CStr "2024-01-01"; CStr "59.91"; CStr "10.75"; CStr "21"] ].

(** A table is taken for a badly read comma-separated text when it has one
    column whose name holds a comma. *)
Definition csv_like (f : DataFrame) : bool :=
  match columns f with
  | [name] => Str.contains "," name
  | _ => false
  end.

Section NormalizedSheet.

Context {py : PyStr}.
Variable read_csv : string → DataFrame.
Variable astype_str : cell → string.

(** The text that is read again: the name of the column, then one line
    for each cell. *)
Definition document (f : DataFrame) : string :=
  Str.join LF (default "" (head (columns f)) :: map astype_str (Frame.icol 0 f)).

(** The table [load_excel_local] returns, from the sheet that was read. *)
Definition normalized (sheet : DataFrame) : DataFrame :=
  let t := if csv_like sheet then read_csv (document sheet) else sheet in
  Frame.set_columns (map norm_name (columns t)) t.

End NormalizedSheet.

(** The sheet of one column that holds a comma-separated row for Paris. *)
Definition sheet_paris : DataFrame :=
  Frame ["city,country,date,latitude,longitude,european_aqi"]
    [ [CStr "Paris,FR,2024-01-01,48.85,2.35,42"] ].


Definition city_keys : list string :=
  ["city"; "country"; "country_name"; "latitude"; "longitude"].

(** The row of a group: its key, its mean, and the label and the color of
    the mean. *)
Definition point (k : list cell) (m : float) : list cell :=
  k ++ [CNum m; CStr (eaqi_label m); CStr (eaqi_color m)].

(** The rows of the table whose key is [k], in their order, the values of
    their index, and the mean of these. *)
Definition rows_of_key (f : DataFrame) (ix : list nat) (k : list cell)
    : list (list cell) :=
  List.filter (λ r, Group.key_eqb k (Group.key_of ix r)) (rows f).

Definition values_of_key (f : DataFrame) (ix : list nat) (iv : nat) (k : list cell)
    : list float :=
  map (λ r, as_float (Frame.cell_at iv r)) (rows_of_key f ix k).

Definition group_mean (f : DataFrame) (ix : list nat) (iv : nat) (k : list cell) : float :=
  Group.mean (values_of_key f ix iv k).

Definition group_keys (f : DataFrame) (ix : list nat) : list (list cell) :=
  Group.distinct (map (Group.key_of ix) (rows f)).

(** The sum of whole numbers. *)
Definition whole_sum (zs : list Z) : Z := foldr Z.add 0%Z zs.

(** A table as [prepare] returns them, seen from [city_means_for_day]: no
    value is missing in the key columns, and the index is a number that is
    not NaN. *)
Definition clean (f : DataFrame) (ix : list nat) (iv : nat) : Prop :=
  ∀ r, r ∈ rows f →
    Frame.complete ix r = true ∧
    ∃ x, Frame.cell_at iv r = CNum x ∧ F64.is_nan x = false.



(** A sheet whose headers are not yet normalized. *)
Definition sheet_headers : DataFrame :=
  Frame [" City"; "Country"; "Date"; "Latitude"; "Longitude"; "European AQI"]
    [ [CStr "Paris"; CStr "FR"; CStr "2024-01-01"; CStr "48.85"; CStr "2.35"; CStr "42"] ].

(** The columns [prepare] assigns. *)
Definition assigned : list string :=
  ["date"; "latitude"; "longitude"; "european_aqi"; "country_name"].

(** The table at [df] is after the run what it was before. *)
Definition unchanged_at {A} (df : ref) (h : store) (run : outcome A * store) : Prop :=
  snd run !! df = h !! df.

(** What [norm_name] does to one character of a trimmed ASCII name. *)
Definition norm_char (c : ascii) : ascii :=
  let l := Str.lower_char c in if Ascii.eqb l " " then "_"%char else l.

(** A canonical name: trimmed, in lower case, with no space. *)
Definition canonical_name {py : PyStr} (c : string) : Prop :=
  py_strip c = c ∧ py_lower c = c ∧ Str.contains " " c = false.

Definition canonical {py : PyStr} (f : DataFrame) : Prop :=
  ∀ c, c ∈ columns f → canonical_name c.





(** ** The selection of the dashboard

    After its functions, the script of [main.py] lists the days of the
    cleaned table, keeps the rows of the chosen day, then those of the
    chosen countries, and has [city_means_for_day] aggregate them. The day
    and the countries come from the widgets of the page: they are
    arguments here. *)

(** The order of [datetime.date]: the chronological one. *)
Definition date_leb (d e : date) : bool :=
  (year d <? year e)%Z
  || (year d =? year e)%Z
     && ((month d <? month e)%Z || (month d =? month e)%Z && (day d <=? day e)%Z).

Definition date_le (d e : date) : Prop := date_leb d e = true.

#[global] Instance date_le_dec : RelDecision date_le :=
  λ d e, decide (date_leb d e = true).

#[global] Instance date_eq_dec : EqDecision date.
Proof. solve_decision. Defined.

(** The dates of a column of dates and the strings of a column of
    strings; [None] when a cell holds something else (in a table that
    [prepare] returns, the dates are dates and the names of the countries
    are strings: other columns are not followed). *)
Definition date_values (cs : list cell) : option (list date) :=
  mapM (λ c, match c with CDate d => Some d | _ => None end) cs.

Definition str_values (cs : list cell) : option (list string) :=
  mapM (λ c, match c with CStr s => Some s | _ => None end) cs.

(** [Series.unique()]: the values, each at its first occurrence. *)
Fixpoint unique {A} `{EqDecision A} (l : list A) : list A :=
  match l with
  | [] => []
  | x :: l' => x :: List.filter (λ y, bool_decide (y ≠ x)) (unique l')
  end.

(** [sorted(df["date"].unique())] *)
Definition dates (f : DataFrame) : option (list date) :=
  c ← Frame.getitem "date" f;
  ds ← date_values c;
  Some (merge_sort date_le (unique ds)).

(** [sorted(df_day["country_name"].unique())] *)
Definition countries (f : DataFrame) : option (list string) :=
  c ← Frame.getitem "country_name" f;
  ss ← str_values c;
  Some (merge_sort String.le (unique ss)).

(** The day the select box shows first: [index=len(dates) - 1], the last
    of [dates] (none when the table has no row). *)
Definition default_date (f : DataFrame) : option date :=
  ds ← dates f; last ds.

(** The rows at which a mask holds, in their order. *)
Fixpoint mask_rows (rs : list (list cell)) (mask : list bool) : list (list cell) :=
  match rs, mask with
  | r :: rs', b :: mask' => if b then r :: mask_rows rs' mask' else mask_rows rs' mask'
  | _, _ => []
  end.

(** [df[mask]], for a mask computed from a column of [df]. *)
Definition boolean_index (mask : list bool) (f : DataFrame) : DataFrame :=
  Frame (columns f) (mask_rows (rows f) mask).

(** [df[df["date"] == selected_date].copy()]: the selection is a new
    table, and so is its copy. *)
Definition select_date (df : ref) (selected_date : date) : M ref :=
  c ← getitem df "date";
  f ← deref df;
  t ← alloc (boolean_index (map (λ x, Group.cell_eqb x (CDate selected_date)) c) f);
  f ← deref t;
  alloc f.

(** [Series.isin(values)] on one cell, for a list of strings. *)
Definition isin (values : list string) (c : cell) : bool :=
  existsb (λ s, Group.cell_eqb c (CStr s)) values.

(** [if selected_countries:
       df_day = df_day[df_day["country_name"].isin(selected_countries)]]:
    with no country chosen, [df_day] stays bound to the same table. *)
Definition select_countries (df_day : ref) (selected_countries : list string) : M ref :=
  match selected_countries with
  | [] => mret df_day
  | _ =>
      c ← getitem df_day "country_name";
      f ← deref df_day;
      alloc (boolean_index (map (isin selected_countries) c) f)
  end.

(** The table [points] of the script, from the cleaned table [df], the
    chosen day and the chosen countries. The names offered to the choice
    are read from [df_day["country_name"]] in between. *)
Definition points {gb : PdGroupBy} (df : ref) (selected_date : date)
    (selected_countries : list string) : M ref :=
  df_day ← select_date df selected_date;
  _ ← getitem df_day "country_name";
  df_day ← select_countries df_day selected_countries;
  city_means_for_day df_day.

(** ** More definitions for the statements *)

(** [r[name]] for a row [r] of the table [f]. *)
Definition row_cell (f : DataFrame) (name : string) (r : list cell) : cell :=
  match Frame.index_of name (columns f) with
  | Some j => Frame.cell_at j r
  | None => CNone
  end.

(** What [prepare] establishes on a row: a date, three numbers, a city
    and a country that are there, and the name of the country. *)
Definition prepared_row {py : PyStr} (g : DataFrame) (r : list cell) : Prop :=
  (∃ d, row_cell g "date" r = CDate d) ∧
  (∃ x, row_cell g "latitude" r = CNum x ∧ F64.is_nan x = false) ∧
  (∃ x, row_cell g "longitude" r = CNum x ∧ F64.is_nan x = false) ∧
  (∃ x, row_cell g "european_aqi" r = CNum x ∧ F64.is_nan x = false) ∧
  isna (row_cell g "city" r) = false ∧
  isna (row_cell g "country" r) = false ∧
  row_cell g "country_name" r = CStr (country_name (row_cell g "country" r)).

(** A cleaned table: the seven columns are there and every row is as
    [prepare] leaves it. *)
Definition prepared {py : PyStr} (g : DataFrame) : Prop :=
  Frame.wf g = true ∧
  (∀ x, x ∈ needed_list ++ ["country_name"] → x ∈ columns g) ∧
  ∀ r, r ∈ rows g → prepared_row g r.

(** The five key cells of a row of the table [g]. *)
Definition city_key (g : DataFrame) (r : list cell) : list cell :=
  map (λ name, row_cell g name r) city_keys.

(** A row of the chosen day and, when countries are chosen, of one of
    them. *)
Definition selected (g : DataFrame) (D : date) (names : list string) (r : list cell) : Prop :=
  row_cell g "date" r = CDate D ∧
  (names = [] ∨ ∃ s, s ∈ names ∧ row_cell g "country_name" r = CStr s).

(** The same, as the test the two masks of the script make. *)
Definition chosen (g : DataFrame) (D : date) (names : list string) (r : list cell) : bool :=
  Group.cell_eqb (row_cell g "date" r) (CDate D)
  && match names with
     | [] => true
     | _ => isin names (row_cell g "country_name" r)
     end.

(** Some character of the string passes the test. *)
Fixpoint any_char (p : ascii → bool) (s : string) : bool :=
  match s with
  | EmptyString => false
  | String c s' => p c || any_char p s'
  end.

(** A lower-case ASCII letter. *)
Definition is_lower (c : ascii) : bool :=
  (97 <=? nat_of_ascii c)%nat && (nat_of_ascii c <=? 122)%nat.

(** The entries of the table of countries. *)
Definition country_entries : list (string * string) :=
  map_to_list ISO2_TO_COUNTRY_FR.

(** A cleaned table with measures on two days and in two countries. *)
Definition table_days : DataFrame :=
  Frame (six_columns ++ ["country_name"])
    [ [CStr "Paris"; CStr "FR"; CDate (Date 2024 1 1); CNum (F64.of_decimal 4885 2);
       CNum (F64.of_decimal 235 2); CNum (F64.of_Z 42); CStr "France"];
      [CStr "Paris"; CStr "FR"; CDate (Date 2024 1 2); CNum (F64.of_decimal 4885 2);
       CNum (F64.of_decimal 235 2); CNum (F64.of_Z 50); CStr "France"];
      [CStr "Oslo"; CStr "NO"; CDate (Date 2024 1 2); CNum (F64.of_decimal 5991 2);
       CNum (F64.of_decimal 1075 2); CNum (F64.of_Z 21); CStr "Norvège"] ].


(** ** Facts on floats and strings *)

Module F64Facts.
Import F64.

Lemma compare_antisym (x y : float) (c : comparison) :
  SFcompare x y = Some c → SFcompare y x = Some (CompOpp c).
Proof.
  destruct x as [sx|sx| |sx mx ex], y as [sy|sy| |sy my ey]; simpl;
    try discriminate;
    try destruct sx; try destruct sy; intros [= <-]; try reflexivity.
  - rewrite (Z.compare_antisym ey ex).
    destruct (ey ?= ex)%Z; simpl; try reflexivity.
    rewrite (Pos.compare_cont_antisym mx my Eq). simpl.
    destruct (Pos.compare_cont Eq my mx); reflexivity.
  - rewrite (Z.compare_antisym ey ex).
    destruct (ey ?= ex)%Z; simpl; try reflexivity.
    rewrite (Pos.compare_cont_antisym mx my Eq). simpl.
    destruct (Pos.compare_cont Eq my mx); reflexivity.
Qed.

Lemma ltb_not_leb (x y : float) : ltb x y = true → leb y x = false.
Proof.
  unfold ltb, leb, SFltb, SFleb.
  destruct (SFcompare x y) as [[]|] eqn:E; try discriminate.
  intros _. rewrite (compare_antisym _ _ _ E). reflexivity.
Qed.

Lemma not_leb_ltb (x y : float) :
  is_nan x = false → is_nan y = false → leb x y = false → ltb y x = true.
Proof.
  unfold ltb, leb, SFltb, SFleb. intros Hx Hy.
  destruct (SFcompare x y) as [[]|] eqn:E; try discriminate.
  - intros _. rewrite (compare_antisym _ _ _ E). reflexivity.
  - destruct x, y; simpl in *; try discriminate.
Qed.

(** The comparison is lexicographic on (sign, exponent, mantissa), hence
    transitive. *)
Lemma ltb_trans (x y z : float) :
  ltb x y = true → ltb y z = true → ltb x z = true.
Proof.
  unfold ltb, SFltb.
  destruct x as [sx|sx| |sx mx ex], y as [sy|sy| |sy my ey],
    z as [sz|sz| |sz mz ez]; simpl; try discriminate;
    try (destruct sx; try discriminate); try (destruct sy; try discriminate);
    try (destruct sz; try discriminate); try reflexivity.
  - destruct (Z.compare_spec ex ey), (Z.compare_spec ey ez),
      (Z.compare_spec ex ez); subst; try lia; try discriminate;
      try reflexivity.
    rewrite !Pos.compare_cont_spec; simpl.
    destruct (Pos.compare_spec mx my), (Pos.compare_spec my mz),
      (Pos.compare_spec mx mz); simpl; subst; try lia; try discriminate;
      reflexivity.
  - destruct (Z.compare_spec ex ey), (Z.compare_spec ey ez),
      (Z.compare_spec ex ez); subst; try lia; try discriminate;
      try reflexivity.
    rewrite !Pos.compare_cont_spec; simpl.
    destruct (Pos.compare_spec mx my), (Pos.compare_spec my mz),
      (Pos.compare_spec mx mz); simpl; subst; try lia; try discriminate;
      reflexivity.
Qed.

Lemma ltb_leb (x y : float) : ltb x y = true → leb x y = true.
Proof.
  unfold ltb, leb, SFltb, SFleb.
  destruct (SFcompare x y) as [[]|]; try discriminate; reflexivity.
Qed.

Lemma leb_not_nan (x y : float) :
  leb x y = true → is_nan x = false ∧ is_nan y = false.
Proof. destruct x, y; simpl; try discriminate; auto. Qed.

Lemma ltb_not_nan (x y : float) :
  ltb x y = true → is_nan x = false ∧ is_nan y = false.
Proof. destruct x, y; simpl; try discriminate; auto. Qed.

End F64Facts.

Module StrFacts.
Import Str.

Lemma rstrip_idemp s : rstrip (rstrip s) = rstrip s.
Proof.
  induction s as [|c s IH]; simpl; [reflexivity|].
  destruct (rstrip s) as [|d r] eqn:E.
  - destruct (isspace c) eqn:Ec; simpl; [reflexivity|]. by rewrite Ec.
  - simpl in *. by rewrite IH.
Qed.

Lemma lstrip_idemp s : lstrip (lstrip s) = lstrip s.
Proof.
  induction s as [|c s IH]; simpl; [reflexivity|].
  destruct (isspace c) eqn:Ec; [exact IH|]. simpl. by rewrite Ec.
Qed.

Lemma head_ok_lstrip s : head_ok (lstrip s).
Proof.
  induction s as [|c s IH]; simpl; [exact I|].
  destruct (isspace c) eqn:Ec; [exact IH|exact Ec].
Qed.

Lemma lstrip_head_ok s : head_ok s → lstrip s = s.
Proof. destruct s as [|c s]; simpl; [done|]. by intros ->. Qed.

Lemma head_ok_rstrip s : head_ok s → head_ok (rstrip s).
Proof.
  destruct s as [|c s]; simpl; [done|]. intros Hc.
  destruct (rstrip s); [by rewrite Hc|exact Hc].
Qed.

Lemma strip_idemp s : strip (strip s) = strip s.
Proof.
  unfold strip.
  rewrite (lstrip_head_ok (rstrip (lstrip s))).
  - apply rstrip_idemp.
  - apply head_ok_rstrip, head_ok_lstrip.
Qed.

(** A character map that creates no white space and no new non-space
    at the ends keeps a string trimmed. *)
Lemma lstrip_map f s :
  (∀ c, isspace (f c) = true → isspace c = true) →
  head_ok s → lstrip (map f s) = map f s.
Proof.
  intros Hf. destruct s as [|c s]; simpl; [done|]. intros Hc.
  destruct (isspace (f c)) eqn:E; [|done].
  apply Hf in E. congruence.
Qed.

Lemma rstrip_map f s :
  (∀ c, isspace (f c) = true → isspace c = true) →
  rstrip s = s → rstrip (map f s) = map f s.
Proof.
  intros Hf. induction s as [|c s IH]; simpl; [done|].
  destruct (rstrip s) as [|d r] eqn:E.
  - destruct (isspace c) eqn:Ec; [discriminate|].
    intros [= <-]. simpl.
    destruct (isspace (f c)) eqn:E'; [|done].
    apply Hf in E'. congruence.
  - intros [= Hs]. subst s. rewrite (IH eq_refl). reflexivity.
Qed.

Lemma strip_map f s :
  (∀ c, isspace (f c) = true → isspace c = true) →
  strip (map f (strip s)) = map f (strip s).
Proof.
  intros Hf. unfold strip.
  rewrite (lstrip_map f); [|done|apply head_ok_rstrip, head_ok_lstrip].
  apply rstrip_map; [done|apply rstrip_idemp].
Qed.

Lemma map_map f g s : map f (map g s) = map (λ c, f (g c)) s.
Proof. induction s; simpl; congruence. Qed.

Lemma map_ext f g s : (∀ c, f c = g c) → map f s = map g s.
Proof. intros H. induction s; simpl; congruence. Qed.

Lemma all_chars_spec (p : ascii → bool) :
  all_chars p = true → ∀ c, p c = true.
Proof.
  unfold all_chars. rewrite forallb_forall. intros H c.
  rewrite <- (ascii_nat_embedding c). apply H, in_seq.
  pose proof (nat_ascii_bounded c). lia.
Qed.

Lemma lower_char_space c : isspace (lower_char c) = true → isspace c = true.
Proof.
  pose proof (all_chars_spec
    (λ c, implb (isspace (lower_char c)) (isspace c)) eq_refl c) as H.
  simpl in H. destruct (isspace (lower_char c)); [|discriminate].
  intros _. exact H.
Qed.

Lemma upper_char_space c : isspace (upper_char c) = true → isspace c = true.
Proof.
  pose proof (all_chars_spec
    (λ c, implb (isspace (upper_char c)) (isspace c)) eq_refl c) as H.
  simpl in H. destruct (isspace (upper_char c)); [|discriminate].
  intros _. exact H.
Qed.

Lemma lower_char_idemp c : lower_char (lower_char c) = lower_char c.
Proof.
  apply Ascii.eqb_eq.
  exact (all_chars_spec
    (λ c, Ascii.eqb (lower_char (lower_char c)) (lower_char c)) eq_refl c).
Qed.

Lemma upper_char_idemp c : upper_char (upper_char c) = upper_char c.
Proof.
  apply Ascii.eqb_eq.
  exact (all_chars_spec
    (λ c, Ascii.eqb (upper_char (upper_char c)) (upper_char c)) eq_refl c).
Qed.

Lemma upper_strip_idemp s : upper (strip (upper (strip s))) = upper (strip s).
Proof.
  unfold upper. rewrite (strip_map upper_char); [|apply upper_char_space].
  rewrite map_map. apply map_ext, upper_char_idemp.
Qed.

End StrFacts.

(** ** The comparison of floats and their exact values *)

Lemma digits2_pos_lower p : (2 ^ (Zpos (digits2_pos p) - 1) ≤ Zpos p)%Z.
Proof.
  induction p as [p IH|p IH|]; simpl digits2_pos; [| |simpl; lia].
  - rewrite Pos2Z.inj_succ.
    replace (Z.succ (Zpos (digits2_pos p)) - 1)%Z
      with (Z.succ (Zpos (digits2_pos p) - 1)) by lia.
    rewrite Z.pow_succ_r by lia. lia.
  - rewrite Pos2Z.inj_succ.
    replace (Z.succ (Zpos (digits2_pos p)) - 1)%Z
      with (Z.succ (Zpos (digits2_pos p) - 1)) by lia.
    rewrite Z.pow_succ_r by lia. lia.
Qed.

Lemma digits2_pos_upper p : (Zpos p < 2 ^ Zpos (digits2_pos p))%Z.
Proof.
  induction p as [p IH|p IH|]; simpl digits2_pos; [| |simpl; lia];
    rewrite Pos2Z.inj_succ, Z.pow_succ_r by lia; lia.
Qed.

(** In a valid float the mantissa has at most 53 digits, exactly 53 above
    the least exponent, and the exponent is at least -1074. *)
Lemma valid_finite s m e :
  valid_binary F64.prec F64.emax (S754_finite s m e) = true →
  (-1074 ≤ e)%Z ∧ (Zpos m < 2 ^ 53)%Z ∧ ((-1074 < e)%Z → (2 ^ 52 ≤ Zpos m)%Z).
Proof.
  simpl. unfold bounded, canonical_mantissa, fexp, emin, F64.prec, F64.emax.
  rewrite andb_true_iff, Z.eqb_eq, Z.leb_le. intros [Hc _].
  pose proof (digits2_pos_upper m) as Hu.
  pose proof (digits2_pos_lower m) as Hl.
  split; [lia|]. split.
  - assert (2 ^ Zpos (digits2_pos m) ≤ 2 ^ 53)%Z
      by (apply Z.pow_le_mono_r; lia).
    lia.
  - intros He. assert (Zpos (digits2_pos m) = 53)%Z as Hd by lia.
    rewrite Hd in Hl. exact Hl.
Qed.

Lemma switch_Eq_Eq c : Pos.switch_Eq Eq c = c.
Proof. by destruct c. Qed.

Lemma scaled_lt_exponent m1 e1 m2 e2 :
  (-1074 ≤ e1)%Z → (e1 < e2)%Z → (Zpos m1 < 2 ^ 53)%Z → (2 ^ 52 ≤ Zpos m2)%Z →
  (Zpos m1 * 2 ^ (e1 + 1074) < Zpos m2 * 2 ^ (e2 + 1074))%Z.
Proof.
  intros H1 H12 Hm1 Hm2.
  assert (0 < 2 ^ (e1 + 1074))%Z as Hp by (apply Z.pow_pos_nonneg; lia).
  assert (2 * 2 ^ (e1 + 1074) ≤ 2 ^ (e2 + 1074))%Z as Hq.
  { rewrite <- Z.pow_succ_r by lia. apply Z.pow_le_mono_r; lia. }
  change (2 ^ 53)%Z with (2 * 2 ^ 52)%Z in Hm1.
  assert (0 < 2 ^ 52)%Z as H52 by lia.
  generalize dependent (2 ^ 52)%Z. intros c Hm1 Hm2 Hc.
  generalize dependent (2 ^ (e1 + 1074))%Z. intros P HP HPQ.
  generalize dependent (2 ^ (e2 + 1074))%Z. intros Q HQ.
  nia.
Qed.

(** On valid finite floats the comparison is the comparison of the exact
    values. *)
Lemma compare_scaled x y zx zy :
  valid_binary F64.prec F64.emax x = true →
  valid_binary F64.prec F64.emax y = true →
  F64.scaled x = Some zx → F64.scaled y = Some zy →
  SFcompare x y = Some (zx ?= zy)%Z.
Proof.
  intros Vx Vy.
  destruct x as [sx|sx| |sx mx ex], y as [sy|sy| |sy my ey];
    try discriminate; unfold F64.scaled; intros [= <-] [= <-];
    unfold SFcompare; cbv beta iota.
  - reflexivity.
  - assert (0 < Zpos my * 2 ^ (ey + 1074))%Z as Hy.
    { destruct (valid_finite _ _ _ Vy) as (? & _).
      apply Z.mul_pos_pos; [lia|apply Z.pow_pos_nonneg; lia]. }
    destruct sy; unfold cond_Zopp; f_equal; symmetry.
    + apply Z.compare_gt_iff. lia.
    + apply Z.compare_lt_iff. lia.
  - assert (0 < Zpos mx * 2 ^ (ex + 1074))%Z as Hx.
    { destruct (valid_finite _ _ _ Vx) as (? & _).
      apply Z.mul_pos_pos; [lia|apply Z.pow_pos_nonneg; lia]. }
    destruct sx; unfold cond_Zopp; f_equal; symmetry.
    + apply Z.compare_lt_iff. lia.
    + apply Z.compare_gt_iff. lia.
  - destruct (valid_finite _ _ _ Vx) as (Hex & Hmx & Hnx).
    destruct (valid_finite _ _ _ Vy) as (Hey & Hmy & Hny).
    assert (0 < Zpos mx * 2 ^ (ex + 1074))%Z as Hx
      by (apply Z.mul_pos_pos; [lia|apply Z.pow_pos_nonneg; lia]).
    assert (0 < Zpos my * 2 ^ (ey + 1074))%Z as Hy
      by (apply Z.mul_pos_pos; [lia|apply Z.pow_pos_nonneg; lia]).
    assert ((ex < ey)%Z →
            (Zpos mx * 2 ^ (ex + 1074) < Zpos my * 2 ^ (ey + 1074))%Z) as Hlt
      by (intros; apply scaled_lt_exponent; try lia; apply Hny; lia).
    assert ((ey < ex)%Z →
            (Zpos my * 2 ^ (ey + 1074) < Zpos mx * 2 ^ (ex + 1074))%Z) as Hgt
      by (intros; apply scaled_lt_exponent; try lia; apply Hnx; lia).
    assert (ex = ey →
            (Zpos mx * 2 ^ (ex + 1074) ?= Zpos my * 2 ^ (ey + 1074))%Z
            = (mx ?= my)%positive) as Heq.
    { intros ->. symmetry.
      apply (Zmult_compare_compat_r (Zpos mx) (Zpos my)), Z.lt_gt.
      apply Z.pow_pos_nonneg; lia. }
    destruct sx, sy; unfold cond_Zopp; cbv beta iota; f_equal; symmetry.
    + (* both negative *)
      rewrite Z.compare_opp.
      destruct (Z.compare_spec ex ey) as [E|E|E].
      * rewrite Pos.compare_cont_spec, switch_Eq_Eq.
        rewrite (Z.compare_antisym (Zpos mx * 2 ^ (ex + 1074))), (Heq E).
        reflexivity.
      * apply Z.compare_gt_iff. by apply Hlt.
      * apply Z.compare_lt_iff. by apply Hgt.
    + apply Z.compare_lt_iff. lia.
    + apply Z.compare_gt_iff. lia.
    + destruct (Z.compare_spec ex ey) as [E|E|E].
      * rewrite Pos.compare_cont_spec, switch_Eq_Eq. by apply Heq.
      * apply Z.compare_lt_iff. by apply Hlt.
      * apply Z.compare_gt_iff. by apply Hgt.
Qed.

Lemma leb_scaled x y zx zy :
  valid_binary F64.prec F64.emax x = true →
  valid_binary F64.prec F64.emax y = true →
  F64.scaled x = Some zx → F64.scaled y = Some zy →
  F64.leb x y = true ↔ (zx ≤ zy)%Z.
Proof.
  intros Vx Vy Hx Hy. unfold F64.leb, SFleb.
  rewrite (compare_scaled x y zx zy Vx Vy Hx Hy).
  destruct (Z.compare_spec zx zy); split; intros; try done; lia.
Qed.

Lemma ltb_scaled x y zx zy :
  valid_binary F64.prec F64.emax x = true →
  valid_binary F64.prec F64.emax y = true →
  F64.scaled x = Some zx → F64.scaled y = Some zy →
  F64.ltb x y = true ↔ (zx < zy)%Z.
Proof.
  intros Vx Vy Hx Hy. unfold F64.ltb, SFltb.
  rewrite (compare_scaled x y zx zy Vx Vy Hx Hy).
  destruct (Z.compare_spec zx zy); split; intros; try done; lia.
Qed.

(** ** Properties of the classification policy *)

Lemma good_lt_medium : F64.ltb (F64.of_Z GOOD_MAX) (F64.of_Z MEDIUM_MAX) = true.
Proof. vm_compute. reflexivity. Qed.

Lemma eaqi_label_tests v :
  eaqi_label v =
    match tests v with
    | (true, _, _) => "Inconnu"
    | (false, true, _) => "Bon"
    | (false, false, true) => "Moyen"
    | (false, false, false) => "Mauvais"
    end.
Proof.
  unfold eaqi_label, tests.
  destruct (F64.is_nan v), (F64.leb v (F64.of_Z GOOD_MAX)),
    (F64.leb v (F64.of_Z MEDIUM_MAX)); reflexivity.
Qed.

Lemma eaqi_color_tests v :
  eaqi_color v =
    match tests v with
    | (true, _, _) => COLOR_UNKNOWN
    | (false, true, _) => COLOR_GOOD
    | (false, false, true) => COLOR_MED
    | (false, false, false) => COLOR_BAD
    end.
Proof.
  unfold eaqi_color, tests.
  destruct (F64.is_nan v), (F64.leb v (F64.of_Z GOOD_MAX)),
    (F64.leb v (F64.of_Z MEDIUM_MAX)); reflexivity.
Qed.

(** A value at most 40 is at most 80, and a missing value passes no test. *)
Lemma tests_coherent v :
  tests v ∈ [ (true, false, false); (false, true, true);
              (false, false, true); (false, false, false) ].
Proof.
  unfold tests.
  destruct (F64.is_nan v) eqn:Hn.
  - destruct v; try discriminate. simpl. in_list.
  - destruct (F64.leb v (F64.of_Z GOOD_MAX)) eqn:Hg;
      destruct (F64.leb v (F64.of_Z MEDIUM_MAX)) eqn:Hm; try in_list.
    exfalso.
    apply F64Facts.not_leb_ltb in Hm; [|done|reflexivity].
    pose proof (F64Facts.ltb_trans _ _ _ good_lt_medium Hm) as H.
    apply F64Facts.ltb_not_leb in H. congruence.
Qed.

(** The tests of a value, from where it stands with respect to 40 and 80. *)
Lemma tests_good v : F64.leb v (F64.of_Z GOOD_MAX) = true → tests v = (false, true, true).
Proof.
  intros H. pose proof (tests_coherent v) as Hc. unfold tests in *.
  rewrite H in *. destruct (F64.is_nan v), (F64.leb v (F64.of_Z MEDIUM_MAX));
    first [reflexivity | list_cases Hc].
Qed.

Lemma tests_medium v :
  F64.ltb (F64.of_Z GOOD_MAX) v = true → F64.leb v (F64.of_Z MEDIUM_MAX) = true →
  tests v = (false, false, true).
Proof.
  intros H1 H2. unfold tests. rewrite H2, (F64Facts.ltb_not_leb _ _ H1).
  by destruct (F64Facts.ltb_not_nan _ _ H1) as [_ ->].
Qed.

Lemma tests_bad v :
  F64.ltb (F64.of_Z MEDIUM_MAX) v = true → tests v = (false, false, false).
Proof.
  intros H. unfold tests. rewrite (F64Facts.ltb_not_leb _ _ H).
  rewrite (F64Facts.ltb_not_leb _ _ (F64Facts.ltb_trans _ _ _ good_lt_medium H)).
  by destruct (F64Facts.ltb_not_nan _ _ H) as [_ ->].
Qed.

Lemma tests_nan v : F64.is_nan v = true → tests v = (true, false, false).
Proof. destruct v; try discriminate. reflexivity. Qed.

(** Every value is missing, at most 40, between 40 and 80, or above 80. *)
Lemma float_cases v :
  F64.is_nan v = true ∨ F64.leb v (F64.of_Z GOOD_MAX) = true ∨
  (F64.ltb (F64.of_Z GOOD_MAX) v = true ∧ F64.leb v (F64.of_Z MEDIUM_MAX) = true) ∨
  F64.ltb (F64.of_Z MEDIUM_MAX) v = true.
Proof.
  destruct (F64.is_nan v) eqn:Hn; [by left|right].
  destruct (F64.leb v (F64.of_Z GOOD_MAX)) eqn:Hg; [by left|right].
  apply F64Facts.not_leb_ltb in Hg; [|done|reflexivity].
  destruct (F64.leb v (F64.of_Z MEDIUM_MAX)) eqn:Hm; [by left|right].
  apply F64Facts.not_leb_ltb in Hm; [done|done|reflexivity].
Qed.

(** The two thresholds are valid floats, of exact values 40 and 80. *)
Lemma thresholds_scaled :
  valid_binary F64.prec F64.emax (F64.of_Z GOOD_MAX) = true ∧
  F64.scaled (F64.of_Z GOOD_MAX) = Some (40 * 2 ^ 1074)%Z ∧
  valid_binary F64.prec F64.emax (F64.of_Z MEDIUM_MAX) = true ∧
  F64.scaled (F64.of_Z MEDIUM_MAX) = Some (80 * 2 ^ 1074)%Z.
Proof. vm_compute. repeat split; reflexivity. Qed.

(** C1. The label is defined on every value and follows the thresholds:
    a missing value (NaN) is labelled Inconnu (the Unknown tier), a value
    at most 40 Bon (Good), a value above 40 and at most 80 Moyen (Medium),
    a value above 80 Mauvais (Bad); every value is in one of these four
    cases. The comparisons are those of binary64, which on a valid finite
    float are the comparisons of its exact value x with 40 and 80 (stated
    on z = x * 2^1074, an integer): x <= 40 gives Bon, 40 < x <= 80 Moyen,
    80 < x Mauvais. Every negative number and both zeros are Bon; in
    particular 40.0, 0.0, -0.0, -12.5 and minus infinity are Bon, 40.0001
    and 80.0 are Moyen, 80.0001 and plus infinity are Mauvais. *)
Theorem eaqi_label_thresholds :
  (∀ v, F64.is_nan v = true → eaqi_label v = "Inconnu") ∧
  (∀ v, F64.leb v (F64.of_Z 40) = true → eaqi_label v = "Bon") ∧
  (∀ v, F64.ltb (F64.of_Z 40) v = true → F64.leb v (F64.of_Z 80) = true →
        eaqi_label v = "Moyen") ∧
  (∀ v, F64.ltb (F64.of_Z 80) v = true → eaqi_label v = "Mauvais") ∧
  (∀ v, F64.is_nan v = true ∨ F64.leb v (F64.of_Z 40) = true ∨
        (F64.ltb (F64.of_Z 40) v = true ∧ F64.leb v (F64.of_Z 80) = true) ∨
        F64.ltb (F64.of_Z 80) v = true) ∧
  (∀ v z, valid_binary F64.prec F64.emax v = true → F64.scaled v = Some z →
          ((z ≤ 40 * 2 ^ 1074)%Z → eaqi_label v = "Bon") ∧
          ((40 * 2 ^ 1074 < z)%Z → (z ≤ 80 * 2 ^ 1074)%Z → eaqi_label v = "Moyen") ∧
          ((80 * 2 ^ 1074 < z)%Z → eaqi_label v = "Mauvais")) ∧
  (∀ m e, eaqi_label (S754_finite true m e) = "Bon") ∧
  (∀ s, eaqi_label (S754_zero s) = "Bon") ∧
  eaqi_label F64.nan = "Inconnu" ∧
  eaqi_label (F64.of_decimal 400 1) = "Bon" ∧
  eaqi_label (S754_zero false) = "Bon" ∧
  eaqi_label (S754_zero true) = "Bon" ∧
  eaqi_label (F64.of_decimal (-125) 1) = "Bon" ∧
  eaqi_label F64.ninf = "Bon" ∧
  eaqi_label (F64.of_decimal 400001 4) = "Moyen" ∧
  eaqi_label (F64.of_decimal 800 1) = "Moyen" ∧
  eaqi_label (F64.of_decimal 800001 4) = "Mauvais" ∧
  eaqi_label F64.pinf = "Mauvais".
Proof.
  split; [|split; [|split; [|split; [|split; [|split; [|split; [|split]]]]]]].
  - intros v H. by rewrite eaqi_label_tests, (tests_nan v H).
  - intros v H. by rewrite eaqi_label_tests, (tests_good v H).
  - intros v H1 H2. by rewrite eaqi_label_tests, (tests_medium v H1 H2).
  - intros v H. by rewrite eaqi_label_tests, (tests_bad v H).
  - exact float_cases.
  - intros v z Vv Hz.
    destruct thresholds_scaled as (Vg & Hg & Vm & Hm).
    rewrite eaqi_label_tests. split; [|split].
    + intros Hle. rewrite tests_good; [done|].
      by apply (leb_scaled v _ z _ Vv Vg Hz Hg).
    + intros Hlt Hle. rewrite tests_medium; [done| |].
      * by apply (ltb_scaled _ v _ z Vg Vv Hg Hz).
      * by apply (leb_scaled v _ z _ Vv Vm Hz Hm).
    + intros Hlt. rewrite tests_bad; [done|].
      by apply (ltb_scaled _ v _ z Vm Vv Hm Hz).
  - intros m e. vm_compute. reflexivity.
  - intros s. vm_compute. reflexivity.
  - vm_compute. repeat split.
Qed.

(** C2. The label and the color of a value are two views of one
    classification: the pair (label, color) of every value, missing or
    not, is one of four fixed pairs whose labels are pairwise distinct and
    whose colors are pairwise distinct, so two values have the same label
    exactly when they have the same color; and for v1 at most 40, v2 above
    40 and at most 80, v3 above 80, the three labels differ pairwise and so
    do the three colors. *)
Theorem label_color_same_partition :
  (∀ v, (eaqi_label v, eaqi_color v) ∈
          [ ("Inconnu", COLOR_UNKNOWN); ("Bon", COLOR_GOOD);
            ("Moyen", COLOR_MED); ("Mauvais", COLOR_BAD) ]) ∧
  NoDup ["Inconnu"; "Bon"; "Moyen"; "Mauvais"] ∧
  NoDup [COLOR_UNKNOWN; COLOR_GOOD; COLOR_MED; COLOR_BAD] ∧
  (∀ v w, eaqi_label v = eaqi_label w ↔ eaqi_color v = eaqi_color w) ∧
  (∀ v1 v2 v3,
     F64.leb v1 (F64.of_Z 40) = true →
     F64.ltb (F64.of_Z 40) v2 = true → F64.leb v2 (F64.of_Z 80) = true →
     F64.ltb (F64.of_Z 80) v3 = true →
     (eaqi_label v1 ≠ eaqi_label v2 ∧ eaqi_label v2 ≠ eaqi_label v3 ∧
      eaqi_label v1 ≠ eaqi_label v3) ∧
     (eaqi_color v1 ≠ eaqi_color v2 ∧ eaqi_color v2 ≠ eaqi_color v3 ∧
      eaqi_color v1 ≠ eaqi_color v3)).
Proof.
  split; [|split; [|split; [|split]]].
  - intros v. rewrite eaqi_label_tests, eaqi_color_tests.
    pose proof (tests_coherent v) as Hc.
    destruct (tests v) as [[[] []] []]; first [in_list | list_cases Hc].
  - nodup_list.
  - nodup_list.
  - intros v w. rewrite !eaqi_label_tests, !eaqi_color_tests.
    destruct (tests v) as [[[] []] []], (tests w) as [[[] []] []];
      split; intros H; first [reflexivity | discriminate H].
  - intros v1 v2 v3 H1 H2 H2' H3.
    rewrite !eaqi_label_tests, !eaqi_color_tests.
    rewrite (tests_good v1 H1), (tests_medium v2 H2 H2'), (tests_bad v3 H3).
    repeat split; discriminate.
Qed.

(** On ASCII text, Python's functions return ASCII text, and the names are
    those that the functions of [Str] give. *)
Lemma is_ascii_map (g : ascii → ascii) (s : string) :
  Str.all_chars (λ c, implb (nat_of_ascii c <? 128)%nat (nat_of_ascii (g c) <? 128)%nat) = true →
  Str.is_ascii s = true → Str.is_ascii (Str.map g s) = true.
Proof.
  intros Hg. induction s as [|c s IH]; simpl; [done|].
  rewrite !andb_true_iff. intros [Hc Hs]. split; [|by apply IH].
  pose proof (StrFacts.all_chars_spec _ Hg c) as H. simpl in H.
  by rewrite Hc in H.
Qed.

Lemma is_ascii_lstrip (s : string) :
  Str.is_ascii s = true → Str.is_ascii (Str.lstrip s) = true.
Proof.
  induction s as [|c s IH]; simpl; [done|].
  destruct (Str.isspace c); [|done].
  rewrite andb_true_iff. intros [_ Hs]. by apply IH.
Qed.

Lemma is_ascii_rstrip (s : string) :
  Str.is_ascii s = true → Str.is_ascii (Str.rstrip s) = true.
Proof.
  induction s as [|c s IH]; simpl; [done|].
  rewrite andb_true_iff. intros [Hc Hs]. specialize (IH Hs).
  destruct (Str.rstrip s) as [|d r].
  - destruct (Str.isspace c); simpl; [done|]. by rewrite Hc.
  - change (Str.is_ascii (String c (String d r)))
      with ((nat_of_ascii c <? 128)%nat && Str.is_ascii (String d r)).
    by rewrite Hc, IH.
Qed.

Lemma is_ascii_strip (s : string) :
  Str.is_ascii s = true → Str.is_ascii (Str.strip s) = true.
Proof. intros H. by apply is_ascii_rstrip, is_ascii_lstrip. Qed.

Lemma is_ascii_upper (s : string) :
  Str.is_ascii s = true → Str.is_ascii (Str.upper s) = true.
Proof. by apply is_ascii_map. Qed.

Lemma is_ascii_lower (s : string) :
  Str.is_ascii s = true → Str.is_ascii (Str.lower s) = true.
Proof. by apply is_ascii_map. Qed.

Lemma ascii_faithful_ascii : ascii_faithful AsciiStr.
Proof. intros s _. by repeat split. Qed.

Lemma ascii_upper_strip (py : PyStr) (s : string) :
  ascii_faithful py → Str.is_ascii s = true →
  py_upper (py_strip s) = Str.upper (Str.strip s).
Proof.
  intros Hf Hs. destruct (Hf s Hs) as (-> & _ & _).
  by destruct (Hf (Str.strip s) (is_ascii_strip s Hs)) as (_ & -> & _).
Qed.

Lemma ascii_lower_strip (py : PyStr) (s : string) :
  ascii_faithful py → Str.is_ascii s = true →
  py_lower (py_strip s) = Str.lower (Str.strip s).
Proof.
  intros Hf Hs. destruct (Hf s Hs) as (-> & _ & _).
  by destruct (Hf (Str.strip s) (is_ascii_strip s Hs)) as (_ & _ & ->).
Qed.

Lemma ascii_country_name (py : PyStr) (s : string) :
  ascii_faithful py → Str.is_ascii s = true →
  country_name (CStr s) = country_name (py := AsciiStr) (CStr s).
Proof.
  intros Hf Hs. unfold country_name. cbv zeta.
  by rewrite (ascii_upper_strip py s Hf Hs).
Qed.

(** C7. [country_name] is a function of the code alone: on a string it
    trims and upper-cases it (as Python does) and looks the result up in
    the fixed table, returning the result itself when the table has no
    entry for it, so that two strings with the same trimmed upper-case form
    have the same name; anything that is not a string ([None], a number, a
    date) gives Inconnu. Python's [strip] and [upper] being what they are
    on ASCII text, an ASCII code and its trimmed upper-case form have the
    same name, fr and Fr between spaces give France, and zz gives ZZ. *)
Theorem country_name_resolution (py : PyStr) :
  ascii_faithful py →
  (∀ code, country_name (CStr code) =
             default (py_upper (py_strip code))
                     (ISO2_TO_COUNTRY_FR !! py_upper (py_strip code))) ∧
  (∀ code, ISO2_TO_COUNTRY_FR !! py_upper (py_strip code) = None →
           country_name (CStr code) = py_upper (py_strip code)) ∧
  (∀ a b, py_upper (py_strip a) = py_upper (py_strip b) →
          country_name (CStr a) = country_name (CStr b)) ∧
  (∀ code, Str.is_ascii code = true →
           country_name (CStr (py_upper (py_strip code))) = country_name (CStr code)) ∧
  country_name (CStr "fr") = "France" ∧
  country_name (CStr " Fr ") = "France" ∧
  country_name (CStr "zz") = "ZZ" ∧
  country_name CNone = "Inconnu" ∧
  (∀ c, (∀ s, c ≠ CStr s) → country_name c = "Inconnu").
Proof.
  intros Hf.
  split; [|split; [|split; [|split; [|split; [|split; [|split; [|split]]]]]]].
  - reflexivity.
  - intros code H. unfold country_name. cbv zeta. by rewrite H.
  - intros a b H. unfold country_name. cbv zeta. by rewrite H.
  - intros code Hc. rewrite (ascii_upper_strip py code Hf Hc).
    assert (Str.is_ascii (Str.upper (Str.strip code)) = true) as Hu
      by by apply is_ascii_upper, is_ascii_strip.
    rewrite (ascii_country_name py _ Hf Hu), (ascii_country_name py _ Hf Hc).
    unfold country_name. cbv zeta. change (@py_upper AsciiStr) with Str.upper.
    change (@py_strip AsciiStr) with Str.strip.
    by rewrite StrFacts.upper_strip_idemp.
  - rewrite (ascii_country_name py _ Hf) by reflexivity. vm_compute. reflexivity.
  - rewrite (ascii_country_name py _ Hf) by reflexivity. vm_compute. reflexivity.
  - rewrite (ascii_country_name py _ Hf) by reflexivity. vm_compute. reflexivity.
  - reflexivity.
  - intros [] H; try reflexivity. by destruct (H s).
Qed.

(** C7 with the functions cut down to ASCII text. *)
Lemma country_name_resolution_witness :
  let py := AsciiStr in
  (∀ code, country_name (CStr code) =
             default (py_upper (py_strip code))
                     (ISO2_TO_COUNTRY_FR !! py_upper (py_strip code))) ∧
  (∀ code, ISO2_TO_COUNTRY_FR !! py_upper (py_strip code) = None →
           country_name (CStr code) = py_upper (py_strip code)) ∧
  (∀ a b, py_upper (py_strip a) = py_upper (py_strip b) →
          country_name (CStr a) = country_name (CStr b)) ∧
  (∀ code, Str.is_ascii code = true →
           country_name (CStr (py_upper (py_strip code))) = country_name (CStr code)) ∧
  country_name (CStr "fr") = "France" ∧
  country_name (CStr " Fr ") = "France" ∧
  country_name (CStr "zz") = "ZZ" ∧
  country_name CNone = "Inconnu" ∧
  (∀ c, (∀ s, c ≠ CStr s) → country_name c = "Inconnu").
Proof. exact (country_name_resolution AsciiStr ascii_faithful_ascii). Defined.

(** ** Columns of a table *)

Lemma index_of_lookup name cs i :
  Frame.index_of name cs = Some i → cs !! i = Some name.
Proof.
  revert i. induction cs as [|c cs IH]; intros i; simpl; [discriminate|].
  destruct (String.eqb_spec c name) as [->|Hne].
  - by intros [= <-].
  - destruct (Frame.index_of name cs) as [j|]; simpl; [|discriminate].
    intros [= <-]. by apply IH.
Qed.

Lemma index_of_elem name cs :
  name ∈ cs → ∃ i, Frame.index_of name cs = Some i.
Proof.
  induction cs as [|c cs IH]; simpl.
  - by intros ?%elem_of_nil.
  - destruct (String.eqb_spec c name) as [->|Hne]; [by eexists|].
    intros [?|Hin]%elem_of_cons; [congruence|].
    destruct (IH Hin) as [i ->]. by eexists.
Qed.

Lemma index_of_None name cs :
  Frame.index_of name cs = None → name ∉ cs.
Proof.
  intros H Hin. destruct (index_of_elem _ _ Hin) as [i Hi]. congruence.
Qed.

Lemma index_of_lt name cs i :
  Frame.index_of name cs = Some i → i < length cs.
Proof. intros H%index_of_lookup. by eapply lookup_lt_Some. Qed.

Lemma index_of_app name cs more i :
  Frame.index_of name cs = Some i → Frame.index_of name (cs ++ more) = Some i.
Proof.
  revert i. induction cs as [|c cs IH]; intros i; simpl; [discriminate|].
  destruct (String.eqb c name); [done|].
  destruct (Frame.index_of name cs) as [j|]; simpl; [|discriminate].
  intros [= <-]. by rewrite (IH j eq_refl).
Qed.

Lemma index_of_app_new name cs :
  Frame.index_of name cs = None →
  Frame.index_of name (cs ++ [name]) = Some (length cs).
Proof.
  induction cs as [|c cs IH]; simpl.
  - by rewrite String.eqb_refl.
  - destruct (String.eqb c name); [discriminate|].
    destruct (Frame.index_of name cs); simpl; [discriminate|].
    intros _. by rewrite IH.
Qed.

Lemma index_of_inj a b cs i :
  Frame.index_of a cs = Some i → Frame.index_of b cs = Some i → a = b.
Proof. intros Ha%index_of_lookup Hb%index_of_lookup. congruence. Qed.

Lemma wf_row f r : Frame.wf f = true → r ∈ rows f → length r = length (columns f).
Proof.
  unfold Frame.wf. rewrite andb_true_iff, forallb_forall. intros [_ H] Hin.
  apply Nat.eqb_eq, H. by apply list_elem_of_In.
Qed.

Lemma wf_nodup f : Frame.wf f = true → NoDup (columns f).
Proof.
  unfold Frame.wf. rewrite andb_true_iff. intros [H _].
  by apply bool_decide_eq_true in H.
Qed.

Lemma wf_intro f :
  NoDup (columns f) →
  (∀ r, r ∈ rows f → length r = length (columns f)) → Frame.wf f = true.
Proof.
  intros Hnd H. unfold Frame.wf. apply andb_true_iff. split.
  - by apply bool_decide_eq_true.
  - apply forallb_forall. intros r Hin.
    apply Nat.eqb_eq, H. by apply list_elem_of_In.
Qed.

Lemma elem_of_zip_with {A B C} (g : A → B → C) (l : list A) (k : list B) z :
  z ∈ zip_with g l k → ∃ x y, z = g x y ∧ x ∈ l ∧ y ∈ k.
Proof.
  revert k. induction l as [|x l IH]; intros [|y k]; simpl;
    try by intros ?%elem_of_nil.
  intros [->|Hin]%elem_of_cons.
  - exists x, y. repeat split; apply list_elem_of_here.
  - destruct (IH _ Hin) as (x' & y' & -> & ? & ?).
    exists x', y'. repeat split; by apply list_elem_of_further.
Qed.

(** Assigning a column keeps the table well formed, with as many rows. *)
Lemma setitem_wf name values f :
  Frame.wf f = true → Frame.wf (Frame.setitem name values f) = true.
Proof.
  intros Hwf. pose proof (wf_nodup f Hwf) as Hnd.
  unfold Frame.setitem.
  destruct (Frame.index_of name (columns f)) as [i|] eqn:Hi; apply wf_intro; simpl.
  - done.
  - intros r (x & y & -> & Hx & _)%elem_of_zip_with.
    rewrite length_insert. by apply wf_row.
  - apply NoDup_app. split; [done|]. split; [|apply NoDup_singleton].
    intros x Hx ->%list_elem_of_singleton. by apply (index_of_None _ _ Hi).
  - intros r (x & y & -> & Hx & _)%elem_of_zip_with.
    rewrite !length_app. simpl. by rewrite (wf_row f x).
Qed.

Lemma setitem_rows_length name values f :
  length values = length (rows f) →
  length (rows (Frame.setitem name values f)) = length (rows f).
Proof.
  intros H. unfold Frame.setitem.
  destruct (Frame.index_of name (columns f)); simpl;
    rewrite length_zip_with; lia.
Qed.

Lemma map_zip_with_l {A B C D} (g : A → B → C) (k : C → D) (p : A → D)
    (l : list A) (vs : list B) :
  length vs = length l →
  (∀ x y, x ∈ l → k (g x y) = p x) →
  map k (zip_with g l vs) = map p l.
Proof.
  revert vs. induction l as [|x l IH]; intros [|y vs]; simpl; try done.
  intros [= Hlen] H. f_equal.
  - apply H, list_elem_of_here.
  - apply IH; [done|]. intros ???. by apply H, list_elem_of_further.
Qed.

Lemma map_zip_with_r {A B C} (g : A → B → C) (k : C → B)
    (l : list A) (vs : list B) :
  length vs = length l →
  (∀ x y, x ∈ l → k (g x y) = y) →
  map k (zip_with g l vs) = vs.
Proof.
  revert vs. induction l as [|x l IH]; intros [|y vs]; simpl; try done.
  intros [= Hlen] H. f_equal.
  - apply H, list_elem_of_here.
  - apply IH; [done|]. intros ???. by apply H, list_elem_of_further.
Qed.

(** Reading back the column that was assigned. *)
Lemma getitem_setitem_same name values f :
  Frame.wf f = true → length values = length (rows f) →
  Frame.getitem name (Frame.setitem name values f) = Some values.
Proof.
  intros Hwf Hlen. unfold Frame.getitem, Frame.setitem, Frame.icol.
  destruct (Frame.index_of name (columns f)) as [i|] eqn:Hi; simpl.
  - rewrite Hi. simpl. f_equal. apply map_zip_with_r; [done|].
    intros r v Hr. unfold Frame.cell_at.
    rewrite list_lookup_insert_eq; [done|].
    rewrite (wf_row f r Hwf Hr). by eapply index_of_lt.
  - rewrite (index_of_app_new _ _ Hi). simpl. f_equal.
    apply map_zip_with_r; [done|].
    intros r v Hr. unfold Frame.cell_at.
    rewrite lookup_app_r; rewrite (wf_row f r Hwf Hr); [|done].
    by rewrite Nat.sub_diag.
Qed.

(** Reading another column after an assignment. *)
Lemma getitem_setitem_other a name values f :
  Frame.wf f = true → length values = length (rows f) →
  a ≠ name → a ∈ columns f →
  Frame.getitem a (Frame.setitem name values f) = Frame.getitem a f.
Proof.
  intros Hwf Hlen Hne Ha. destruct (index_of_elem _ _ Ha) as [j Hj].
  unfold Frame.getitem, Frame.setitem, Frame.icol. rewrite Hj. simpl.
  destruct (Frame.index_of name (columns f)) as [i|] eqn:Hi; simpl.
  - rewrite Hj. simpl. f_equal. apply map_zip_with_l; [done|].
    intros r v Hr. unfold Frame.cell_at.
    rewrite list_lookup_insert_ne; [done|].
    intros ->. apply Hne. symmetry. by eapply index_of_inj.
  - rewrite (index_of_app _ _ _ _ Hj). simpl. f_equal.
    apply map_zip_with_l; [done|].
    intros r v Hr. unfold Frame.cell_at.
    rewrite lookup_app_l; [done|].
    rewrite (wf_row f r Hwf Hr). by eapply index_of_lt.
Qed.

Lemma setitem_columns_elem a name values f :
  a ∈ columns f → a ∈ columns (Frame.setitem name values f).
Proof.
  intros Ha. unfold Frame.setitem.
  destruct (Frame.index_of name (columns f)); simpl; [done|].
  apply elem_of_app. by left.
Qed.

Lemma getitem_length name f c :
  Frame.getitem name f = Some c → length c = length (rows f).
Proof.
  unfold Frame.getitem, Frame.icol.
  destruct (Frame.index_of name (columns f)); simpl; [|discriminate].
  intros [= <-]. apply length_map.
Qed.

Lemma getitem_elem name f :
  name ∈ columns f → ∃ c, Frame.getitem name f = Some c.
Proof.
  intros [i Hi]%index_of_elem. unfold Frame.getitem. rewrite Hi. by eexists.
Qed.

(** ** Running the computations *)

Lemma bind_run {A B} (m : M A) (k : A → M B) (h : store) :
  (m ≫= k) h =
    match m h with
    | (Return a, h') => k a h'
    | (Raise e, h') => (Raise e, h')
    end.
Proof. reflexivity. Qed.

Lemma deref_run (df : ref) (f : DataFrame) (h : store) :
  h !! df = Some f → deref df h = (Return f, h).
Proof. intros H. unfold deref. by rewrite H. Qed.

(** A column is read and a column is assigned, in place. *)
Lemma assign_column_run {A} (a b : string) (T : list cell → list cell)
    (k : M A) (df : ref) (g : DataFrame) (c : list cell) (h : store) :
  h !! df = Some g → Frame.getitem a g = Some c → length (T c) = length c →
  (c ← getitem df a; _ ← setitem df b (T c); k) h
  = k (<[df := Frame.setitem b (T c) g]> h).
Proof.
  intros Hh Hc Hlen.
  rewrite bind_run. unfold getitem at 1. rewrite bind_run, (deref_run _ _ _ Hh), Hc.
  simpl. rewrite bind_run. unfold setitem.
  rewrite bind_run, (deref_run _ _ _ Hh).
  rewrite Hlen, (getitem_length _ _ _ Hc), Nat.eqb_refl. reflexivity.
Qed.

(** ** Properties of [prepare] *)

Lemma elem_of_needed x : x ∈ needed ↔ x ∈ needed_list.
Proof.
  unfold needed, needed_list.
  rewrite !elem_of_union, !elem_of_singleton, !elem_of_cons, elem_of_nil.
  tauto.
Qed.

Lemma elem_of_missing x (cs : list string) :
  x ∈ needed ∖ (list_to_set cs : gset string) ↔ x ∈ needed_list ∧ x ∉ cs.
Proof. by rewrite elem_of_difference, elem_of_needed, elem_of_list_to_set. Qed.

Lemma missing_empty (cs : list string) :
  needed ∖ (list_to_set cs : gset string) = ∅ ↔ ∀ x, x ∈ needed_list → x ∈ cs.
Proof.
  split.
  - intros H x Hx. destruct (decide (x ∈ cs)) as [|Hn]; [done|].
    assert (x ∈ (∅ : gset string)) as Hin
      by (rewrite <- H; by apply elem_of_missing).
    by apply not_elem_of_empty in Hin.
  - intros H. apply leibniz_equiv, elem_of_equiv_empty. intros x.
    rewrite elem_of_missing. intros [Hx Hn]. by apply Hn, H.
Qed.

(** [sorted(s)] lists the elements of [s], each once, in increasing order. *)
Lemma sorted_spec (s : gset string) :
  StronglySorted String.le (sorted s) ∧ NoDup (sorted s) ∧
  ∀ x, x ∈ sorted s ↔ x ∈ s.
Proof.
  unfold sorted. split; [|split].
  - apply StronglySorted_merge_sort; apply _.
  - rewrite merge_sort_Permutation. apply NoDup_elements.
  - intros x. rewrite merge_sort_Permutation. apply elem_of_elements.
Qed.

Lemma sorted_singleton (x : string) : sorted {[ x ]} = [x].
Proof. unfold sorted. by rewrite elements_singleton. Qed.

Section PrepareFacts.

Context {py : PyStr}.
Variable to_datetime : list cell → list (option date).
Variable to_numeric : list cell → list float.
(** pandas returns a column as long as the one it is given. *)
Hypothesis to_datetime_length : ∀ c, length (to_datetime c) = length c.
Hypothesis to_numeric_length : ∀ c, length (to_numeric c) = length c.

Lemma col_getitem name f :
  name ∈ columns f → Frame.getitem name f = Some (col name f).
Proof. intros [c Hc]%getitem_elem. unfold col. by rewrite Hc. Qed.

Lemma col_length name f : name ∈ columns f → length (col name f) = length (rows f).
Proof. intros H. eapply getitem_length. by apply col_getitem. Qed.

Lemma parsed_columns_elem a f : a ∈ columns f → a ∈ columns (parsed to_datetime to_numeric f).
Proof.
  intros H. unfold parsed, name_country, parse_number, parse_date.
  by repeat apply setitem_columns_elem.
Qed.

(** [prepare] raises its error exactly when a needed column is missing. *)
Lemma prepare_raises (df : ref) (f : DataFrame) (h : store) :
  h !! df = Some f →
  needed ∖ (list_to_set (columns f) : gset string) ≠ ∅ →
  prepare to_datetime to_numeric df h
  = (Raise (ValueError (sorted (needed ∖ list_to_set (columns f))) (columns f)), h).
Proof.
  intros Hh Hm. unfold prepare. rewrite bind_run, (deref_run _ _ _ Hh).
  by rewrite bool_decide_eq_true_2.
Qed.

Lemma prepare_returns (df : ref) (f : DataFrame) (h : store) :
  h !! df = Some f →
  (∀ x, x ∈ needed_list → x ∈ columns f) →
  ∃ g, Frame.dropna subset (parsed to_datetime to_numeric f) = Some g ∧
       prepare to_datetime to_numeric df h
       = (Return (length h), <[df := parsed to_datetime to_numeric f]> h ++ [g]).
Proof.
  intros Hh Hall.
  assert (df < length h) as Hlt by by eapply lookup_lt_Some.
  assert (∀ x g, x ∈ needed_list → (∀ y, y ∈ columns f → y ∈ columns g) →
            Frame.getitem x g = Some (col x g)) as Hget.
  { intros x g Hx Hg. by apply col_getitem, Hg, Hall. }
  assert (∀ x, x ∈ subset → x ∈ columns (parsed to_datetime to_numeric f)) as Hsub.
  { intros x Hx. apply parsed_columns_elem, Hall.
    unfold subset, needed_list in *.
    rewrite !elem_of_cons, elem_of_nil in Hx.
    rewrite !elem_of_cons. tauto. }
  assert (∃ ix, Frame.indices subset (parsed to_datetime to_numeric f) = Some ix) as [ix Hix].
  { unfold Frame.indices, subset in *.
    destruct (index_of_elem "date" (columns (parsed to_datetime to_numeric f))) as [i1 H1]; [apply Hsub; in_list|].
    destruct (index_of_elem "latitude" (columns (parsed to_datetime to_numeric f))) as [i2 H2]; [apply Hsub; in_list|].
    destruct (index_of_elem "longitude" (columns (parsed to_datetime to_numeric f))) as [i3 H3]; [apply Hsub; in_list|].
    destruct (index_of_elem "european_aqi" (columns (parsed to_datetime to_numeric f))) as [i4 H4]; [apply Hsub; in_list|].
    destruct (index_of_elem "city" (columns (parsed to_datetime to_numeric f))) as [i5 H5]; [apply Hsub; in_list|].
    destruct (index_of_elem "country" (columns (parsed to_datetime to_numeric f))) as [i6 H6]; [apply Hsub; in_list|].
    simpl. rewrite H1, H2, H3, H4, H5, H6. simpl. by eexists. }
  exists (Frame (columns (parsed to_datetime to_numeric f)) (List.filter (Frame.complete ix) (rows (parsed to_datetime to_numeric f)))).
  split; [unfold Frame.dropna; by rewrite Hix|].
  unfold prepare. rewrite bind_run, (deref_run _ _ _ Hh).
  rewrite bool_decide_eq_false_2
    by (intros Hne; apply Hne; by apply missing_empty).
  set (f1 := parse_date to_datetime f).
  set (f2 := parse_number to_numeric "latitude" f1).
  set (f3 := parse_number to_numeric "longitude" f2).
  set (f4 := parse_number to_numeric "european_aqi" f3).
  rewrite (assign_column_run "date" "date" (λ c, map date_cell (to_datetime c))
             _ df f (col "date" f) h Hh);
    [|apply Hget; [in_list|done]|by rewrite length_map].
  fold (parse_date to_datetime f). fold f1.
  rewrite (assign_column_run "latitude" "latitude" (λ c, map CNum (to_numeric c))
             _ df f1 (col "latitude" f1));
    [|by apply list_lookup_insert_eq
     |apply Hget; [in_list|intros; by apply setitem_columns_elem]
     |by rewrite length_map].
  rewrite list_insert_insert_eq. fold (parse_number to_numeric "latitude" f1). fold f2.
  rewrite (assign_column_run "longitude" "longitude" (λ c, map CNum (to_numeric c))
             _ df f2 (col "longitude" f2));
    [|by apply list_lookup_insert_eq
     |apply Hget; [in_list|intros; by do 2 apply setitem_columns_elem]
     |by rewrite length_map].
  rewrite list_insert_insert_eq. fold (parse_number to_numeric "longitude" f2). fold f3.
  rewrite (assign_column_run "european_aqi" "european_aqi" (λ c, map CNum (to_numeric c))
             _ df f3 (col "european_aqi" f3));
    [|by apply list_lookup_insert_eq
     |apply Hget; [in_list|intros; by do 3 apply setitem_columns_elem]
     |by rewrite length_map].
  rewrite list_insert_insert_eq. fold (parse_number to_numeric "european_aqi" f3). fold f4.
  rewrite (assign_column_run "country" "country_name"
             (λ c, map (λ x, CStr (country_name x)) c)
             _ df f4 (col "country" f4));
    [|by apply list_lookup_insert_eq
     |apply Hget; [in_list|intros; by do 4 apply setitem_columns_elem]
     |by rewrite length_map].
  rewrite list_insert_insert_eq. fold (name_country f4).
  change (name_country f4) with (parsed to_datetime to_numeric f).
  rewrite bind_run, (deref_run df (parsed to_datetime to_numeric f)) by by apply list_lookup_insert_eq.
  fold subset. unfold Frame.dropna. rewrite Hix. simpl.
  unfold alloc. by rewrite length_insert.
Qed.

Lemma col_setitem_same name values f :
  Frame.wf f = true → length values = length (rows f) →
  col name (Frame.setitem name values f) = values.
Proof. intros. unfold col. by rewrite getitem_setitem_same. Qed.

Lemma col_setitem_other a name values f :
  Frame.wf f = true → length values = length (rows f) →
  a ≠ name → a ∈ columns f →
  col a (Frame.setitem name values f) = col a f.
Proof. intros. unfold col. by rewrite getitem_setitem_other. Qed.

(** The columns of the table [prepare] leaves behind, from those of the
    table it was given. *)
Lemma parsed_spec (f : DataFrame) :
  Frame.wf f = true →
  (∀ x, x ∈ needed_list → x ∈ columns f) →
  Frame.wf (parsed to_datetime to_numeric f) = true ∧
  length (rows (parsed to_datetime to_numeric f)) = length (rows f) ∧
  col "date" (parsed to_datetime to_numeric f) = map date_cell (to_datetime (col "date" f)) ∧
  col "latitude" (parsed to_datetime to_numeric f) = map CNum (to_numeric (col "latitude" f)) ∧
  col "longitude" (parsed to_datetime to_numeric f) = map CNum (to_numeric (col "longitude" f)) ∧
  col "european_aqi" (parsed to_datetime to_numeric f) = map CNum (to_numeric (col "european_aqi" f)) ∧
  col "city" (parsed to_datetime to_numeric f) = col "city" f ∧
  col "country" (parsed to_datetime to_numeric f) = col "country" f ∧
  col "country_name" (parsed to_datetime to_numeric f) = map (λ x, CStr (country_name x)) (col "country" f).
Proof.
  intros Hwf Hall.
  assert (∀ x, x ∈ needed_list → length (col x f) = length (rows f)) as Hlen
    by (intros; by apply col_length, Hall).
  unfold parsed.
  set (f1 := parse_date to_datetime f).
  assert (Frame.wf f1 = true) as Hwf1 by by apply setitem_wf.
  assert (length (rows f1) = length (rows f)) as Hr1.
  { apply setitem_rows_length.
    rewrite length_map, to_datetime_length. apply Hlen. in_list. }
  assert (∀ x, x ∈ needed_list → x ∈ columns f1) as Hall1
    by (intros; by apply setitem_columns_elem, Hall).
  assert (col "date" f1 = map date_cell (to_datetime (col "date" f))) as Hd1.
  { apply col_setitem_same; [done|].
    rewrite length_map, to_datetime_length. apply Hlen. in_list. }
  assert (∀ x, x ∈ needed_list → x ≠ "date" → col x f1 = col x f) as Ho1.
  { intros x Hx Hne. apply col_setitem_other; [done| |done|by apply Hall].
    rewrite length_map, to_datetime_length. apply Hlen. in_list. }
  assert (∀ g name, Frame.wf g = true → name ∈ columns g →
            Frame.wf (parse_number to_numeric name g) = true ∧
            length (rows (parse_number to_numeric name g)) = length (rows g) ∧
            (∀ x, x ∈ columns g → x ∈ columns (parse_number to_numeric name g)) ∧
            col name (parse_number to_numeric name g) = map CNum (to_numeric (col name g)) ∧
            (∀ x, x ∈ columns g → x ≠ name → col x (parse_number to_numeric name g) = col x g))
    as Hnum.
  { intros g name Hg Hn.
    assert (length (map CNum (to_numeric (col name g))) = length (rows g)) as Hl
      by (rewrite length_map, to_numeric_length; by apply col_length).
    repeat split.
    - by apply setitem_wf.
    - by apply setitem_rows_length.
    - intros. by apply setitem_columns_elem.
    - by apply col_setitem_same.
    - intros. by apply col_setitem_other. }
  destruct (Hnum f1 "latitude" Hwf1) as (Hwf2 & Hr2 & Hall2 & Hs2 & Ho2);
    [apply Hall1; in_list|].
  set (f2 := parse_number to_numeric "latitude" f1) in *.
  destruct (Hnum f2 "longitude" Hwf2) as (Hwf3 & Hr3 & Hall3 & Hs3 & Ho3);
    [apply Hall2, Hall1; in_list|].
  set (f3 := parse_number to_numeric "longitude" f2) in *.
  destruct (Hnum f3 "european_aqi" Hwf3) as (Hwf4 & Hr4 & Hall4 & Hs4 & Ho4);
    [apply Hall3, Hall2, Hall1; in_list|].
  set (f4 := parse_number to_numeric "european_aqi" f3) in *.
  assert (∀ x, x ∈ needed_list → x ∈ columns f4) as Hin4
    by (intros; by apply Hall4, Hall3, Hall2, Hall1).
  assert (∀ x, x ∈ needed_list → x ∈ columns f3) as Hin3
    by (intros; by apply Hall3, Hall2, Hall1).
  assert (∀ x, x ∈ needed_list → x ∈ columns f2) as Hin2
    by (intros; by apply Hall2, Hall1).
  assert (length (map (λ x, CStr (country_name x)) (col "country" f4))
          = length (rows f4)) as Hl4.
  { rewrite length_map. apply col_length, Hin4. in_list. }
  assert (∀ x, x ∈ needed_list →
            col x (name_country f4) = col x f4) as Ho5.
  { intros x Hx. apply col_setitem_other; [done|done| |by apply Hin4].
    intros ->. unfold needed_list in Hx.
    rewrite !elem_of_cons, elem_of_nil in Hx. intuition discriminate. }
  split; [by apply setitem_wf|].
  split; [unfold name_country; rewrite setitem_rows_length by done; lia|].
  split.
  { rewrite Ho5 by in_list. rewrite Ho4, Ho3, Ho2 by (first [apply Hin3|apply Hin2|apply Hall1|discriminate]; in_list).
    done. }
  split.
  { rewrite Ho5 by in_list. rewrite Ho4, Ho3 by (first [apply Hin3|apply Hin2|discriminate]; in_list).
    rewrite Hs2, Ho1; [done|in_list|discriminate]. }
  split.
  { rewrite Ho5 by in_list. rewrite Ho4 by (first [apply Hin3|discriminate]; in_list).
    rewrite Hs3, Ho2, Ho1; [done|in_list|discriminate|apply Hall1; in_list|discriminate]. }
  split.
  { rewrite Ho5 by in_list.
    rewrite Hs4, Ho3, Ho2, Ho1;
      [done|in_list|discriminate|apply Hall1; in_list|discriminate
      |apply Hin2; in_list|discriminate]. }
  split.
  { rewrite Ho5 by in_list.
    rewrite Ho4, Ho3, Ho2, Ho1;
      [done|in_list|discriminate|apply Hall1; in_list|discriminate
      |apply Hin2; in_list|discriminate|apply Hin3; in_list|discriminate]. }
  assert (col "country" f4 = col "country" f) as Hc4.
  { rewrite Ho4, Ho3, Ho2, Ho1;
      [done|in_list|discriminate|apply Hall1; in_list|discriminate
      |apply Hin2; in_list|discriminate|apply Hin3; in_list|discriminate]. }
  split.
  { rewrite Ho5 by in_list. done. }
  unfold name_country. rewrite col_setitem_same by done. by rewrite Hc4.
Qed.

(** A row is complete when none of the named columns misses a value on
    its line. *)
Lemma complete_columns (names : list string) (F : DataFrame) (ix : list nat)
    (i : nat) (r : list cell) :
  Frame.indices names F = Some ix → rows F !! i = Some r →
  Frame.complete ix r
  = forallb (λ name, negb (isna (default CNone (col name F !! i)))) names.
Proof.
  intros Hix Hr. unfold Frame.indices in Hix.
  revert ix Hix. induction names as [|a names IH]; intros ix; simpl.
  - by intros [= <-].
  - destruct (Frame.index_of a (columns F)) as [j|] eqn:Hj; simpl; [|discriminate].
    destruct (mapM _ names) as [js|] eqn:Hjs; simpl; [|discriminate].
    intros [= <-]. simpl. rewrite (IH js eq_refl). f_equal.
    unfold col, Frame.getitem, Frame.icol. rewrite Hj. simpl.
    by rewrite list_lookup_fmap, Hr.
Qed.

Lemma complete_keeps (f : DataFrame) (ix : list nat) (i : nat) (r : list cell) :
  Frame.wf f = true →
  (∀ x, x ∈ needed_list → x ∈ columns f) →
  Frame.indices subset (parsed to_datetime to_numeric f) = Some ix →
  rows (parsed to_datetime to_numeric f) !! i = Some r →
  Frame.complete ix r = keeps to_datetime to_numeric f i.
Proof.
  intros Hwf Hall Hix Hr.
  rewrite (complete_columns _ _ _ _ _ Hix Hr).
  destruct (parsed_spec f Hwf Hall)
    as (_ & _ & Hd & Hla & Hlo & Ha & Hci & Hco & _).
  unfold subset, keeps. simpl.
  rewrite Hd, Hla, Hlo, Ha, Hci, Hco, !list_lookup_fmap.
  destruct (to_datetime (col "date" f) !! i) as [[]|];
    destruct (to_numeric (col "latitude" f) !! i);
    destruct (to_numeric (col "longitude" f) !! i);
    destruct (to_numeric (col "european_aqi" f) !! i); simpl;
    repeat match goal with
      | |- context [F64.is_nan ?x] => destruct (F64.is_nan x)
      | |- context [isna ?x] => destruct (isna x)
      end; reflexivity.
Qed.

(** The cell of a row in a column, from the column. *)
Lemma col_lookup (name : string) (F : DataFrame) (j i : nat) (r : list cell) :
  Frame.index_of name (columns F) = Some j → rows F !! i = Some r →
  col name F !! i = Some (Frame.cell_at j r).
Proof.
  intros Hj Hr. unfold col, Frame.getitem, Frame.icol. rewrite Hj. simpl.
  by rewrite list_lookup_fmap, Hr.
Qed.


End PrepareFacts.

(** The instance of pandas keeps the length of a column. *)
Lemma model_to_datetime_length c : length (PandasModel.to_datetime c) = length c.
Proof. apply length_map. Qed.

Lemma model_to_numeric_length c : length (PandasModel.to_numeric c) = length c.
Proof. apply length_map. Qed.

(** C3. [prepare] raises its error (the [ValueError] the specification
    calls SchemaError) exactly when one of the six needed columns is not a
    column of the table; the error then holds the names of the missing
    columns, each once and in increasing order, and the columns of the
    table; the table is left as it was. For a table that lacks latitude and
    no other needed column the missing names are exactly [latitude]. *)
Theorem prepare_schema_error :
  ∀ (py : PyStr) (to_datetime : list cell → list (option date))
    (to_numeric : list cell → list float),
    (∀ c, length (to_datetime c) = length c) →
    (∀ c, length (to_numeric c) = length c) →
    ∀ (h : store) (df : ref) (f : DataFrame),
      h !! df = Some f →
      let result := prepare to_datetime to_numeric df h in
      ((∃ ms fd, fst result = Raise (ValueError ms fd)) ↔
       (∃ x, x ∈ needed_list ∧ x ∉ columns f)) ∧
      (∀ ms fd, fst result = Raise (ValueError ms fd) →
         fd = columns f ∧ snd result = h ∧
         StronglySorted String.le ms ∧ NoDup ms ∧
         (∀ x, x ∈ ms ↔ x ∈ needed_list ∧ x ∉ columns f)) ∧
      ("latitude" ∉ columns f →
       (∀ x, x ∈ needed_list → x ≠ "latitude" → x ∈ columns f) →
       result = (Raise (ValueError ["latitude"] (columns f)), h)).
Proof.
  intros py to_datetime to_numeric Hd Hn h df f Hh result.
  destruct (decide (needed ∖ (list_to_set (columns f) : gset string) = ∅))
    as [He|Hne].
  - (* no column is missing: the call returns *)
    destruct (prepare_returns to_datetime to_numeric Hd Hn df f h Hh)
      as (g & _ & Hrun); [by apply missing_empty|].
    subst result. rewrite Hrun. simpl. split; [|split].
    + split; [by intros (? & ? & ?)|].
      intros (x & Hx & Hnx). destruct Hnx. by apply (proj1 (missing_empty _) He).
    + intros ms fd [=].
    + intros Hlat Hothers. destruct Hlat.
      apply (proj1 (missing_empty _) He). in_list.
  - pose proof (prepare_raises to_datetime to_numeric df f h Hh Hne) as Hrun.
    subst result. rewrite Hrun. simpl.
    destruct (sorted_spec (needed ∖ list_to_set (columns f))) as (Hs & Hnd & Hin).
    split; [|split].
    + split; [|by eauto].
      intros _. destruct (set_choose_L _ Hne) as [x Hx].
      exists x. by apply elem_of_missing.
    + intros ms fd [= <- <-].
      split; [done|]. split; [done|]. split; [done|]. split; [done|].
      intros x. by rewrite Hin, elem_of_missing.
    + intros Hlat Hothers.
      assert (needed ∖ (list_to_set (columns f) : gset string) = {[ "latitude" ]})
        as ->; [|by rewrite sorted_singleton].
      apply leibniz_equiv. intros x.
      rewrite elem_of_missing, elem_of_singleton. split.
      * intros [Hx Hnx]. destruct (decide (x = "latitude")); [done|].
        destruct Hnx. by apply Hothers.
      * intros ->. split; [in_list|done].
Qed.

(** C3 on the sheet that has no latitude column. *)
Lemma prepare_schema_error_witness :
  let py := AsciiStr in
  prepare PandasModel.to_datetime PandasModel.to_numeric 0 [sheet_no_latitude]
  = (Raise (ValueError ["latitude"] (columns sheet_no_latitude)), [sheet_no_latitude]).
Proof.
  apply (prepare_schema_error AsciiStr PandasModel.to_datetime PandasModel.to_numeric
           model_to_datetime_length model_to_numeric_length
           [sheet_no_latitude] 0 sheet_no_latitude eq_refl).
  - simpl. rewrite !elem_of_cons, elem_of_nil. intuition discriminate.
  - intros x Hx Hne. unfold needed_list in Hx. simpl.
    rewrite !elem_of_cons, elem_of_nil in Hx. rewrite !elem_of_cons.
    intuition congruence.
Defined.

(** C4. On a well-formed table with the six needed columns, [prepare]
    leaves in place the table with its date and numbers parsed (as many
    rows as before, the city and the country as they were, the country name
    in a column of its own) and returns a new table made of the rows of
    that table that pass the filter, in their order; the row of line [i]
    passes the filter exactly when the date, the latitude, the longitude
    and the index of line [i] parse and its city and country are not
    missing. The country name plays no part in the filter. On the sample
    sheet, with the instance of pandas: the row whose latitude is N/A is
    left out, the complete row is kept, and so are the row whose country
    code is in no table (named ZZ) and the row whose country is a number
    (named Inconnu). *)
Theorem prepare_keeps_complete_rows :
  (∀ (py : PyStr) (to_datetime : list cell → list (option date))
     (to_numeric : list cell → list float),
     (∀ c, length (to_datetime c) = length c) →
     (∀ c, length (to_numeric c) = length c) →
     ∀ (h : store) (df : ref) (f : DataFrame),
       h !! df = Some f → Frame.wf f = true →
       (∀ x, x ∈ needed_list → x ∈ columns f) →
       let p := parsed to_datetime to_numeric f in
       ∃ (g : DataFrame) (keep : list cell → bool),
         prepare to_datetime to_numeric df h
         = (Return (length h), <[df := p]> h ++ [g]) ∧
         columns g = columns p ∧
         rows g = List.filter keep (rows p) ∧
         (∀ i r, rows p !! i = Some r → keep r = keeps to_datetime to_numeric f i) ∧
         length (rows p) = length (rows f) ∧
         col "date" p = map date_cell (to_datetime (col "date" f)) ∧
         col "latitude" p = map CNum (to_numeric (col "latitude" f)) ∧
         col "longitude" p = map CNum (to_numeric (col "longitude" f)) ∧
         col "european_aqi" p = map CNum (to_numeric (col "european_aqi" f)) ∧
         col "city" p = col "city" f ∧
         col "country" p = col "country" f ∧
         col "country_name" p = map (λ x, CStr (country_name x)) (col "country" f)) ∧
  (let py := AsciiStr in
   let result := prepare PandasModel.to_datetime PandasModel.to_numeric 0 [sheet_rows] in
   fst result = Return 1 ∧
   snd result !! 1 =
     Some (Frame (six_columns ++ ["country_name"])
       [ [CStr "Paris"; CStr "FR"; CDate (Date 2024 1 1);
          CNum (F64.of_decimal 4885 2); CNum (F64.of_decimal 235 2);
          CNum (F64.of_Z 42); CStr "France"];
         [CStr "Atlantis"; CStr "zz"; CDate (Date 2024 1 1);
          CNum (F64.of_decimal 105 1); CNum (SFopp (F64.of_decimal 3025 2));
          CNum (F64.of_Z 55); CStr "ZZ"];
         [CStr "Oslo"; CNum (F64.of_Z 47); CDate (Date 2024 1 1);
          CNum (F64.of_decimal 5991 2); CNum (F64.of_decimal 1075 2);
          CNum (F64.of_Z 21); CStr "Inconnu"] ])).
Proof.
  split.
  - intros py to_datetime to_numeric Hd Hn h df f Hh Hwf Hall p.
    destruct (prepare_returns to_datetime to_numeric Hd Hn df f h Hh Hall)
      as (g & Hg & Hrun).
    unfold Frame.dropna in Hg.
    destruct (Frame.indices subset (parsed to_datetime to_numeric f))
      as [ix|] eqn:Hix; simpl in Hg; [|discriminate].
    injection Hg as <-.
    exists (Frame (columns p) (List.filter (Frame.complete ix) (rows p))),
      (Frame.complete ix).
    split; [exact Hrun|]. split; [reflexivity|]. split; [reflexivity|].
    split.
    { intros i r Hr. by apply (complete_keeps to_datetime to_numeric Hd Hn f ix i r). }
    destruct (parsed_spec to_datetime to_numeric Hd Hn f Hwf Hall)
      as (_ & Hlen & Hrest).
    split; [exact Hlen|exact Hrest].
  - vm_compute. split; reflexivity.
Qed.

(** C4 on the sample sheet of four rows. *)
Lemma prepare_keeps_complete_rows_witness :
  let py := AsciiStr in
  ∃ (g : DataFrame) (keep : list cell → bool),
    prepare PandasModel.to_datetime PandasModel.to_numeric 0 [sheet_rows]
    = (Return 1, [parsed PandasModel.to_datetime PandasModel.to_numeric sheet_rows; g]) ∧
    rows g = List.filter keep
               (rows (parsed PandasModel.to_datetime PandasModel.to_numeric sheet_rows)).
Proof.
  intros py.
  destruct (proj1 prepare_keeps_complete_rows AsciiStr
              PandasModel.to_datetime PandasModel.to_numeric
              model_to_datetime_length model_to_numeric_length
              [sheet_rows] 0 sheet_rows eq_refl eq_refl)
    as (g & keep & Hrun & _ & Hrows & _).
  - intros x Hx. unfold needed_list in Hx. simpl. exact Hx.
  - exists g, keep. split; [exact Hrun|exact Hrows].
Defined.

(** ** Properties of the normalization *)

Lemma lookup_alloc (h : store) (f : DataFrame) : (h ++ [f]) !! length h = Some f.
Proof. rewrite lookup_app_r by lia. by rewrite Nat.sub_diag. Qed.

Lemma normalize_columns_run {py : PyStr} (df : ref) (f : DataFrame) (h : store) :
  h !! df = Some f →
  normalize_columns df h
  = (Return df, <[df := Frame.set_columns (map norm_name (columns f)) f]> h).
Proof.
  intros Hh. unfold normalize_columns.
  by rewrite bind_run, (deref_run _ _ _ Hh).
Qed.

Section LoadFacts.

Context {py : PyStr}.
Variable read_excel : string → DataFrame.
Variable read_csv : string → DataFrame.
Variable astype_str : cell → string.

Lemma fix_single_column_run_csv (df : ref) (f : DataFrame) (h : store) :
  h !! df = Some f → csv_like f = true →
  fix_single_column_csv_like read_csv astype_str df h
  = (Return (length h), h ++ [read_csv (document astype_str f)]).
Proof.
  intros Hh Hc. unfold fix_single_column_csv_like, csv_like in *.
  rewrite bind_run, (deref_run _ _ _ Hh).
  destruct (columns f) as [|name [|]] eqn:Hcols; try discriminate.
  simpl. rewrite Hc. simpl. unfold alloc, document. by rewrite Hcols.
Qed.

Lemma fix_single_column_run_other (df : ref) (f : DataFrame) (h : store) :
  h !! df = Some f → csv_like f = false →
  fix_single_column_csv_like read_csv astype_str df h = (Return df, h).
Proof.
  intros Hh Hc. unfold fix_single_column_csv_like, csv_like in *.
  rewrite bind_run, (deref_run _ _ _ Hh).
  destruct (columns f) as [|name [|]] eqn:Hcols; try reflexivity.
  simpl. by rewrite Hc.
Qed.

Lemma load_excel_local_run (path : string) (h : store) :
  let sheet := read_excel path in
  load_excel_local read_excel read_csv astype_str path h
  = if csv_like sheet
    then (Return (S (length h)), h ++ [sheet; normalized read_csv astype_str sheet])
    else (Return (length h), h ++ [normalized read_csv astype_str sheet]).
Proof.
  intros sheet. unfold load_excel_local.
  rewrite bind_run. unfold alloc at 1. fold sheet.
  rewrite bind_run. unfold normalized.
  destruct (csv_like sheet) eqn:Hc.
  - rewrite (fix_single_column_run_csv _ sheet) by (done || apply lookup_alloc).
    rewrite bind_run.
    rewrite (normalize_columns_run _ (read_csv (document astype_str sheet)))
      by apply lookup_alloc.
    unfold mret, M_ret.
    assert (length (h ++ [sheet]) = S (length h)) as Hl
      by (rewrite length_app; simpl; lia).
    f_equal; [by rewrite Hl|].
    rewrite insert_app_r_alt by lia. rewrite Nat.sub_diag. simpl.
    by rewrite <- app_assoc.
  - rewrite (fix_single_column_run_other _ sheet) by (done || apply lookup_alloc).
    rewrite bind_run.
    rewrite (normalize_columns_run _ sheet) by apply lookup_alloc.
    unfold mret, M_ret. f_equal.
    rewrite insert_app_r_alt by lia. by rewrite Nat.sub_diag.
Qed.

End LoadFacts.

(** C5. When the sheet has exactly one column and the name of that column
    holds a comma, the table [load_excel_local] returns is the one read
    from the text whose first line is that name and whose next lines are
    the strings of the cells of the column, with its column names
    normalized. On the sheet of one column
    city,country,date,latitude,longitude,european_aqi and one cell
    Paris,FR,2024-01-01,48.85,2.35,42, with the instance of pandas, that
    table has the six columns and one row: the texts Paris, FR and
    2024-01-01 and the numbers 48.85, 2.35 and 42; [prepare] then turns the
    date into the calendar date. *)
Theorem single_column_fallback :
  (∀ (py : PyStr) (read_excel read_csv : string → DataFrame) (astype_str : cell → string)
     (path name : string) (h : store),
     columns (read_excel path) = [name] → Str.contains "," name = true →
     let sheet := read_excel path in
     let text := Str.join LF (name :: map astype_str (Frame.icol 0 sheet)) in
     let t := read_csv text in
     load_excel_local read_excel read_csv astype_str path h
     = (Return (S (length h)),
        h ++ [sheet; Frame (map norm_name (columns t)) (rows t)])) ∧
  (let py := AsciiStr in
   let load := load_excel_local (λ _, sheet_paris) PandasModel.read_csv
                 PandasModel.astype_str "air_quality_history.xlsx" in
   let row := [CStr "Paris"; CStr "FR"; CStr "2024-01-01";
               CNum (F64.of_decimal 4885 2); CNum (F64.of_decimal 235 2);
               CNum (F64.of_Z 42)] in
   load [] = (Return 1, [sheet_paris; Frame six_columns [row]]) ∧
   snd ((df ← load; prepare PandasModel.to_datetime PandasModel.to_numeric df) []) !! 2
   = Some (Frame (six_columns ++ ["country_name"])
             [ [CStr "Paris"; CStr "FR"; CDate (Date 2024 1 1);
                CNum (F64.of_decimal 4885 2); CNum (F64.of_decimal 235 2);
                CNum (F64.of_Z 42); CStr "France"] ])).
Proof.
  split.
  - intros py read_excel read_csv astype_str path name h Hcols Hcomma. simpl.
    pose proof (load_excel_local_run read_excel read_csv astype_str path h) as Hrun.
    simpl in Hrun.
    assert (csv_like (read_excel path) = true) as Hc
      by (unfold csv_like; by rewrite Hcols).
    rewrite Hc in Hrun. rewrite Hrun. unfold normalized. rewrite Hc.
    unfold document. rewrite Hcols. reflexivity.
  - vm_compute. split; reflexivity.
Qed.

(** C5 on the sheet of one column for Paris. *)
Lemma single_column_fallback_witness :
  let py := AsciiStr in
  load_excel_local (λ _, sheet_paris) PandasModel.read_csv PandasModel.astype_str
    "air_quality_history.xlsx" []
  = (Return 1,
     [sheet_paris;
      let t := PandasModel.read_csv
                 (Str.join LF
                    ("city,country,date,latitude,longitude,european_aqi"
                     :: map PandasModel.astype_str (Frame.icol 0 sheet_paris))) in
      Frame (map norm_name (columns t)) (rows t)]).
Proof.
  apply (proj1 single_column_fallback AsciiStr (λ _, sheet_paris) PandasModel.read_csv
           PandasModel.astype_str "air_quality_history.xlsx"
           "city,country,date,latitude,longitude,european_aqi" []);
    reflexivity.
Defined.

(** ** Sums and quotients in binary64 *)

Lemma iter_pos_invariant {A} (P : A → Prop) (g : A → A) (n : positive) (x : A) :
  (∀ y, P y → P (g y)) → P x → P (SpecFloat.iter_pos g n x).
Proof.
  intros Hg. revert x. induction n as [n IH|n IH|]; intros x Hx; simpl.
  - apply IH, IH, Hg, Hx.
  - apply IH, IH, Hx.
  - apply Hg, Hx.
Qed.

Lemma shr_1_nonneg mrs : (0 ≤ shr_m mrs)%Z → (0 ≤ shr_m (shr_1 mrs))%Z.
Proof. destruct mrs as [[|[p|p|]|[p|p|]] r s]; simpl; lia. Qed.

Lemma shr_fexp_nonneg m e l :
  (0 ≤ m)%Z → (0 ≤ shr_m (fst (shr_fexp F64.prec F64.emax m e l)))%Z.
Proof.
  intros Hm. unfold shr_fexp, shr.
  assert (0 ≤ shr_m (shr_record_of_loc m l))%Z as H0
    by (destruct l as [|[]]; exact Hm).
  destruct (fexp F64.prec F64.emax (Zdigits2 m + e) - e)%Z; simpl; try exact H0.
  by apply iter_pos_invariant; [apply shr_1_nonneg|].
Qed.

Lemma round_nearest_even_nonneg m l : (0 ≤ m)%Z → (0 ≤ round_nearest_even m l)%Z.
Proof.
  intros Hm. unfold round_nearest_even.
  destruct l as [|[]]; try lia. destruct (Z.even m); lia.
Qed.

Lemma binary_round_aux_not_nan sx mx ex lx :
  (0 ≤ mx)%Z → F64.is_nan (binary_round_aux F64.prec F64.emax sx mx ex lx) = false.
Proof.
  intros Hm. unfold binary_round_aux.
  pose proof (shr_fexp_nonneg mx ex lx Hm) as H1.
  destruct (shr_fexp F64.prec F64.emax mx ex lx) as [mrs' e']. simpl in H1.
  pose proof (shr_fexp_nonneg _ e' loc_Exact
                (round_nearest_even_nonneg _ (loc_of_shr_record mrs') H1)) as H2.
  destruct (shr_fexp F64.prec F64.emax _ e' loc_Exact) as [mrs'' e'']. simpl in H2.
  destruct (shr_m mrs''); [reflexivity| |lia].
  by destruct (_ <=? _)%Z.
Qed.

Lemma binary_normalize_not_nan m e s :
  F64.is_nan (binary_normalize F64.prec F64.emax m e s) = false.
Proof.
  destruct m; simpl; [reflexivity| |]; unfold binary_round;
    destruct (shl_align _ _ _); by apply binary_round_aux_not_nan.
Qed.

(** Adding a finite number to a number gives a number. *)
Lemma add_not_nan a x :
  F64.is_nan a = false → F64.is_finite x = true → F64.is_nan (F64.add a x) = false.
Proof.
  unfold F64.add.
  destruct a as [sa|sa| |sa ma ea], x as [sx|sx| |sx mx ex]; simpl;
    try discriminate; intros _ _; try reflexivity.
  - by destruct sa, sx.
  - apply binary_normalize_not_nan.
Qed.

Lemma sum_not_nan xs a :
  F64.is_nan a = false → (∀ x, x ∈ xs → F64.is_finite x = true) →
  F64.is_nan (fold_left F64.add xs a) = false.
Proof.
  revert a. induction xs as [|x xs IH]; intros a Ha Hx; simpl; [done|].
  apply IH.
  - apply add_not_nan; [done|]. apply Hx, list_elem_of_here.
  - intros. by apply Hx, list_elem_of_further.
Qed.


(** *** Exact roundings *)

Lemma f64_fexp (x : Z) : fexp F64.prec F64.emax x = Z.max (x - 53) (-1074)%Z.
Proof. reflexivity. Qed.

(** The pairs of a mantissa and an exponent that finite floats are made
    of. *)
Lemma round_aux_canonical (s : bool) (m : positive) (e : Z) :
  Z.max (Zpos (digits2_pos m) + e - 53) (-1074)%Z = e → (e ≤ 1024 - 53)%Z →
  binary_round_aux F64.prec F64.emax s (Zpos m) e loc_Exact = S754_finite s m e.
Proof.
  intros Hc Hb. unfold binary_round_aux, shr_fexp.
  change (Zdigits2 (Zpos m)) with (Zpos (digits2_pos m)).
  rewrite f64_fexp.
  replace (Z.max (Zpos (digits2_pos m) + e - 53) (-1074) - e)%Z with 0%Z by lia.
  cbn [shr shr_record_of_loc shr_m loc_of_shr_record round_nearest_even].
  change (Zdigits2 (Zpos m)) with (Zpos (digits2_pos m)).
  rewrite f64_fexp.
  replace (Z.max (Zpos (digits2_pos m) + e - 53) (-1074) - e)%Z with 0%Z by lia.
  cbn [shr shr_record_of_loc shr_m].
  assert ((e <=? F64.emax - F64.prec)%Z = true) as ->
    by (apply Z.leb_le; unfold F64.emax, F64.prec; lia).
  reflexivity.
Qed.

Lemma digits2_pos_iter_xO p k :
  digits2_pos (Pos.iter xO p k) = (digits2_pos p + k)%positive.
Proof.
  induction k as [|k IH] using Pos.peano_ind.
  - simpl. lia.
  - rewrite Pos.iter_succ. simpl. rewrite IH. lia.
Qed.

Lemma iter_xO_pow (p k : positive) :
  Zpos (Pos.iter xO p k) = (Zpos p * 2 ^ Zpos k)%Z.
Proof.
  induction k as [|k IH] using Pos.peano_ind.
  - simpl. lia.
  - rewrite Pos.iter_succ, Pos2Z.inj_xO, IH, Pos2Z.inj_succ, Z.pow_succ_r by lia. lia.
Qed.

(** Shifting to the right the bits that a shift to the left brought in
    loses nothing. *)
Lemma shr_iter_xO (k p : positive) :
  SpecFloat.iter_pos shr_1 k
    {| shr_m := Zpos (Pos.iter xO p k); shr_r := false; shr_s := false |}
  = {| shr_m := Zpos p; shr_r := false; shr_s := false |}.
Proof.
  revert p. induction k as [k IH|k IH|]; intros p; simpl.
  - by rewrite !IH.
  - by rewrite !IH.
  - reflexivity.
Qed.

(** Rounding is exact on every way of writing a float. *)
Lemma binary_round_canonical (s : bool) (p : positive) (c : Z) :
  Z.max (Zpos (digits2_pos p) + c - 53) (-1074)%Z = c → (c ≤ 1024 - 53)%Z →
  binary_round F64.prec F64.emax s p c = S754_finite s p c.
Proof.
  intros Hc Hb. unfold binary_round. rewrite f64_fexp, Hc. unfold shl_align.
  rewrite Z.sub_diag. by apply round_aux_canonical.
Qed.

Lemma binary_round_shl (s : bool) (p d : positive) (c : Z) :
  Z.max (Zpos (digits2_pos p) + c - 53) (-1074)%Z = c → (c ≤ 1024 - 53)%Z →
  binary_round F64.prec F64.emax s (Pos.iter xO p d) (c - Zpos d) = S754_finite s p c.
Proof.
  intros Hc Hb. unfold binary_round.
  rewrite f64_fexp, digits2_pos_iter_xO, Pos2Z.inj_add.
  replace (Zpos (digits2_pos p) + Zpos d + (c - Zpos d) - 53)%Z
    with (Zpos (digits2_pos p) + c - 53)%Z by lia.
  rewrite Hc. unfold shl_align.
  replace (c - (c - Zpos d))%Z with (Zpos d) by lia.
  unfold binary_round_aux, shr_fexp.
  change (Zdigits2 (Zpos (Pos.iter xO p d))) with (Zpos (digits2_pos (Pos.iter xO p d))).
  rewrite f64_fexp, digits2_pos_iter_xO, Pos2Z.inj_add.
  replace (Zpos (digits2_pos p) + Zpos d + (c - Zpos d) - 53)%Z
    with (Zpos (digits2_pos p) + c - 53)%Z by lia.
  rewrite Hc.
  replace (c - (c - Zpos d))%Z with (Zpos d) by lia.
  cbn [shr shr_record_of_loc]. rewrite shr_iter_xO.
  cbn [shr_m loc_of_shr_record round_nearest_even].
  replace (c - Zpos d + Zpos d)%Z with c by lia.
  change (Zdigits2 (Zpos p)) with (Zpos (digits2_pos p)).
  rewrite f64_fexp, Hc, Z.sub_diag.
  cbn [shr shr_record_of_loc shr_m].
  assert ((c <=? F64.emax - F64.prec)%Z = true) as ->
    by (apply Z.leb_le; unfold F64.emax, F64.prec; lia).
  reflexivity.
Qed.

Lemma binary_round_shr (s : bool) (m d : positive) (c : Z) :
  Z.max (Zpos (digits2_pos (Pos.iter xO m d)) + c - 53) (-1074)%Z = c →
  (c ≤ 1024 - 53)%Z →
  binary_round F64.prec F64.emax s m (c + Zpos d) = S754_finite s (Pos.iter xO m d) c.
Proof.
  intros Hc Hb. unfold binary_round.
  rewrite digits2_pos_iter_xO, Pos2Z.inj_add in Hc.
  rewrite f64_fexp.
  replace (Zpos (digits2_pos m) + (c + Zpos d) - 53)%Z
    with (Zpos (digits2_pos m) + Zpos d + c - 53)%Z by lia.
  rewrite Hc. unfold shl_align.
  replace (c - (c + Zpos d))%Z with (Zneg d) by lia.
  apply round_aux_canonical; [|done].
  by rewrite digits2_pos_iter_xO, Pos2Z.inj_add.
Qed.

(** The float [S754_finite s p c] is what rounding returns on every
    mantissa and exponent of the same value. *)
Lemma binary_round_exact (s : bool) (m p : positive) (e c : Z) :
  Z.max (Zpos (digits2_pos p) + c - 53) (-1074)%Z = c → (c ≤ 1024 - 53)%Z →
  (-1074 ≤ e)%Z →
  (Zpos m * 2 ^ (e + 1074) = Zpos p * 2 ^ (c + 1074))%Z →
  binary_round F64.prec F64.emax s m e = S754_finite s p c.
Proof.
  intros Hc Hb He Hv.
  destruct (Z.compare_spec e c) as [->|Hlt|Hgt].
  - apply Z.mul_cancel_r in Hv; [|apply Z.pow_nonzero; lia].
    injection Hv as ->. by apply binary_round_canonical.
  - destruct (c - e)%Z as [|d|d] eqn:Hd; try lia.
    replace (c + 1074)%Z with (Zpos d + (e + 1074))%Z in Hv by lia.
    rewrite (Z.pow_add_r 2 (Zpos d) (e + 1074)), Z.mul_assoc in Hv by lia.
    apply Z.mul_cancel_r in Hv; [|apply Z.pow_nonzero; lia].
    rewrite <- iter_xO_pow in Hv. injection Hv as ->.
    replace e with (c - Zpos d)%Z by lia. by apply binary_round_shl.
  - destruct (e - c)%Z as [|d|d] eqn:Hd; try lia.
    replace (e + 1074)%Z with (Zpos d + (c + 1074))%Z in Hv by lia.
    rewrite (Z.pow_add_r 2 (Zpos d) (c + 1074)), Z.mul_assoc in Hv by lia.
    apply Z.mul_cancel_r in Hv; [|apply Z.pow_nonzero; lia].
    rewrite <- iter_xO_pow in Hv. injection Hv as <-.
    replace e with (c + Zpos d)%Z by lia. by apply binary_round_shr.
Qed.

Lemma binary_round_opp (s : bool) (m : positive) (e : Z) :
  SFopp (binary_round F64.prec F64.emax s m e)
  = binary_round F64.prec F64.emax (negb s) m e.
Proof.
  unfold binary_round. destruct (shl_align _ _ _) as [mz ez].
  unfold binary_round_aux. destruct (shr_fexp _ _ _ _ _) as [mrs' e'].
  destruct (shr_fexp _ _ _ _ _) as [mrs'' e''].
  destruct (shr_m mrs''); [reflexivity| |reflexivity].
  by destruct (_ <=? _)%Z.
Qed.

Lemma digits2_pos_53 (p : positive) : (Zpos p < 2 ^ 53)%Z → (Zpos (digits2_pos p) ≤ 53)%Z.
Proof.
  intros Hp. pose proof (digits2_pos_lower p) as Hl.
  destruct (Z_le_gt_dec (Zpos (digits2_pos p)) 53) as [|Hgt]; [done|].
  assert (2 ^ 53 ≤ 2 ^ (Zpos (digits2_pos p) - 1))%Z
    by (apply Z.pow_le_mono_r; lia).
  lia.
Qed.

(** The float of a whole number below 2^53 that is not zero: its sign,
    its mantissa and its exponent give the number back. *)
Lemma of_Z_exact (z : Z) :
  z ≠ 0%Z → (Z.abs z < 2 ^ 53)%Z →
  ∃ s p c, F64.of_Z z = S754_finite s p c ∧ (-52 ≤ c ≤ 0)%Z ∧
           Z.max (Zpos (digits2_pos p) + c - 53) (-1074)%Z = c ∧
           (cond_Zopp s (Zpos p) * 2 ^ (c + 1074) = z * 2 ^ 1074)%Z.
Proof.
  assert (∀ s q, (Zpos q < 2 ^ 53)%Z →
            ∃ p c, binary_round F64.prec F64.emax s q 0 = S754_finite s p c ∧
                   (-52 ≤ c ≤ 0)%Z ∧
                   Z.max (Zpos (digits2_pos p) + c - 53) (-1074)%Z = c ∧
                   (Zpos p * 2 ^ (c + 1074) = Zpos q * 2 ^ 1074)%Z)
    as Hround.
  { intros s q Hq. pose proof (digits2_pos_53 q Hq) as Hd.
    destruct (53 - Zpos (digits2_pos q))%Z as [|k|k] eqn:Hk; try lia.
    - exists q, 0%Z. split; [apply binary_round_canonical; lia|].
      split; [lia|]. split; [lia|done].
    - assert (Z.max (Zpos (digits2_pos (Pos.iter xO q k)) + - Zpos k - 53) (-1074)
              = - Zpos k)%Z as Hcan
        by (rewrite digits2_pos_iter_xO, Pos2Z.inj_add; lia).
      exists (Pos.iter xO q k), (- Zpos k)%Z. split; [|split; [lia|split; [done|]]].
      + replace 0%Z with (- Zpos k + Zpos k)%Z at 1 by lia.
        apply binary_round_shr; [done|lia].
      + rewrite iter_xO_pow, <- Z.mul_assoc, <- Z.pow_add_r by lia.
        do 2 f_equal. lia. }
  intros Hz Hb. unfold F64.of_Z, binary_normalize.
  destruct z as [|q|q]; [done| |].
  - destruct (Hround false q) as (p & c & Hr & Hc & Hcan & Hv); [lia|].
    exists false, p, c. split; [done|]. split; [done|]. split; [done|]. exact Hv.
  - destruct (Hround true q) as (p & c & Hr & Hc & Hcan & Hv); [lia|].
    exists true, p, c. split; [done|]. split; [done|]. split; [done|].
    simpl cond_Zopp. lia.
Qed.

Lemma of_Z_opp (z : Z) : z ≠ 0%Z → F64.of_Z (- z) = SFopp (F64.of_Z z).
Proof.
  intros Hz. unfold F64.of_Z, binary_normalize.
  destruct z as [|q|q]; [done| |]; simpl Z.opp; by rewrite binary_round_opp.
Qed.

(** Rounding a mantissa and an exponent whose value is a whole number
    below 2^53 gives the float of that number. *)
Lemma normalize_exact (M e z : Z) :
  (-1074 ≤ e)%Z → (Z.abs z < 2 ^ 53)%Z →
  (M * 2 ^ (e + 1074) = z * 2 ^ 1074)%Z →
  binary_normalize F64.prec F64.emax M e false = F64.of_Z z.
Proof.
  intros He Hb Hv.
  assert (0 < 2 ^ (e + 1074))%Z as Hp by (apply Z.pow_pos_nonneg; lia).
  assert (0 < 2 ^ 1074)%Z as Hq by (apply Z.pow_pos_nonneg; lia).
  destruct (Z.eq_dec z 0%Z) as [->|Hz].
  - assert (M = 0%Z) as -> by nia. reflexivity.
  - destruct (of_Z_exact z Hz Hb) as (s & p & c & -> & Hc & Hcan & Hval).
    assert (0 < 2 ^ (c + 1074))%Z as Hr by (apply Z.pow_pos_nonneg; lia).
    destruct M as [|m|m]; [nia| |].
    + simpl. destruct s; [simpl in Hval; nia|].
      apply binary_round_exact; try done; [lia|]. simpl in Hval. lia.
    + simpl. destruct s; [|simpl in Hval; nia].
      apply binary_round_exact; try done; [lia|]. simpl in Hval. lia.
Qed.

Lemma shl_align_value (p : positive) (c e : Z) :
  (e ≤ c)%Z → Zpos (fst (shl_align p c e)) = (Zpos p * 2 ^ (c - e))%Z.
Proof.
  intros Hle. unfold shl_align.
  destruct (e - c)%Z as [|d|d] eqn:Hd; try lia; simpl.
  - replace (c - e)%Z with 0%Z by lia. lia.
  - rewrite iter_xO_pow. do 2 f_equal. lia.
Qed.

(** The sum and the difference of two whole numbers are exact as long as
    the numbers and the result are below 2^53. *)
Lemma add_exact (a b : Z) :
  (Z.abs a < 2 ^ 53)%Z → (Z.abs b < 2 ^ 53)%Z → (Z.abs (a + b) < 2 ^ 53)%Z →
  F64.add (F64.of_Z a) (F64.of_Z b) = F64.of_Z (a + b).
Proof.
  intros Ha Hb Hab.
  destruct (Z.eq_dec a 0%Z) as [->|Hza].
  { change (F64.of_Z 0) with (S754_zero false). rewrite Z.add_0_l.
    destruct (Z.eq_dec b 0%Z) as [->|Hzb]; [reflexivity|].
    by destruct (of_Z_exact b Hzb Hb) as (s & p & c & -> & _). }
  destruct (Z.eq_dec b 0%Z) as [->|Hzb].
  { rewrite Z.add_0_r. change (F64.of_Z 0) with (S754_zero false).
    by destruct (of_Z_exact a Hza Ha) as (s & p & c & -> & _). }
  destruct (of_Z_exact a Hza Ha) as (sa & pa & ca & -> & Hca & _ & Hva).
  destruct (of_Z_exact b Hzb Hb) as (sb & pb & cb & -> & Hcb & _ & Hvb).
  unfold F64.add, SFadd. cbv zeta.
  apply normalize_exact; [lia|done|].
  rewrite !shl_align_value by lia.
  set (ez := Z.min ca cb) in *.
  replace (ca + 1074)%Z with ((ca - ez) + (ez + 1074))%Z in Hva by lia.
  replace (cb + 1074)%Z with ((cb - ez) + (ez + 1074))%Z in Hvb by lia.
  rewrite Z.pow_add_r in Hva, Hvb by lia.
  destruct sa, sb; simpl cond_Zopp in *; lia.
Qed.

Lemma sub_exact (a b : Z) :
  (Z.abs a < 2 ^ 53)%Z → (Z.abs b < 2 ^ 53)%Z → (Z.abs (a - b) < 2 ^ 53)%Z →
  F64.sub (F64.of_Z a) (F64.of_Z b) = F64.of_Z (a - b).
Proof.
  intros Ha Hb Hab.
  destruct (Z.eq_dec b 0%Z) as [->|Hzb].
  { rewrite Z.sub_0_r. change (F64.of_Z 0) with (S754_zero false).
    destruct (Z.eq_dec a 0%Z) as [->|Hza]; [reflexivity|].
    by destruct (of_Z_exact a Hza Ha) as (s & p & c & -> & _). }
  destruct (Z.eq_dec a 0%Z) as [->|Hza].
  { rewrite Z.sub_0_l, (of_Z_opp b Hzb).
    change (F64.of_Z 0) with (S754_zero false).
    by destruct (of_Z_exact b Hzb Hb) as (s & p & c & -> & _). }
  destruct (of_Z_exact a Hza Ha) as (sa & pa & ca & -> & Hca & _ & Hva).
  destruct (of_Z_exact b Hzb Hb) as (sb & pb & cb & -> & Hcb & _ & Hvb).
  unfold F64.sub, SFsub. cbv zeta.
  apply normalize_exact; [lia|done|].
  rewrite !shl_align_value by lia.
  set (ez := Z.min ca cb) in *.
  replace (ca + 1074)%Z with ((ca - ez) + (ez + 1074))%Z in Hva by lia.
  replace (cb + 1074)%Z with ((cb - ez) + (ez + 1074))%Z in Hvb by lia.
  rewrite Z.pow_add_r in Hva, Hvb by lia.
  destruct sa, sb; simpl cond_Zopp in *; lia.
Qed.

(** An integer from 1 to 2^53 - 1 is a finite float that is not zero. *)
Lemma of_Z_finite p :
  (Zpos p < 2 ^ 53)%Z → ∃ m e, F64.of_Z (Zpos p) = S754_finite false m e.
Proof.
  intros Hp.
  assert (Zpos (digits2_pos p) ≤ 53)%Z as Hd.
  { pose proof (digits2_pos_lower p) as Hl.
    destruct (Z_le_gt_dec (Zpos (digits2_pos p)) 53) as [|Hgt]; [done|].
    assert (2 ^ 53 ≤ 2 ^ (Zpos (digits2_pos p) - 1))%Z
      by (apply Z.pow_le_mono_r; lia).
    lia. }
  unfold F64.of_Z, binary_normalize, binary_round.
  assert (fexp F64.prec F64.emax (Zpos (digits2_pos p) + 0)
          = Zpos (digits2_pos p) - 53)%Z as Hf
    by (unfold fexp, emin, F64.prec, F64.emax; lia).
  rewrite Hf.
  assert (∃ mz, shl_align p 0 (Zpos (digits2_pos p) - 53)
                = (mz, (Zpos (digits2_pos p) - 53)%Z)
                ∧ Zpos (digits2_pos mz) = 53%Z) as (mz & -> & Hmz).
  { unfold shl_align.
    destruct (Zpos (digits2_pos p) - 53 - 0)%Z as [|k|k] eqn:Hk; try lia.
    - exists p. split; [f_equal; lia|lia].
    - exists (Pos.iter xO p k). split; [done|].
      rewrite digits2_pos_iter_xO. lia. }
  exists mz, (Zpos (digits2_pos p) - 53)%Z.
  unfold binary_round_aux, shr_fexp. simpl Zdigits2. rewrite Hmz.
  assert (fexp F64.prec F64.emax (53 + (Zpos (digits2_pos p) - 53))
          - (Zpos (digits2_pos p) - 53) = 0)%Z as ->
    by (unfold fexp, emin, F64.prec, F64.emax; lia).
  simpl. rewrite Hmz.
  assert (fexp F64.prec F64.emax (53 + (Zpos (digits2_pos p) - 53))
          - (Zpos (digits2_pos p) - 53) = 0)%Z as ->
    by (unfold fexp, emin, F64.prec, F64.emax; lia).
  simpl.
  assert ((Zpos (digits2_pos p) - 53 <=? F64.emax - F64.prec)%Z = true) as ->
    by (apply Z.leb_le; unfold F64.emax, F64.prec; lia).
  reflexivity.
Qed.






(** ** Properties of the grouping *)

Lemma f64_eqb_compare x y : F64.eqb x y = true ↔ SFcompare x y = Some Eq.
Proof.
  unfold F64.eqb, SFeqb. destruct (SFcompare x y) as [[]|]; split; congruence.
Qed.

Lemma f64_eqb_refl x : F64.is_nan x = false → F64.eqb x x = true.
Proof.
  intros Hx. apply f64_eqb_compare.
  destruct x as [s|s| |s m e]; try discriminate; simpl.
  - reflexivity.
  - by destruct s.
  - destruct s; rewrite Z.compare_refl, Pos.compare_cont_refl; reflexivity.
Qed.


(** Two floats that compare equal are the same float, or two zeros. *)
Lemma f64_eqb_inv x y :
  F64.eqb x y = true →
  x = y ∨ (∃ s t, x = S754_zero s ∧ y = S754_zero t).
Proof.
  rewrite f64_eqb_compare.
  destruct x as [s|s| |s m e], y as [t|t| |t n e']; simpl; try discriminate;
    try (destruct s; discriminate); try (destruct t; discriminate).
  - intros _. right. by exists s, t.
  - destruct s, t; try discriminate; by left.
  - destruct s, t; try discriminate.
    + destruct (Z.compare_spec e e'); try discriminate. subst e'.
      rewrite Pos.compare_cont_spec. simpl.
      destruct (Pos.compare_spec m n); try discriminate. subst. by left.
    + destruct (Z.compare_spec e e'); try discriminate. subst e'.
      rewrite Pos.compare_cont_spec. simpl.
      destruct (Pos.compare_spec m n); try discriminate. subst. by left.
Qed.

Lemma f64_eqb_trans x y z :
  F64.eqb x y = true → F64.eqb y z = true → F64.eqb x z = true.
Proof.
  intros [->|(s & t & -> & ->)]%f64_eqb_inv; [done|].
  intros [<-|(s' & t' & [= <-] & ->)]%f64_eqb_inv; reflexivity.
Qed.

Lemma cell_eqb_refl c : isna c = false → Group.cell_eqb c c = true.
Proof.
  destruct c as [|s|x|d]; simpl; try discriminate.
  - intros _. apply String.eqb_refl.
  - apply f64_eqb_refl.
  - intros _. by rewrite !Z.eqb_refl.
Qed.


Lemma cell_eqb_trans a b c :
  Group.cell_eqb a b = true → Group.cell_eqb b c = true → Group.cell_eqb a c = true.
Proof.
  destruct a, b, c; simpl; try discriminate; try done.
  - intros ->%String.eqb_eq. done.
  - apply f64_eqb_trans.
  - rewrite !andb_true_iff, !Z.eqb_eq. intros [[-> ->] ->]. done.
Qed.

Lemma key_eqb_refl k : forallb (λ c, negb (isna c)) k = true → Group.key_eqb k k = true.
Proof.
  induction k as [|c k IH]; simpl; [done|].
  rewrite andb_true_iff, negb_true_iff. intros [Hc Hk].
  by rewrite cell_eqb_refl, IH.
Qed.


Lemma key_eqb_trans k1 k2 k3 :
  Group.key_eqb k1 k2 = true → Group.key_eqb k2 k3 = true → Group.key_eqb k1 k3 = true.
Proof.
  revert k2 k3. induction k1 as [|a k1 IH]; intros [|b k2] [|c k3]; simpl;
    try discriminate; try done.
  rewrite !andb_true_iff. intros [Hab H12] [Hbc H23]. split.
  - by eapply cell_eqb_trans.
  - by eapply IH.
Qed.




Lemma distinct_subset ks k : k ∈ Group.distinct ks → k ∈ ks.
Proof.
  revert k. induction ks as [|k0 ks IH]; intros k; simpl; [done|].
  intros [->|Hin]%elem_of_cons; [apply list_elem_of_here|].
  apply list_elem_of_further, IH.
  apply list_elem_of_In, filter_In in Hin as [Hin _]. by apply list_elem_of_In.
Qed.

(** Every key without a missing value has its group. *)
Lemma distinct_covers ks k :
  (∀ k', k' ∈ ks → forallb (λ c, negb (isna c)) k' = true) →
  k ∈ ks → ∃ k0, k0 ∈ Group.distinct ks ∧ Group.key_eqb k0 k = true.
Proof.
  revert k. induction ks as [|k1 ks IH]; intros k Hna; [by intros ?%elem_of_nil|].
  simpl. intros [->|Hin]%elem_of_cons.
  - exists k1. split; [apply list_elem_of_here|].
    apply key_eqb_refl, Hna, list_elem_of_here.
  - destruct (IH k) as (k0 & Hk0 & Heq); [|done|].
    { intros. by apply Hna, list_elem_of_further. }
    destruct (Group.key_eqb k1 k0) eqn:E.
    + exists k1. split; [apply list_elem_of_here|]. by eapply key_eqb_trans.
    + exists k0. split; [|done].
      apply list_elem_of_further, list_elem_of_In, filter_In.
      split; [by apply list_elem_of_In|]. by rewrite E.
Qed.

(** ** Properties of [city_means_for_day] *)

Lemma numbers_all (cs : list cell) :
  (∀ c, c ∈ cs → ∃ x, c = CNum x) → Group.numbers cs = Some (map as_float cs).
Proof.
  unfold Group.numbers. induction cs as [|c cs IH]; intros H; simpl; [done|].
  destruct (H c) as [x ->]; [apply list_elem_of_here|]. simpl.
  rewrite IH; [done|]. intros. by apply H, list_elem_of_further.
Qed.

Lemma filter_all {A} (P : A → bool) (l : list A) :
  (∀ x, x ∈ l → P x = true) → List.filter P l = l.
Proof.
  induction l as [|x l IH]; intros H; simpl; [done|].
  rewrite (H x) by apply list_elem_of_here.
  f_equal. apply IH. intros. by apply H, list_elem_of_further.
Qed.

Lemma filter_length_le {A} (P : A → bool) (l : list A) :
  (length (List.filter P l) ≤ length l)%nat.
Proof. induction l as [|x l IH]; simpl; [lia|]. destruct (P x); simpl; lia. Qed.

Lemma zip_with_map_r {A B C} (g : A → B → C) (F : A → B) (l : list A) :
  zip_with g l (map F l) = map (λ x, g x (F x)) l.
Proof. induction l; simpl; congruence. Qed.

(** A column computed from the rows and added under a new name. *)
Lemma setitem_new_map (name : string) (g : DataFrame) (F : list cell → cell) :
  Frame.index_of name (columns g) = None →
  Frame.setitem name (map F (rows g)) g
  = Frame (columns g ++ [name]) (map (λ r, r ++ [F r]) (rows g)).
Proof.
  intros H. unfold Frame.setitem. rewrite H. by rewrite zip_with_map_r.
Qed.

Lemma indices_length names f ix :
  Frame.indices names f = Some ix → length ix = length names.
Proof.
  unfold Frame.indices. intros H%mapM_Some. symmetry. by eapply Forall2_length.
Qed.

(** The groups that [groupby] lists are those of the table. *)
Lemma group_order_elem {gb : PdGroupBy} (ks : list (list cell)) (k : list cell) :
  k ∈ group_order ks ↔ k ∈ ks.
Proof. by rewrite (group_order_perm ks). Qed.



Lemma groupby_mean_clean {gb : PdGroupBy} (f : DataFrame) (ix : list nat) (iv : nat) :
  Frame.indices city_keys f = Some ix →
  Frame.index_of "european_aqi" (columns f) = Some iv →
  clean f ix iv →
  Group.groupby_mean city_keys "european_aqi" f
  = Some (Frame (city_keys ++ ["european_aqi"])
            (map (λ k, k ++ [CNum (group_mean f ix iv k)])
                 (group_order (group_keys f ix)))).
Proof.
  intros Hix Hiv Hc. unfold Group.groupby_mean. rewrite Hix. simpl.
  rewrite Hiv. simpl.
  rewrite (filter_all (Frame.complete ix) (rows f)) by (intros; by apply Hc).
  rewrite numbers_all; simpl.
  - f_equal. f_equal. apply map_ext_in. intros k _. do 3 f_equal.
    unfold group_mean, values_of_key, rows_of_key, Group.members.
    rewrite numbers_all; [by rewrite map_map|].
    intros c (r & -> & Hr)%list_elem_of_fmap.
    apply list_elem_of_In, filter_In in Hr as [Hr _].
    apply list_elem_of_In, Hc in Hr as [_ (x & -> & _)]. by exists x.
  - intros c (r & -> & Hr)%list_elem_of_fmap.
    apply Hc in Hr as [_ (x & -> & _)]. by exists x.
Qed.

Lemma city_means_for_day_run {gb : PdGroupBy} (df : ref) (f : DataFrame)
    (ix : list nat) (iv : nat) (h : store) :
  h !! df = Some f →
  Frame.indices city_keys f = Some ix →
  Frame.index_of "european_aqi" (columns f) = Some iv →
  clean f ix iv →
  city_means_for_day df h
  = (Return (length h),
     h ++ [Frame (city_keys ++ ["european_aqi"; "label"; "color"])
             (map (λ k, point k (group_mean f ix iv k))
                  (group_order (group_keys f ix)))]).
Proof.
  intros Hh Hix Hiv Hc. unfold city_means_for_day.
  rewrite bind_run, (deref_run _ _ _ Hh).
  fold city_keys. rewrite (groupby_mean_clean f ix iv Hix Hiv Hc).
  set (ks := group_order (group_keys f ix)).
  set (g := Frame (city_keys ++ ["european_aqi"])
              (map (λ k, k ++ [CNum (group_mean f ix iv k)]) ks)).
  rewrite bind_run. unfold alloc at 1.
  assert (∀ k, k ∈ ks → length k = 5) as Hlen.
  { intros k Hk%group_order_elem%distinct_subset.
    apply list_elem_of_fmap in Hk as (r & -> & _).
    unfold Group.key_of. rewrite length_map. by apply indices_length in Hix. }
  assert (∀ k m rest, length k = 5 → Frame.cell_at 5 (k ++ CNum m :: rest) = CNum m)
    as Hat.
  { intros k m rest Hk. unfold Frame.cell_at.
    rewrite lookup_app_r by lia. by rewrite Hk. }
  set (lab := λ r : list cell, CStr (eaqi_label (as_float (Frame.cell_at 5 r)))).
  set (colr := λ r : list cell, CStr (eaqi_color (as_float (Frame.cell_at 5 r)))).
  rewrite (assign_column_run "european_aqi" "label"
             (λ c, map (λ c, CStr (eaqi_label (as_float c))) c)
             _ (length h) g (Frame.icol 5 g));
    [|apply lookup_alloc|reflexivity|by rewrite length_map].
  assert (Frame.setitem "label"
            (map (λ c, CStr (eaqi_label (as_float c))) (Frame.icol 5 g)) g
          = Frame (columns g ++ ["label"]) (map (λ r, r ++ [lab r]) (rows g)))
    as ->.
  { unfold Frame.icol. rewrite map_map. apply (setitem_new_map "label" g lab). reflexivity. }
  set (g1 := Frame (columns g ++ ["label"]) (map (λ r, r ++ [lab r]) (rows g))).
  rewrite (assign_column_run "european_aqi" "color"
             (λ c, map (λ c, CStr (eaqi_color (as_float c))) c)
             _ (length h) g1 (Frame.icol 5 g1));
    [|apply list_lookup_insert_eq; rewrite length_app; simpl; lia
     |reflexivity|by rewrite length_map].
  assert (Frame.setitem "color"
            (map (λ c, CStr (eaqi_color (as_float c))) (Frame.icol 5 g1)) g1
          = Frame (columns g1 ++ ["color"]) (map (λ r, r ++ [colr r]) (rows g1)))
    as ->.
  { unfold Frame.icol. rewrite map_map. apply (setitem_new_map "color" g1 colr). reflexivity. }
  unfold mret, M_ret. f_equal.
  rewrite list_insert_insert_eq, insert_app_r_alt by lia.
  rewrite Nat.sub_diag. simpl. do 3 f_equal.
  rewrite !map_map. apply map_ext_in. intros k Hk%list_elem_of_In.
  unfold point, lab, colr. rewrite <- !app_assoc. simpl.
  rewrite !Hat by by apply Hlen. reflexivity.
Qed.

(** ** The mean of a group *)

(** The mean of values none of which is NaN: their compensated sum
    divided by their number. *)
Lemma mean_no_nan (xs : list float) :
  xs ≠ [] → (∀ x, x ∈ xs → F64.is_nan x = false) →
  Group.mean xs
  = F64.div (Group.kahan_sum xs) (F64.of_Z (Z.of_nat (length xs))).
Proof.
  intros Hne Hx. unfold Group.mean. cbv zeta.
  rewrite filter_all by (intros; rewrite Hx; done).
  by destruct xs.
Qed.

Lemma whole_sum_abs (zs : list Z) :
  (Z.abs (whole_sum zs) ≤ whole_sum (map Z.abs zs))%Z.
Proof. induction zs as [|z zs IH]; simpl; lia. Qed.

(** On whole numbers the compensated sum is the sum: no step rounds, and
    the compensation stays zero. *)
Lemma kahan_step_whole (a z : Z) :
  (Z.abs a + Z.abs z < 2 ^ 53)%Z →
  Group.kahan_step (F64.of_Z a, F64.of_Z 0) (F64.of_Z z)
  = (F64.of_Z (a + z), F64.of_Z 0).
Proof.
  intros Hb. unfold Group.kahan_step.
  rewrite (sub_exact z 0), Z.sub_0_r by (simpl; lia).
  rewrite (add_exact a z) by lia.
  rewrite (sub_exact (a + z) a) by lia.
  replace (a + z - a)%Z with z by lia.
  rewrite (sub_exact z z), Z.sub_diag by (rewrite ?Z.sub_diag; simpl; lia).
  reflexivity.
Qed.

Lemma kahan_whole (zs : list Z) (a : Z) :
  (Z.abs a + whole_sum (map Z.abs zs) < 2 ^ 53)%Z →
  fold_left Group.kahan_step (map F64.of_Z zs) (F64.of_Z a, F64.of_Z 0)
  = (F64.of_Z (a + whole_sum zs), F64.of_Z 0).
Proof.
  revert a. induction zs as [|z zs IH]; intros a Hb.
  - simpl. by rewrite Z.add_0_r.
  - pose proof (whole_sum_abs zs) as Hs.
    unfold whole_sum in *. cbn [foldr map fold_left] in *.
    rewrite kahan_step_whole by lia. rewrite IH by lia.
    by rewrite Z.add_assoc.
Qed.

Lemma kahan_sum_whole (zs : list Z) :
  (whole_sum (map Z.abs zs) < 2 ^ 53)%Z →
  Group.kahan_sum (map F64.of_Z zs) = F64.of_Z (whole_sum zs).
Proof.
  intros Hb. unfold Group.kahan_sum. rewrite (kahan_whole zs 0) by (simpl; lia).
  reflexivity.
Qed.

(** The mean of whole numbers is the quotient of their sum by their
    number, rounded once. *)
Lemma mean_whole (zs : list Z) :
  zs ≠ [] → (whole_sum (map Z.abs zs) < 2 ^ 53)%Z →
  Group.mean (map F64.of_Z zs)
  = F64.div (F64.of_Z (whole_sum zs)) (F64.of_Z (Z.of_nat (length zs))).
Proof.
  intros Hne Hb. rewrite mean_no_nan.
  - by rewrite kahan_sum_whole, length_map.
  - by destruct zs.
  - intros x (z & -> & _)%list_elem_of_fmap. apply binary_normalize_not_nan.
Qed.







(** ** What the stages write in the store *)

Section PrepareFrame.

Context {py : PyStr}.
Variable to_datetime : list cell → list (option date).
Variable to_numeric : list cell → list float.
Hypothesis to_datetime_length : ∀ c, length (to_datetime c) = length c.
Hypothesis to_numeric_length : ∀ c, length (to_numeric c) = length c.

(** A column that [prepare] does not assign is as it was. *)
Lemma parsed_other (f : DataFrame) (a : string) :
  Frame.wf f = true →
  (∀ x, x ∈ needed_list → x ∈ columns f) →
  a ∈ columns f → a ∉ assigned →
  col a (parsed to_datetime to_numeric f) = col a f.
Proof.
  intros Hwf Hall Ha Hna.
  assert (a ≠ "date" ∧ a ≠ "latitude" ∧ a ≠ "longitude" ∧ a ≠ "european_aqi"
          ∧ a ≠ "country_name") as (N1 & N2 & N3 & N4 & N5).
  { unfold assigned in Hna. rewrite !elem_of_cons, elem_of_nil in Hna. tauto. }
  assert (∀ g name, Frame.wf g = true → name ∈ columns g → a ∈ columns g →
            a ≠ name →
            Frame.wf (parse_number to_numeric name g) = true ∧
            (∀ x, x ∈ columns g → x ∈ columns (parse_number to_numeric name g)) ∧
            col a (parse_number to_numeric name g) = col a g) as Hnum.
  { intros g name Hg Hn Hag Hne.
    assert (length (map CNum (to_numeric (col name g))) = length (rows g)) as Hl
      by (rewrite length_map, to_numeric_length; by apply col_length).
    split; [by apply setitem_wf|]. split.
    - intros. by apply setitem_columns_elem.
    - by apply col_setitem_other. }
  unfold parsed.
  set (f1 := parse_date to_datetime f).
  assert (length (map date_cell (to_datetime (col "date" f))) = length (rows f)) as Hl0.
  { rewrite length_map, to_datetime_length. apply col_length, Hall. in_list. }
  assert (Frame.wf f1 = true) as Hwf1 by by apply setitem_wf.
  assert (∀ x, x ∈ columns f → x ∈ columns f1) as Hin1
    by (intros; by apply setitem_columns_elem).
  assert (col a f1 = col a f) as H1 by by apply col_setitem_other.
  destruct (Hnum f1 "latitude" Hwf1) as (Hwf2 & Hin2 & H2);
    [apply Hin1, Hall; in_list|by apply Hin1|done|].
  set (f2 := parse_number to_numeric "latitude" f1) in *.
  destruct (Hnum f2 "longitude" Hwf2) as (Hwf3 & Hin3 & H3);
    [apply Hin2, Hin1, Hall; in_list|by apply Hin2, Hin1|done|].
  set (f3 := parse_number to_numeric "longitude" f2) in *.
  destruct (Hnum f3 "european_aqi" Hwf3) as (Hwf4 & Hin4 & H4);
    [apply Hin3, Hin2, Hin1, Hall; in_list|by apply Hin3, Hin2, Hin1|done|].
  set (f4 := parse_number to_numeric "european_aqi" f3) in *.
  unfold name_country. rewrite col_setitem_other; [congruence|done| |done|].
  - rewrite length_map. apply col_length, Hin4, Hin3, Hin2, Hin1, Hall. in_list.
  - by apply Hin4, Hin3, Hin2, Hin1.
Qed.

End PrepareFrame.

(** C8, as stated, fails: [normalize_columns] renames the columns of the
    table it is given and returns that very table, and [prepare] rewrites
    the table it is given. *)
Lemma stages_write_their_input :
  let py := AsciiStr in
  fst (normalize_columns 0 [sheet_headers]) = Return 0 ∧
  snd (normalize_columns 0 [sheet_headers])
  = [Frame six_columns (rows sheet_headers)] ∧
  ¬ unchanged_at 0 [sheet_headers] (normalize_columns 0 [sheet_headers]) ∧
  ¬ unchanged_at 0 [sheet_rows]
      (prepare PandasModel.to_datetime PandasModel.to_numeric 0 [sheet_rows]).
Proof.
  intros py. split; [reflexivity|]. split; [vm_compute; reflexivity|].
  split; vm_compute; discriminate.
Qed.

(** C8, amended. [normalize_columns] writes the normalized names in the
    table it is given and returns the same reference: the rows are the
    same, and no other table of the store is touched, none is added.
    [fix_single_column_csv_like] writes in no table. [prepare], when it
    returns, returns a reference to a new table, has replaced the table it
    was given by the parsed one (as many rows, and every column it does
    not assign as it was) and has touched no other table; when it raises
    its error the store is as it was. *)
Theorem stages_store_effects :
  ∀ py : PyStr,
  (∀ (h : store) (df : ref) (f : DataFrame),
     h !! df = Some f →
     ∃ f', normalize_columns df h = (Return df, <[df := f']> h) ∧
           columns f' = map norm_name (columns f) ∧ rows f' = rows f) ∧
  (∀ read_csv astype_str (h : store) (df : ref) (f : DataFrame),
     h !! df = Some f →
     ∃ out h', fix_single_column_csv_like read_csv astype_str df h = (Return out, h') ∧
               (∀ r, r < length h → h' !! r = h !! r) ∧
               (out = df ∧ h' = h ∨ out = length h)) ∧
  (∀ (to_datetime : list cell → list (option date))
     (to_numeric : list cell → list float),
     (∀ c, length (to_datetime c) = length c) →
     (∀ c, length (to_numeric c) = length c) →
     ∀ (h : store) (df : ref) (f : DataFrame),
       h !! df = Some f → Frame.wf f = true →
       let run := prepare to_datetime to_numeric df h in
       (∀ e, fst run = Raise e → snd run = h) ∧
       (∀ out, fst run = Return out →
          out = length h ∧
          ∃ g, snd run = <[df := parsed to_datetime to_numeric f]> h ++ [g] ∧
               length (rows (parsed to_datetime to_numeric f)) = length (rows f) ∧
               ∀ a, a ∈ columns f → a ∉ assigned →
                    col a (parsed to_datetime to_numeric f) = col a f)).
Proof.
  intros py. split; [|split].
  - intros h df f Hh. eexists. split; [by apply normalize_columns_run|]. done.
  - intros read_csv astype_str h df f Hh.
    destruct (csv_like f) eqn:Hc.
    + rewrite (fix_single_column_run_csv read_csv astype_str df f h Hh Hc).
      eexists _, _. split; [reflexivity|]. split; [|by right].
      intros r Hr. by rewrite lookup_app_l.
    + rewrite (fix_single_column_run_other read_csv astype_str df f h Hh Hc).
      eexists _, _. split; [reflexivity|]. split; [done|by left].
  - intros to_datetime to_numeric Hd Hn h df f Hh Hwf run.
    destruct (decide (needed ∖ (list_to_set (columns f) : gset string) = ∅))
      as [He|Hne].
    + assert (∀ x, x ∈ needed_list → x ∈ columns f) as Hall
        by by apply missing_empty.
      destruct (prepare_returns to_datetime to_numeric Hd Hn df f h Hh Hall)
        as (g & _ & Hrun).
      subst run. rewrite Hrun. simpl. split; [intros e [=]|].
      intros out [= <-]. split; [done|]. exists g. split; [done|].
      split.
      * by destruct (parsed_spec to_datetime to_numeric Hd Hn f Hwf Hall) as (_ & ? & _).
      * intros a Ha Hna. by apply parsed_other.
    + subst run. rewrite (prepare_raises to_datetime to_numeric df f h Hh Hne).
      simpl. split; [done|]. intros out [=].
Qed.

(** C8, amended, on the sheet whose headers are not normalized. *)
Lemma stages_store_effects_witness :
  let py := AsciiStr in
  ∃ f', normalize_columns 0 [sheet_headers] = (Return 0, <[0 := f']> [sheet_headers]) ∧
        columns f' = map norm_name (columns sheet_headers) ∧
        rows f' = rows sheet_headers.
Proof.
  exact (proj1 (stages_store_effects AsciiStr) [sheet_headers] 0 sheet_headers eq_refl).
Defined.

(** ** Idempotence of the normalization *)

(** On an ASCII name the normalization works character by character, after
    the trimming, and returns an ASCII name. *)
Lemma norm_name_ascii (py : PyStr) (c : string) :
  ascii_faithful py → Str.is_ascii c = true →
  norm_name c = Str.map norm_char (Str.strip c).
Proof.
  intros Hf Hc. unfold norm_name. rewrite (ascii_lower_strip py c Hf Hc).
  unfold Str.replace, Str.lower. by rewrite StrFacts.map_map.
Qed.

Lemma is_ascii_norm (c : string) :
  Str.is_ascii c = true → Str.is_ascii (Str.map norm_char (Str.strip c)) = true.
Proof. intros Hc. by apply is_ascii_map, is_ascii_strip. Qed.

Lemma norm_char_space c : Str.isspace (norm_char c) = true → Str.isspace c = true.
Proof.
  pose proof (StrFacts.all_chars_spec
    (λ c, implb (Str.isspace (norm_char c)) (Str.isspace c)) eq_refl c) as H.
  simpl in H. destruct (Str.isspace (norm_char c)); [|discriminate].
  intros _. exact H.
Qed.



Lemma replace_absent (a b : ascii) (s : string) :
  Str.contains a s = false → Str.replace a b s = s.
Proof.
  unfold Str.replace. induction s as [|c s IH]; simpl; [done|].
  rewrite orb_false_iff. intros [-> Hs]. by rewrite IH.
Qed.

Lemma norm_name_canonical {py : PyStr} c : canonical_name c → norm_name c = c.
Proof.
  intros (Hs & Hl & Hc). unfold norm_name. rewrite Hs, Hl.
  by apply replace_absent.
Qed.






(** ** The Unknown tier on aggregated points *)







(** ** The order of the tiers *)

Lemma f64_leb_cases x y :
  F64.leb x y = true ↔ F64.ltb x y = true ∨ F64.eqb x y = true.
Proof.
  unfold F64.leb, F64.ltb, F64.eqb, SFleb, SFltb, SFeqb.
  destruct (SFcompare x y) as [[]|]; intuition congruence.
Qed.

(** Two floats that compare equal compare alike with every float. *)
Lemma f64_leb_eqb_r x y z : F64.eqb y z = true → F64.leb x y = F64.leb x z.
Proof.
  intros [->|(s & t & -> & ->)]%f64_eqb_inv; [done|].
  destruct x as [sx|sx| |sx m e]; try destruct sx; reflexivity.
Qed.

Lemma f64_leb_eqb_l x y z : F64.eqb x y = true → F64.leb x z = F64.leb y z.
Proof.
  intros [->|(s & t & -> & ->)]%f64_eqb_inv; [done|].
  destruct z as [sz|sz| |sz m e]; try destruct sz; reflexivity.
Qed.

Lemma f64_leb_trans x y z :
  F64.leb x y = true → F64.leb y z = true → F64.leb x z = true.
Proof.
  intros [H1|H1]%f64_leb_cases [H2|H2]%f64_leb_cases.
  - by apply F64Facts.ltb_leb, (F64Facts.ltb_trans x y z).
  - rewrite <- (f64_leb_eqb_r x y z H2). by apply F64Facts.ltb_leb.
  - rewrite (f64_leb_eqb_l x y z H1). by apply F64Facts.ltb_leb.
  - apply f64_leb_cases. right. by eapply f64_eqb_trans.
Qed.

(** X1. The tiers follow the order of the values: when [v <= w] (in
    binary64, so neither is NaN), [w] in the tier Bon puts [v] in it, and
    [v] in the tier Mauvais puts [w] in it, for the labels and for the
    colors; two values that compare equal (as 0.0 and -0.0 do) have the same
    label and the same color. *)
Theorem tiers_monotone (v w : float) :
  F64.leb v w = true →
  (eaqi_label w = "Bon" → eaqi_label v = "Bon") ∧
  (eaqi_label v = "Mauvais" → eaqi_label w = "Mauvais") ∧
  (eaqi_color w = COLOR_GOOD → eaqi_color v = COLOR_GOOD) ∧
  (eaqi_color v = COLOR_BAD → eaqi_color w = COLOR_BAD) ∧
  (F64.leb w v = true →
   eaqi_label v = eaqi_label w ∧ eaqi_color v = eaqi_color w).
Proof.
  intros H. destruct (F64Facts.leb_not_nan _ _ H) as [Hv Hw].
  assert (∀ t, F64.leb w t = true → F64.leb v t = true) as A
    by (intros t; by apply f64_leb_trans).
  pose proof (A (F64.of_Z GOOD_MAX)) as A1.
  pose proof (A (F64.of_Z MEDIUM_MAX)) as A2.
  pose proof (tests_coherent v) as Cv. pose proof (tests_coherent w) as Cw.
  unfold tests in Cv, Cw. rewrite Hv in Cv. rewrite Hw in Cw.
  split; [|split; [|split; [|split]]].
  5: {
    intros H'.
    assert (∀ t, F64.leb v t = F64.leb w t) as E.
    { intros t. apply eq_true_iff_eq. split; intros; by eapply f64_leb_trans. }
    unfold eaqi_label, eaqi_color. by rewrite Hv, Hw, !E. }
  all: unfold eaqi_label, eaqi_color, COLOR_GOOD, COLOR_MED, COLOR_BAD;
    rewrite Hv, Hw; revert A1 A2 Cv Cw;
    destruct (F64.leb v (F64.of_Z GOOD_MAX)), (F64.leb w (F64.of_Z GOOD_MAX)),
      (F64.leb v (F64.of_Z MEDIUM_MAX)), (F64.leb w (F64.of_Z MEDIUM_MAX));
    intros A1 A2 Cv Cw; try discriminate; try reflexivity;
    try (specialize (A1 eq_refl); discriminate);
    try (specialize (A2 eq_refl); discriminate);
    try (exfalso; list_cases Cv); try (exfalso; list_cases Cw).
Qed.

(** X1 on the values 30 and 50. *)
Lemma tiers_monotone_witness :
  (eaqi_label (F64.of_Z 50) = "Bon" → eaqi_label (F64.of_Z 30) = "Bon") ∧
  (eaqi_label (F64.of_Z 30) = "Mauvais" → eaqi_label (F64.of_Z 50) = "Mauvais") ∧
  (eaqi_color (F64.of_Z 50) = COLOR_GOOD → eaqi_color (F64.of_Z 30) = COLOR_GOOD) ∧
  (eaqi_color (F64.of_Z 30) = COLOR_BAD → eaqi_color (F64.of_Z 50) = COLOR_BAD) ∧
  (F64.leb (F64.of_Z 50) (F64.of_Z 30) = true →
   eaqi_label (F64.of_Z 30) = eaqi_label (F64.of_Z 50) ∧
   eaqi_color (F64.of_Z 30) = eaqi_color (F64.of_Z 50)).
Proof. apply (tiers_monotone (F64.of_Z 30) (F64.of_Z 50)). reflexivity. Defined.

(** ** The names of the countries *)

Lemma country_entries_lookup k v :
  ISO2_TO_COUNTRY_FR !! k = Some v → (k, v) ∈ country_entries.
Proof. unfold country_entries. by rewrite elem_of_map_to_list. Qed.

(** Every name of the table holds a lower-case letter, no two codes have
    the same name, and every code is ASCII text, its own upper case. *)
Lemma country_entries_facts :
  forallb (λ p, any_char is_lower p.2) country_entries = true ∧
  NoDup (country_entries.*2) ∧
  forallb (λ p, Str.is_ascii p.1 && String.eqb (Str.upper (Str.strip p.1)) p.1)
    country_entries = true.
Proof.
  split; [|split].
  - vm_compute. reflexivity.
  - apply (bool_decide_unpack _). vm_compute. exact I.
  - vm_compute. reflexivity.
Qed.

(** A test that holds of every entry holds of what a lookup finds. *)
Lemma country_entries_forall (p : string * string → bool) (k v : string) :
  forallb p country_entries = true →
  ISO2_TO_COUNTRY_FR !! k = Some v → p (k, v) = true.
Proof.
  intros Hp H. rewrite forallb_forall in Hp.
  exact (Hp (k, v) (proj1 (list_elem_of_In country_entries (k, v))
                      (country_entries_lookup k v H))).
Qed.

Lemma any_char_upper s : any_char is_lower (Str.upper s) = false.
Proof.
  unfold Str.upper. induction s as [|c s IH]; simpl; [done|].
  rewrite IH, orb_false_r. apply negb_true_iff.
  exact (StrFacts.all_chars_spec (λ c, negb (is_lower (Str.upper_char c))) eq_refl c).
Qed.

Lemma country_name_has_lower k v :
  ISO2_TO_COUNTRY_FR !! k = Some v → any_char is_lower v = true.
Proof.
  intros H. destruct country_entries_facts as (Hl & _ & _).
  exact (country_entries_forall _ k v Hl H).
Qed.

Lemma NoDup_snd_inj {A B} (l : list (A * B)) a b v :
  NoDup (l.*2) → (a, v) ∈ l → (b, v) ∈ l → a = b.
Proof.
  induction l as [|[x y] l IH]; simpl; intros Hnd Ha Hb.
  - by apply elem_of_nil in Ha.
  - apply NoDup_cons in Hnd as [Hy Hnd].
    apply elem_of_cons in Ha as [[= -> ->]|Ha];
      apply elem_of_cons in Hb as [[= ->]|Hb].
    + done.
    + exfalso. apply Hy. apply list_elem_of_fmap. by exists (b, y).
    + subst. exfalso. apply Hy. apply list_elem_of_fmap. by exists (a, y).
    + by apply IH.
Qed.

(** X2. Upper-casing a string leaves no lower-case ASCII letter in it;
    hence [country_name] answers Inconnu for the codes that are not
    strings, and for no string: the name of a string is a name of the
    table, which is not Inconnu, or the string itself in upper case. *)
Theorem country_name_unknown_iff (py : PyStr) (code : cell) :
  (∀ s, any_char is_lower (py_upper s) = false) →
  (country_name code = "Inconnu" ↔ ∀ s, code ≠ CStr s).
Proof.
  intros Hup. split.
  - intros H s ->. unfold country_name in H. cbv zeta in H.
    destruct (ISO2_TO_COUNTRY_FR !! py_upper (py_strip s)) as [v|] eqn:Hv;
      simpl in H.
    + subst v.
      assert (forallb (λ p, negb (String.eqb p.2 "Inconnu")) country_entries = true)
        as Hn by (vm_compute; reflexivity).
      pose proof (country_entries_forall _ _ _ Hn Hv) as Hi. discriminate.
    + pose proof (Hup (py_strip s)) as Hu.
      rewrite H in Hu. discriminate.
  - destruct code as [|s| |]; try reflexivity.
    intros H. by destruct (H s).
Qed.

(** X2 with the functions cut down to ASCII text. *)
Lemma country_name_unknown_iff_witness :
  let py := AsciiStr in
  (country_name (CNum (F64.of_Z 47)) = "Inconnu" ↔ ∀ s, CNum (F64.of_Z 47) ≠ CStr s) ∧
  country_name (CStr "inconnu") ≠ "Inconnu".
Proof.
  intros py. split.
  - exact (country_name_unknown_iff AsciiStr (CNum (F64.of_Z 47)) any_char_upper).
  - intros H.
    by apply (proj1 (country_name_unknown_iff AsciiStr (CStr "inconnu") any_char_upper) H
                "inconnu").
Defined.

(** X3. Two strings have the same country name exactly when Python's
    [strip] and [upper] make the same text of them: no two codes of the
    table share a name, and no name of the table is a string in upper
    case. Every code of the table, as it is written there, has the name the
    table gives it. *)
Theorem country_name_injective (py : PyStr) :
  (∀ s, any_char is_lower (py_upper s) = false) →
  ascii_faithful py →
  (∀ a b : string,
     country_name (CStr a) = country_name (CStr b)
     ↔ py_upper (py_strip a) = py_upper (py_strip b)) ∧
  map_Forall (λ k v, country_name (CStr k) = v) ISO2_TO_COUNTRY_FR.
Proof.
  intros Hup Hf. split.
  - intros a b. unfold country_name. cbv zeta. split; [|by intros ->].
    destruct (ISO2_TO_COUNTRY_FR !! py_upper (py_strip a)) as [va|] eqn:Ha;
      destruct (ISO2_TO_COUNTRY_FR !! py_upper (py_strip b)) as [vb|] eqn:Hb;
      simpl; intros E.
    + subst vb. destruct country_entries_facts as (_ & Hnd & _).
      eapply NoDup_snd_inj; [exact Hnd| |]; by apply country_entries_lookup.
    + apply country_name_has_lower in Ha.
      rewrite E, Hup in Ha. discriminate.
    + apply country_name_has_lower in Hb.
      rewrite <- E, Hup in Hb. discriminate.
    + exact E.
  - intros k v Hk. unfold country_name. cbv zeta.
    destruct country_entries_facts as (_ & _ & Hu).
    pose proof (country_entries_forall _ k v Hu Hk) as Hkv.
    cbv beta in Hkv. apply andb_true_iff in Hkv as [Hascii Hkv].
    apply String.eqb_eq in Hkv.
    change (Str.is_ascii k = true) in Hascii.
    change (Str.upper (Str.strip k) = k) in Hkv.
    rewrite (ascii_upper_strip py k Hf Hascii), Hkv, Hk. reflexivity.
Qed.

(** X3 with the functions cut down to ASCII text. *)
Lemma country_name_injective_witness :
  let py := AsciiStr in
  (country_name (CStr " fr") = country_name (CStr "FR ")
   ↔ py_upper (py_strip " fr") = py_upper (py_strip "FR ")) ∧
  country_name (CStr "NO") = "Norvège".
Proof.
  intros py.
  destruct (country_name_injective AsciiStr any_char_upper ascii_faithful_ascii)
    as [Hinj Hall].
  split; [apply Hinj|]. by apply (Hall "NO").
Defined.

(** ** The names of the columns after the normalization *)

Lemma norm_char_lower c : Str.lower_char (norm_char c) = norm_char c.
Proof.
  apply Ascii.eqb_eq.
  exact (StrFacts.all_chars_spec
    (λ c, Ascii.eqb (Str.lower_char (norm_char c)) (norm_char c)) eq_refl c).
Qed.

(** No space is left where each was replaced. *)
Lemma norm_name_no_space {py : PyStr} (c : string) :
  Str.contains " " (norm_name c) = false.
Proof.
  unfold norm_name, Str.replace.
  induction (py_lower (py_strip c)) as [|a s IH]; simpl; [done|].
  rewrite IH, orb_false_r. by destruct (Ascii.eqb a " ") eqn:E.
Qed.

Lemma norm_name_is_canonical (py : PyStr) (c : string) :
  ascii_faithful py → Str.is_ascii c = true → canonical_name (norm_name c).
Proof.
  intros Hf Hc. split; [|split; [|apply norm_name_no_space]];
    rewrite (norm_name_ascii py c Hf Hc);
    destruct (Hf _ (is_ascii_norm c Hc)) as (Hs & _ & Hl).
  - rewrite Hs. apply StrFacts.strip_map, norm_char_space.
  - rewrite Hl. unfold Str.lower. rewrite StrFacts.map_map.
    apply StrFacts.map_ext, norm_char_lower.
Qed.

(** X4. Whatever the sheet holds, the table [load_excel_local] returns
    has the normalized names of the sheet that was read, or of the text
    read again: as many as there were columns, and none holds a space.
    When these names were ASCII text, every name of the table is
    canonical (trimmed, in lower case, with no space) and the
    normalization leaves it as it is. *)
Theorem loaded_names_canonical :
  ∀ (py : PyStr) (read_excel read_csv : string → DataFrame)
    (astype_str : cell → string) (path : string) (h : store),
    let run := load_excel_local read_excel read_csv astype_str path h in
    let source := if csv_like (read_excel path)
                  then read_csv (document astype_str (read_excel path))
                  else read_excel path in
    ∃ out t, fst run = Return out ∧ snd run !! out = Some t ∧
             columns t = map norm_name (columns source) ∧
             rows t = rows source ∧
             (∀ c, c ∈ columns t → Str.contains " " c = false) ∧
             length (columns t) = length (columns source) ∧
             (ascii_faithful py →
              (∀ c, c ∈ columns source → Str.is_ascii c = true) →
              canonical t ∧ (∀ c, c ∈ columns t → norm_name c = c)).
Proof.
  intros py read_excel read_csv astype_str path h run source. subst run.
  pose proof (load_excel_local_run read_excel read_csv astype_str path h) as Hrun.
  simpl in Hrun. rewrite Hrun.
  set (t := normalized read_csv astype_str (read_excel path)).
  assert (columns t = map norm_name (columns source)) as Hcols by reflexivity.
  assert (∃ out, fst (if csv_like (read_excel path)
                      then (Return (S (length h)), h ++ [read_excel path; t])
                      else (Return (length h), h ++ [t])) = Return out ∧
                 snd (if csv_like (read_excel path)
                      then (Return (S (length h)), h ++ [read_excel path; t])
                      else (Return (length h), h ++ [t])) !! out = Some t)
    as (out & Hout & Ht).
  { destruct (csv_like (read_excel path)); simpl; eexists; (split; [reflexivity|]).
    - replace (S (length h)) with (length (h ++ [read_excel path]))
        by (rewrite length_app; simpl; lia).
      change (h ++ [read_excel path; t]) with (h ++ [read_excel path] ++ [t]).
      rewrite app_assoc. apply lookup_alloc.
    - apply lookup_alloc. }
  exists out, t. split; [exact Hout|]. split; [exact Ht|].
  split; [exact Hcols|]. split; [reflexivity|]. split; [|split].
  - intros c Hc. rewrite Hcols in Hc.
    apply list_elem_of_fmap in Hc as (c' & -> & _). apply norm_name_no_space.
  - by rewrite Hcols, length_map.
  - intros Hf Hascii.
    assert (canonical t) as Hcan.
    { intros c Hc. rewrite Hcols in Hc.
      apply list_elem_of_fmap in Hc as (c' & -> & Hc').
      by apply norm_name_is_canonical, Hascii. }
    split; [exact Hcan|]. intros c Hc. by apply norm_name_canonical, Hcan.
Qed.

(** X4 on the sheet whose headers are not normalized. *)
Lemma loaded_names_canonical_witness :
  let py := AsciiStr in
  ∃ out t,
    fst (load_excel_local (λ _, sheet_headers) PandasModel.read_csv
           PandasModel.astype_str "air_quality_history.xlsx" []) = Return out ∧
    snd (load_excel_local (λ _, sheet_headers) PandasModel.read_csv
           PandasModel.astype_str "air_quality_history.xlsx" []) !! out = Some t ∧
    columns t = six_columns ∧ canonical t.
Proof.
  intros py.
  destruct (loaded_names_canonical AsciiStr (λ _, sheet_headers) PandasModel.read_csv
              PandasModel.astype_str "air_quality_history.xlsx" [])
    as (out & t & Hout & Ht & Hcols & _ & _ & _ & Hcan).
  exists out, t. split; [exact Hout|]. split; [exact Ht|]. split.
  - rewrite Hcols. vm_compute. reflexivity.
  - apply Hcan; [exact ascii_faithful_ascii|].
    intros c Hc. simpl in Hc. rewrite !elem_of_cons, elem_of_nil in Hc.
    destruct Hc as [->|[->|[->|[->|[->|[->|[]]]]]]]; reflexivity.
Defined.

(** ** The tables [prepare] returns *)

Lemma row_cell_lookup (F : DataFrame) (name : string) (i : nat) (r : list cell) :
  name ∈ columns F → rows F !! i = Some r →
  col name F !! i = Some (row_cell F name r).
Proof.
  intros [j Hj]%index_of_elem Hr. unfold row_cell. rewrite Hj.
  by apply col_lookup.
Qed.

Lemma wf_filter (P : list cell → bool) (f : DataFrame) :
  Frame.wf f = true → Frame.wf (Frame (columns f) (List.filter P (rows f))) = true.
Proof.
  intros Hwf. apply wf_intro; simpl; [by apply wf_nodup|].
  intros r Hr. apply list_elem_of_In, filter_In in Hr as [Hr _].
  apply wf_row; [done|by apply list_elem_of_In].
Qed.

(** Rows taken out of a cleaned table leave a cleaned table. *)
Lemma prepared_filter {py : PyStr} (P : list cell → bool) (g : DataFrame) :
  prepared g → prepared (Frame (columns g) (List.filter P (rows g))).
Proof.
  intros (Hwf & Hcols & Hrows). split; [by apply wf_filter|]. split; [done|].
  simpl. intros r Hr. apply list_elem_of_In, filter_In in Hr as [Hr _].
  apply list_elem_of_In in Hr. exact (Hrows r Hr).
Qed.

Lemma setitem_columns_iff (name a : string) (values : list cell) (f : DataFrame) :
  a ∈ columns (Frame.setitem name values f) ↔ a ∈ columns f ∨ a = name.
Proof.
  unfold Frame.setitem.
  destruct (Frame.index_of name (columns f)) as [i|] eqn:Hi; simpl.
  - split; [by left|]. intros [?| ->]; [done|].
    apply index_of_lookup in Hi. by eapply list_elem_of_lookup_2.
  - rewrite elem_of_app, list_elem_of_singleton. tauto.
Qed.

(** A cleaned table has the columns [city_means_for_day] groups by, with
    no missing value in them, and an index that is a number. *)
Lemma prepared_clean {py : PyStr} (g : DataFrame) :
  prepared g →
  ∃ ix iv, Frame.indices city_keys g = Some ix ∧
           Frame.index_of "european_aqi" (columns g) = Some iv ∧
           clean g ix iv.
Proof.
  intros (Hwf & Hcols & Hrows).
  assert (∀ x, x ∈ needed_list ++ ["country_name"] →
               ∃ i, Frame.index_of x (columns g) = Some i) as Hi
    by (intros; by apply index_of_elem, Hcols).
  unfold needed_list in Hi. simpl in Hi.
  destruct (Hi "city") as [i1 H1]; [in_list|].
  destruct (Hi "country") as [i2 H2]; [in_list|].
  destruct (Hi "country_name") as [i3 H3]; [in_list|].
  destruct (Hi "latitude") as [i4 H4]; [in_list|].
  destruct (Hi "longitude") as [i5 H5]; [in_list|].
  destruct (Hi "european_aqi") as [iv Hiv]; [in_list|].
  exists [i1; i2; i3; i4; i5], iv.
  split; [unfold Frame.indices, city_keys; simpl; by rewrite H1, H2, H3, H4, H5|].
  split; [done|].
  intros r Hr.
  destruct (Hrows r Hr)
    as (_ & (la & Hla & Nla) & (lo & Hlo & Nlo) & (a & Ha & Na) & Hci & Hco & Hcn).
  unfold row_cell in *. rewrite ?H1, ?H2, ?H3, ?H4, ?H5, ?Hiv in *.
  split.
  - unfold Frame.complete. simpl. rewrite Hci, Hco, Hcn, Hla, Hlo. simpl.
    by rewrite Nla, Nlo.
  - by exists a.
Qed.

Section PreparedTable.

Context {py : PyStr}.
Variable to_datetime : list cell → list (option date).
Variable to_numeric : list cell → list float.
Hypothesis to_datetime_length : ∀ c, length (to_datetime c) = length c.
Hypothesis to_numeric_length : ∀ c, length (to_numeric c) = length c.

Lemma parsed_columns_iff (f : DataFrame) (a : string) :
  (∀ x, x ∈ needed_list → x ∈ columns f) →
  a ∈ columns (parsed to_datetime to_numeric f) ↔ a ∈ columns f ∨ a = "country_name".
Proof.
  intros Hall. unfold parsed, name_country, parse_number, parse_date.
  rewrite !setitem_columns_iff. split; [|tauto].
  intros [[[[[?| ->]| ->]| ->]| ->]| ->]; try (by left); try (by right);
    left; apply Hall; in_list.
Qed.

(** The rows that pass the filter of [prepare] are cleaned rows. *)
Lemma dropna_parsed_prepared (f g : DataFrame) :
  Frame.wf f = true →
  (∀ x, x ∈ needed_list → x ∈ columns f) →
  Frame.dropna subset (parsed to_datetime to_numeric f) = Some g →
  prepared g ∧ (length (rows g) ≤ length (rows f))%nat ∧
  columns g = columns (parsed to_datetime to_numeric f).
Proof.
  intros Hwf Hall Hg.
  destruct (parsed_spec to_datetime to_numeric to_datetime_length to_numeric_length
              f Hwf Hall)
    as (Hwfp & Hlen & Hd & Hla & Hlo & Ha & Hci & Hco & Hcn).
  set (p := parsed to_datetime to_numeric f) in *.
  unfold Frame.dropna in Hg.
  destruct (Frame.indices subset p) as [ixs|] eqn:Hixs; simpl in Hg; [|discriminate].
  injection Hg as <-. simpl.
  assert (∀ x, x ∈ needed_list ++ ["country_name"] → x ∈ columns p) as Hallp.
  { intros x [Hx| ->%list_elem_of_singleton]%elem_of_app;
      apply parsed_columns_iff; auto. }
  split; [|split; [|reflexivity]].
  2: { rewrite <- Hlen. apply filter_length_le. }
  split; [by apply wf_filter|]. split; [exact Hallp|].
  simpl. intros r Hr. apply list_elem_of_In, filter_In in Hr as [Hr Hcomp].
  apply list_elem_of_In, list_elem_of_lookup in Hr as [i Hi].
  rewrite (complete_columns _ _ _ _ _ Hixs Hi) in Hcomp.
  unfold subset in Hcomp. cbn [forallb] in Hcomp. rewrite !andb_true_iff in Hcomp.
  destruct Hcomp as (Cd & Cla & Clo & Ca & Cci & Cco & _).
  change (prepared_row p r).
  assert (∀ x, x ∈ needed_list ++ ["country_name"] →
               col x p !! i = Some (row_cell p x r)) as L
    by (intros; apply row_cell_lookup; [by apply Hallp|done]).
  unfold needed_list in L. simpl in L.
  pose proof (L "date" ltac:(in_list)) as Ld.
  pose proof (L "latitude" ltac:(in_list)) as Lla.
  pose proof (L "longitude" ltac:(in_list)) as Llo.
  pose proof (L "european_aqi" ltac:(in_list)) as La.
  pose proof (L "city" ltac:(in_list)) as Lci.
  pose proof (L "country" ltac:(in_list)) as Lco.
  pose proof (L "country_name" ltac:(in_list)) as Lcn.
  rewrite Ld in Cd. rewrite Lla in Cla. rewrite Llo in Clo. rewrite La in Ca.
  rewrite Lci in Cci. rewrite Lco in Cco. simpl in *.
  rewrite Hd, list_lookup_fmap in Ld. rewrite Hla, list_lookup_fmap in Lla.
  rewrite Hlo, list_lookup_fmap in Llo. rewrite Ha, list_lookup_fmap in La.
  rewrite Hcn, list_lookup_fmap, <- Hco, Lco in Lcn. simpl in Lcn.
  apply negb_true_iff in Cd, Cla, Clo, Ca, Cci, Cco.
  repeat split; try done.
  - destruct (to_datetime (col "date" f) !! i) as [[d|]|]; simpl in Ld;
      try discriminate; injection Ld as Ld; rewrite <- Ld in *;
      [by exists d|discriminate].
  - destruct (to_numeric (col "latitude" f) !! i) as [x|]; simpl in Lla;
      [|discriminate]. injection Lla as Lla. rewrite <- Lla in *. by exists x.
  - destruct (to_numeric (col "longitude" f) !! i) as [x|]; simpl in Llo;
      [|discriminate]. injection Llo as Llo. rewrite <- Llo in *. by exists x.
  - destruct (to_numeric (col "european_aqi" f) !! i) as [x|]; simpl in La;
      [|discriminate]. injection La as La. rewrite <- La in *. by exists x.
  - by injection Lcn as <-.
Qed.

(** X5. On a well-formed table that has the six columns, [prepare] returns
    a new table whose columns are those of its argument and country_name,
    with at most as many rows, and whose every row is clean: its date is a
    date, its latitude, longitude and index are numbers that are not NaN,
    its city and its country are there, and its country_name is the name
    [country_name] gives to its country. *)
Theorem prepare_returns_prepared_table (h : store) (df : ref) (f : DataFrame) :
  h !! df = Some f → Frame.wf f = true →
  (∀ x, x ∈ needed_list → x ∈ columns f) →
  ∃ g, prepare to_datetime to_numeric df h
       = (Return (length h), <[df := parsed to_datetime to_numeric f]> h ++ [g]) ∧
       prepared g ∧
       (length (rows g) ≤ length (rows f))%nat ∧
       ∀ x, x ∈ columns g ↔ x ∈ columns f ∨ x = "country_name".
Proof.
  intros Hh Hwf Hall.
  destruct (prepare_returns to_datetime to_numeric to_datetime_length
              to_numeric_length df f h Hh Hall) as (g & Hg & Hrun).
  destruct (dropna_parsed_prepared f g Hwf Hall Hg) as (Hp & Hlen & Hcols).
  exists g. split; [exact Hrun|]. split; [exact Hp|]. split; [exact Hlen|].
  intros x. rewrite Hcols. by apply parsed_columns_iff.
Qed.

End PreparedTable.

(** X5 on the sample sheet of four rows. *)
Lemma prepare_returns_prepared_table_witness :
  let py := AsciiStr in
  ∃ g, prepare PandasModel.to_datetime PandasModel.to_numeric 0 [sheet_rows]
       = (Return 1,
          [parsed PandasModel.to_datetime PandasModel.to_numeric sheet_rows; g]) ∧
       prepared g ∧
       (length (rows g) ≤ 4)%nat ∧
       ∀ x, x ∈ columns g ↔ x ∈ six_columns ∨ x = "country_name".
Proof.
  apply (prepare_returns_prepared_table (py := AsciiStr)
           PandasModel.to_datetime PandasModel.to_numeric
           model_to_datetime_length model_to_numeric_length
           [sheet_rows] 0 sheet_rows eq_refl eq_refl).
  intros x Hx. exact Hx.
Defined.

(** ** Edge cases of [city_means_for_day] *)








(** ** The selection of the day and of the countries *)

Lemma mask_rows_map (P : list cell → bool) (rs : list (list cell)) :
  mask_rows rs (map P rs) = List.filter P rs.
Proof. induction rs as [|r rs IH]; simpl; [done|]. by rewrite IH. Qed.

Lemma filter_filter_and {A} (P Q : A → bool) (l : list A) :
  List.filter Q (List.filter P l) = List.filter (λ x, P x && Q x) l.
Proof.
  induction l as [|x l IH]; simpl; [done|].
  destruct (P x); simpl; [destruct (Q x); simpl|]; by rewrite IH.
Qed.

Lemma col_rows (name : string) (f : DataFrame) :
  name ∈ columns f → col name f = map (row_cell f name) (rows f).
Proof.
  intros [j Hj]%index_of_elem.
  unfold col, Frame.getitem, Frame.icol, row_cell. rewrite Hj. reflexivity.
Qed.

Lemma getitem_run (df : ref) (f : DataFrame) (name : string) (h : store) :
  h !! df = Some f → name ∈ columns f →
  getitem df name h = (Return (col name f), h).
Proof.
  intros Hh Hn. unfold getitem. rewrite bind_run, (deref_run _ _ _ Hh).
  by rewrite (col_getitem name f Hn).
Qed.


(** Python's [==] with a date holds of that date only, and with a string
    of that string only. *)
Lemma cell_eqb_date (c : cell) (D : date) :
  Group.cell_eqb c (CDate D) = true ↔ c = CDate D.
Proof.
  destruct c as [|s|x|[y m d]], D as [Y Mo Da]; simpl; try (split; discriminate).
  rewrite !andb_true_iff, !Z.eqb_eq. split.
  - intros [[-> ->] ->]. reflexivity.
  - intros [= -> -> ->]. done.
Qed.

Lemma cell_eqb_str (c : cell) (s : string) :
  Group.cell_eqb c (CStr s) = true ↔ c = CStr s.
Proof.
  destruct c as [|t|x|d]; simpl; try (split; discriminate).
  rewrite String.eqb_eq. split; [by intros ->|by intros [= ->]].
Qed.

Lemma isin_spec (values : list string) (c : cell) :
  isin values c = true ↔ ∃ s, s ∈ values ∧ c = CStr s.
Proof.
  unfold isin. rewrite existsb_exists. split.
  - intros (s & Hs & E). exists s. split; [by apply list_elem_of_In|].
    by apply cell_eqb_str.
  - intros (s & Hs & E). exists s. split; [by apply list_elem_of_In|].
    by apply cell_eqb_str.
Qed.

Lemma chosen_spec (g : DataFrame) (D : date) (names : list string) (r : list cell) :
  chosen g D names r = true ↔ selected g D names r.
Proof.
  unfold chosen, selected. rewrite andb_true_iff, cell_eqb_date.
  destruct names as [|s names'].
  - split; [intros [? _]; split; [done|by left]|by intros [? _]].
  - rewrite isin_spec. split; [intros [? ?]; split; [done|by right]|].
    intros [? [?|?]]; [discriminate|done].
Qed.

Lemma select_date_run (h : store) (df : ref) (f : DataFrame) (D : date) :
  h !! df = Some f → "date" ∈ columns f →
  let t := Frame (columns f)
             (List.filter (λ r, Group.cell_eqb (row_cell f "date" r) (CDate D)) (rows f)) in
  select_date df D h = (Return (S (length h)), h ++ [t; t]).
Proof.
  intros Hh Hd t. unfold select_date.
  rewrite bind_run, (getitem_run df f "date" h Hh Hd).
  rewrite bind_run, (deref_run _ _ _ Hh).
  rewrite (col_rows "date" f Hd), List.map_map.
  unfold boolean_index.
  rewrite (mask_rows_map (λ r, Group.cell_eqb (row_cell f "date" r) (CDate D))).
  fold t. rewrite bind_run. unfold alloc at 1.
  rewrite bind_run, (deref_run (length h) t) by apply lookup_alloc.
  unfold alloc. rewrite length_app, <- app_assoc. simpl.
  by rewrite Nat.add_1_r.
Qed.

Lemma select_countries_run (h : store) (df : ref) (f : DataFrame) (names : list string) :
  h !! df = Some f → "country_name" ∈ columns f → names ≠ [] →
  select_countries df names h
  = (Return (length h),
     h ++ [Frame (columns f)
             (List.filter (λ r, isin names (row_cell f "country_name" r)) (rows f))]).
Proof.
  intros Hh Hc Hne. destruct names as [|s names']; [done|].
  unfold select_countries.
  rewrite bind_run, (getitem_run df f "country_name" h Hh Hc).
  rewrite bind_run, (deref_run _ _ _ Hh).
  rewrite (col_rows "country_name" f Hc), List.map_map.
  unfold boolean_index.
  by rewrite (mask_rows_map (λ r, isin (s :: names') (row_cell f "country_name" r))).
Qed.



(** ** From the cleaned table to the points *)

Lemma prepared_table_days : prepared (py := AsciiStr) table_days.
Proof.
  split; [reflexivity|]. split; [intros x Hx; exact Hx|].
  intros r Hr. unfold table_days in Hr. simpl in Hr.
  rewrite !elem_of_cons, elem_of_nil in Hr.
  destruct Hr as [->|[->|[->|[]]]];
    (split; [by eexists|]);
    (split; [eexists; split; reflexivity|]);
    (split; [eexists; split; reflexivity|]);
    (split; [eexists; split; reflexivity|]);
    (split; [reflexivity|]); (split; [reflexivity|]);
    vm_compute; reflexivity.
Qed.

(** The script hands [city_means_for_day] the rows of the chosen day and
    countries, in a table it has created. *)
Lemma points_run {gb : PdGroupBy} (h : store) (df : ref) (g : DataFrame) (D : date) (names : list string) :
  h !! df = Some g → "date" ∈ columns g → "country_name" ∈ columns g →
  ∃ (pre : list DataFrame) (r : ref),
    (h ++ pre) !! r = Some (Frame (columns g) (List.filter (chosen g D names) (rows g))) ∧
    points df D names h = city_means_for_day r (h ++ pre).
Proof.
  intros Hh Hd Hc. unfold points.
  rewrite bind_run, (select_date_run h df g D Hh Hd).
  set (day := Frame (columns g)
                (List.filter (λ r, Group.cell_eqb (row_cell g "date" r) (CDate D)) (rows g))).
  assert ((h ++ [day; day]) !! S (length h) = Some day) as Hday.
  { rewrite lookup_app_r by lia.
    replace (S (length h) - length h) with 1 by lia. reflexivity. }
  rewrite bind_run, (getitem_run (S (length h)) day "country_name" _ Hday Hc).
  rewrite bind_run. destruct names as [|s names'].
  - exists [day; day], (S (length h)). split; [|reflexivity].
    rewrite Hday. unfold day, chosen. do 2 f_equal.
    apply filter_ext. intros r. by rewrite andb_true_r.
  - rewrite (select_countries_run _ _ day (s :: names') Hday Hc) by done.
    exists [day; day;
            Frame (columns day)
              (List.filter (λ r, isin (s :: names') (row_cell day "country_name" r)) (rows day))],
      (length (h ++ [day; day])).
    rewrite <- app_assoc. split; [|reflexivity].
    change (h ++ [day; day] ++ [?t]) with (h ++ [day; day; t]).
    rewrite lookup_app_r by (rewrite length_app; lia).
    rewrite length_app. simpl.
    replace (length h + 2 - length h) with 2 by lia. simpl.
    unfold day. simpl. by rewrite filter_filter_and.
Qed.

Lemma key_of_city_key (g : DataFrame) (ix : list nat) (r : list cell) :
  Frame.indices city_keys g = Some ix → Group.key_of ix r = city_key g r.
Proof.
  unfold Frame.indices, Group.key_of, city_key. intros H%mapM_Some.
  induction H as [|name i names ix Hi _ IH]; simpl; [done|].
  unfold row_cell at 1. by rewrite Hi, IH.
Qed.

(** What the points are, from the rows of the cleaned table. *)
Lemma points_spec {py : PyStr} {gb : PdGroupBy} (h : store) (df : ref) (g : DataFrame) (D : date) (names : list string) :
  h !! df = Some g → prepared g →
  ∃ (news : list DataFrame) (out : ref) (t : DataFrame),
    points df D names h = (Return out, h ++ news) ∧
    (h ++ news) !! out = Some t ∧
    columns t = city_keys ++ ["european_aqi"; "label"; "color"] ∧
    (∀ p, p ∈ rows t →
       ∃ r, r ∈ rows g ∧ selected g D names r ∧ take 5 p = city_key g r) ∧
    (∀ r, r ∈ rows g → selected g D names r →
       ∃ p, p ∈ rows t ∧ Group.key_eqb (take 5 p) (city_key g r) = true).
Proof.
  intros Hh Hp.
  destruct (prepared_clean g Hp) as (ix & iv & Hix & Hiv & Hc).
  destruct Hp as (Hwf & Hcols & Hrows).
  assert ("date" ∈ columns g) as Hd
    by (apply Hcols; unfold needed_list; simpl; in_list).
  assert ("country_name" ∈ columns g) as Hcn
    by (apply Hcols; unfold needed_list; simpl; in_list).
  destruct (points_run h df g D names Hh Hd Hcn) as (pre & r0 & Hsel & Hrun).
  set (sel := Frame (columns g) (List.filter (chosen g D names) (rows g))) in *.
  assert (∀ r, r ∈ rows sel ↔ r ∈ rows g ∧ selected g D names r) as Hin.
  { intros r. unfold sel. simpl.
    by rewrite list_elem_of_In, filter_In, <- list_elem_of_In, chosen_spec. }
  assert (clean sel ix iv) as Hcs by (intros r [Hr _]%Hin; by apply Hc).
  pose proof (city_means_for_day_run r0 sel ix iv (h ++ pre) Hsel Hix Hiv Hcs) as Hcm.
  assert (∀ k, k ∈ group_keys sel ix → length k = 5) as Hlen.
  { intros k Hk%distinct_subset. apply list_elem_of_fmap in Hk as (r & -> & _).
    unfold Group.key_of. rewrite length_map. by apply indices_length in Hix. }
  eexists (pre ++ [_]), (length (h ++ pre)), _.
  split; [rewrite Hrun, Hcm; by rewrite <- app_assoc|].
  split; [rewrite app_assoc; apply lookup_alloc|].
  split; [reflexivity|]. simpl. split.
  - intros p (k & -> & Hk)%list_elem_of_fmap.
    apply (proj1 (group_order_elem _ _)) in Hk.
    pose proof (Hlen k Hk) as Hk5.
    apply distinct_subset, list_elem_of_fmap in Hk as (r & -> & Hr).
    apply Hin in Hr as [Hr Hs]. exists r. split; [done|]. split; [done|].
    unfold point. rewrite take_app_length' by done.
    by apply key_of_city_key.
  - intros r Hr Hs.
    destruct (distinct_covers (map (Group.key_of ix) (rows sel)) (Group.key_of ix r))
      as (k & Hk & Hkr).
    + intros k' (r' & -> & Hr')%list_elem_of_fmap.
      destruct (Hcs r' Hr') as [Hcomp _].
      unfold Frame.complete in Hcomp. unfold Group.key_of.
      rewrite forallb_forall in *. intros c (i & <- & Hi)%in_map_iff.
      by apply Hcomp.
    + apply list_elem_of_fmap. exists r. split; [done|]. by apply Hin.
    + exists (point k (group_mean sel ix iv k)). split.
      * apply list_elem_of_fmap. exists k. split; [done|by apply group_order_elem].
      * unfold point. rewrite take_app_length' by (symmetry; by apply Hlen).
        by rewrite <- (key_of_city_key g ix r Hix).
Qed.

(** X10. From a cleaned table, a day and a list of countries, the script
    gets its table of points without an exception and without writing in
    a table that was there. Every point bears the city, country, country
    name, latitude and longitude of a row of the cleaned table whose date
    is the chosen day and, when countries are chosen, whose country name
    is one of them; and every such row has a point with its key. *)
Theorem points_of_selection (py : PyStr) (gb : PdGroupBy) (h : store) (df : ref)
    (g : DataFrame) (D : date) (names : list string) :
  h !! df = Some g → prepared g →
  ∃ (news : list DataFrame) (out : ref) (t : DataFrame),
    points df D names h = (Return out, h ++ news) ∧
    (h ++ news) !! out = Some t ∧
    columns t = city_keys ++ ["european_aqi"; "label"; "color"] ∧
    (∀ p, p ∈ rows t →
       ∃ r, r ∈ rows g ∧ selected g D names r ∧ take 5 p = city_key g r) ∧
    (∀ r, r ∈ rows g → selected g D names r →
       ∃ p, p ∈ rows t ∧ Group.key_eqb (take 5 p) (city_key g r) = true).
Proof. exact (points_spec h df g D names). Qed.



(** X10 on the table of two days, for its second day and France. *)
Lemma points_of_selection_witness :
  let gb := PandasModel.group_by in
  ∃ (news : list DataFrame) (out : ref) (t : DataFrame),
    points 0 (Date 2024 1 2) ["France"] [table_days] = (Return out, [table_days] ++ news) ∧
    ([table_days] ++ news) !! out = Some t ∧
    columns t = city_keys ++ ["european_aqi"; "label"; "color"] ∧
    (∀ p, p ∈ rows t →
       ∃ r, r ∈ rows table_days ∧ selected table_days (Date 2024 1 2) ["France"] r ∧
            take 5 p = city_key table_days r) ∧
    (∀ r, r ∈ rows table_days → selected table_days (Date 2024 1 2) ["France"] r →
       ∃ p, p ∈ rows t ∧ Group.key_eqb (take 5 p) (city_key table_days r) = true).
Proof.
  exact (points_of_selection AsciiStr PandasModel.group_by [table_days] 0 table_days
           (Date 2024 1 2) ["France"] eq_refl prepared_table_days).
Defined.

(** ** The day shown first *)

#[global] Instance date_le_trans : Transitive date_le.
Proof.
  intros [y1 m1 d1] [y2 m2 d2] [y3 m3 d3]. unfold date_le, date_leb. simpl.
  rewrite !orb_true_iff, !andb_true_iff, !orb_true_iff, !andb_true_iff,
    !Z.ltb_lt, !Z.eqb_eq, !Z.leb_le.
  lia.
Qed.

#[global] Instance date_le_total : Total date_le.
Proof.
  intros [y1 m1 d1] [y2 m2 d2]. unfold date_le, date_leb. simpl.
  rewrite !orb_true_iff, !andb_true_iff, !orb_true_iff, !andb_true_iff,
    !Z.ltb_lt, !Z.eqb_eq, !Z.leb_le.
  lia.
Qed.

Lemma date_values_all (cs : list cell) :
  (∀ c, c ∈ cs → ∃ d, c = CDate d) →
  ∃ ds, date_values cs = Some ds ∧ cs = map CDate ds.
Proof.
  unfold date_values. induction cs as [|c cs IH]; intros H.
  - by exists [].
  - destruct (H c) as [d ->]; [apply list_elem_of_here|].
    destruct IH as (ds & E & ->); [intros; by apply H, list_elem_of_further|].
    exists (d :: ds). simpl in *. by rewrite E.
Qed.

Lemma str_values_all (cs : list cell) :
  (∀ c, c ∈ cs → ∃ s, c = CStr s) →
  ∃ ss, str_values cs = Some ss ∧ cs = map CStr ss.
Proof.
  unfold str_values. induction cs as [|c cs IH]; intros H.
  - by exists [].
  - destruct (H c) as [s ->]; [apply list_elem_of_here|].
    destruct IH as (ss & E & ->); [intros; by apply H, list_elem_of_further|].
    exists (s :: ss). simpl in *. by rewrite E.
Qed.

Lemma elem_of_unique {A} `{EqDecision A} (l : list A) (e : A) :
  e ∈ unique l ↔ e ∈ l.
Proof.
  induction l as [|x l IH]; [done|]. cbn [unique].
  rewrite !elem_of_cons, list_elem_of_In, filter_In, <- list_elem_of_In, IH,
    bool_decide_eq_true.
  split; [tauto|]. intros [->|He]; [by left|].
  destruct (decide (e = x)); [by left|by right].
Qed.

Lemma NoDup_unique {A} `{EqDecision A} (l : list A) : NoDup (unique l).
Proof.
  induction l as [|x l IH]; cbn [unique]; [apply NoDup_nil_2|].
  apply NoDup_cons. split.
  - rewrite list_elem_of_In, filter_In, bool_decide_eq_true. by intros [_ ?].
  - by apply NoDup_ListNoDup, List.NoDup_filter, NoDup_ListNoDup.
Qed.

(** What the day shown first is, on a cleaned table that has rows. *)
Lemma default_date_spec {py : PyStr} (g : DataFrame) :
  prepared g → rows g ≠ [] →
  ∃ d, default_date g = Some d ∧
       (∃ r, r ∈ rows g ∧ row_cell g "date" r = CDate d) ∧
       (∀ r e, r ∈ rows g → row_cell g "date" r = CDate e → date_le e d).
Proof.
  intros (Hwf & Hcols & Hrows) Hne.
  assert ("date" ∈ columns g) as Hd
    by (apply Hcols; unfold needed_list; simpl; in_list).
  destruct (date_values_all (col "date" g)) as (ds & Hds & Hcol).
  { intros c Hc. rewrite (col_rows "date" g Hd) in Hc.
    apply list_elem_of_fmap in Hc as (r & -> & Hr).
    by destruct (Hrows r Hr) as [[d Hd'] _]; exists d. }
  assert (∀ e, e ∈ ds ↔ ∃ r, r ∈ rows g ∧ row_cell g "date" r = CDate e) as Hrow.
  { intros e. split.
    - intros He. assert (CDate e ∈ col "date" g) as Hin
        by (rewrite Hcol; apply list_elem_of_fmap; by exists e).
      rewrite (col_rows "date" g Hd) in Hin.
      apply list_elem_of_fmap in Hin as (r & E & Hr). by exists r.
    - intros (r & Hr & E).
      assert (CDate e ∈ col "date" g) as Hin
        by (rewrite (col_rows "date" g Hd); apply list_elem_of_fmap; by exists r).
      rewrite Hcol in Hin. by apply list_elem_of_fmap in Hin as (e' & [= ->] & He'). }
  unfold default_date, dates. rewrite (col_getitem "date" g Hd). simpl.
  rewrite Hds. simpl.
  set (L := merge_sort date_le (unique ds)).
  assert (∀ e, e ∈ L ↔ e ∈ ds) as HL.
  { intros e. unfold L. rewrite merge_sort_Permutation. apply elem_of_unique. }
  assert (StronglySorted date_le L) as Hsorted
    by (apply StronglySorted_merge_sort; apply _).
  assert (is_Some (last L)) as [d Hlast].
  { apply last_is_Some. intros HnL.
    assert (∃ r, r ∈ rows g) as [r Hr]
      by (destruct (rows g) as [|r rs]; [done|exists r; apply list_elem_of_here]).
    destruct (Hrows r Hr) as [[e He] _].
    assert (e ∈ L) as HeL by (apply HL, Hrow; by exists r).
    rewrite HnL in HeL. by apply elem_of_nil in HeL. }
  exists d. split; [exact Hlast|]. split.
  - apply Hrow, HL. by apply last_Some_elem_of.
  - intros r e Hr He.
    assert (e ∈ L) as HeL by (apply HL, Hrow; by exists r).
    apply last_Some in Hlast as [L' HL'].
    rewrite HL' in HeL, Hsorted.
    apply elem_of_app in HeL as [HeL| ->%list_elem_of_singleton].
    + eapply StronglySorted_app_1_elem_of; [exact Hsorted|exact HeL|].
      apply list_elem_of_here.
    + by destruct (total date_le d d).
Qed.

(** X11. On a cleaned table that has rows, the day the page shows first,
    the last of the sorted days, is the day of a row and no row has a later
    day; with that day and no country chosen, the script gets at least one
    point, without an exception. *)
Theorem default_date_latest (py : PyStr) (gb : PdGroupBy) (g : DataFrame) :
  prepared g → rows g ≠ [] →
  ∃ d, default_date g = Some d ∧
       (∃ r, r ∈ rows g ∧ row_cell g "date" r = CDate d) ∧
       (∀ r e, r ∈ rows g → row_cell g "date" r = CDate e → date_le e d) ∧
       ∀ (h : store) (df : ref), h !! df = Some g →
         ∃ (news : list DataFrame) (out : ref) (t : DataFrame),
           points df d [] h = (Return out, h ++ news) ∧
           (h ++ news) !! out = Some t ∧ rows t ≠ [].
Proof.
  intros Hp Hne.
  destruct (default_date_spec g Hp Hne) as (d & Hdef & (r & Hr & Hrd) & Hmax).
  exists d. split; [exact Hdef|]. split; [by exists r|]. split; [exact Hmax|].
  intros h df Hh.
  destruct (points_spec h df g d [] Hh Hp) as (news & out & t & Hrun & Hout & _ & _ & Hcov).
  exists news, out, t. split; [exact Hrun|]. split; [exact Hout|].
  destruct (Hcov r Hr) as (p & Hpt & _); [split; [done|by left]|].
  intros E. rewrite E in Hpt. by apply elem_of_nil in Hpt.
Qed.

(** X11 on the table of two days: the day shown first is the second. *)
Lemma default_date_latest_witness :
  let gb := PandasModel.group_by in
  ∃ d, default_date table_days = Some d ∧
       (∃ r, r ∈ rows table_days ∧ row_cell table_days "date" r = CDate d) ∧
       (∀ r e, r ∈ rows table_days → row_cell table_days "date" r = CDate e → date_le e d) ∧
       ∀ (h : store) (df : ref), h !! df = Some table_days →
         ∃ (news : list DataFrame) (out : ref) (t : DataFrame),
           points df d [] h = (Return out, h ++ news) ∧
           (h ++ news) !! out = Some t ∧ rows t ≠ [].
Proof.
  apply (default_date_latest AsciiStr PandasModel.group_by table_days
           prepared_table_days).
  discriminate.
Defined.

(** ** The countries offered to the choice *)

Lemma countries_spec {py : PyStr} (g : DataFrame) :
  prepared g →
  ∃ offered, countries g = Some offered ∧
             StronglySorted String.le offered ∧ NoDup offered ∧
             ∀ s, s ∈ offered ↔ ∃ r, r ∈ rows g ∧ row_cell g "country_name" r = CStr s.
Proof.
  intros (Hwf & Hcols & Hrows).
  assert ("country_name" ∈ columns g) as Hc
    by (apply Hcols; unfold needed_list; simpl; in_list).
  destruct (str_values_all (col "country_name" g)) as (ss & Hss & Hcol).
  { intros c Hin. rewrite (col_rows "country_name" g Hc) in Hin.
    apply list_elem_of_fmap in Hin as (r & -> & Hr).
    destruct (Hrows r Hr) as (_ & _ & _ & _ & _ & _ & ->). by eexists. }
  unfold countries. rewrite (col_getitem "country_name" g Hc). simpl.
  rewrite Hss. simpl. eexists. split; [reflexivity|]. split; [|split].
  - apply StronglySorted_merge_sort; apply _.
  - rewrite merge_sort_Permutation. apply NoDup_unique.
  - intros s. rewrite merge_sort_Permutation, elem_of_unique. split.
    + intros Hs. assert (CStr s ∈ col "country_name" g) as Hin
        by (rewrite Hcol; apply list_elem_of_fmap; by exists s).
      rewrite (col_rows "country_name" g Hc) in Hin.
      apply list_elem_of_fmap in Hin as (r & E & Hr). by exists r.
    + intros (r & Hr & E).
      assert (CStr s ∈ col "country_name" g) as Hin
        by (rewrite (col_rows "country_name" g Hc); apply list_elem_of_fmap; by exists r).
      rewrite Hcol in Hin. by apply list_elem_of_fmap in Hin as (s' & [= ->] & Hs').
Qed.

(** X12. On a cleaned table and for a chosen day, the names the page
    offers are the country names of the rows of that day, each once, in
    increasing order; and whenever countries are chosen among the names
    offered, the script gets at least one point. *)
Theorem countries_offered (py : PyStr) (gb : PdGroupBy) (h : store) (df : ref)
    (g : DataFrame) (D : date) :
  h !! df = Some g → prepared g →
  ∃ day offered,
    select_date df D h = (Return (S (length h)), h ++ [day; day]) ∧
    countries day = Some offered ∧
    StronglySorted String.le offered ∧ NoDup offered ∧
    (∀ s, s ∈ offered ↔
          ∃ r, r ∈ rows g ∧ row_cell g "date" r = CDate D ∧
               row_cell g "country_name" r = CStr s) ∧
    ∀ names, names ≠ [] → (∀ s, s ∈ names → s ∈ offered) →
      ∃ (news : list DataFrame) (out : ref) (t : DataFrame),
        points df D names h = (Return out, h ++ news) ∧
        (h ++ news) !! out = Some t ∧ rows t ≠ [].
Proof.
  intros Hh Hp.
  assert ("date" ∈ columns g) as Hd
    by (destruct Hp as (_ & Hcols & _); apply Hcols; unfold needed_list; simpl; in_list).
  set (day := Frame (columns g)
                (List.filter (λ r, Group.cell_eqb (row_cell g "date" r) (CDate D)) (rows g))).
  assert (prepared day) as Hpd by by apply prepared_filter.
  destruct (countries_spec day Hpd) as (offered & Hoff & Hsorted & Hnd & Hin).
  assert (∀ s, s ∈ offered ↔
               ∃ r, r ∈ rows g ∧ row_cell g "date" r = CDate D ∧
                    row_cell g "country_name" r = CStr s) as Hin'.
  { intros s. rewrite Hin. unfold day. simpl. split.
    - intros (r & Hr & E). apply list_elem_of_In, filter_In in Hr as [Hr Hdate].
      exists r. split; [by apply list_elem_of_In|]. split; [by apply cell_eqb_date|done].
    - intros (r & Hr & Hdate & E). exists r. split; [|done].
      apply list_elem_of_In, filter_In. split; [by apply list_elem_of_In|].
      by apply cell_eqb_date. }
  exists day, offered. split; [exact (select_date_run h df g D Hh Hd)|].
  split; [exact Hoff|]. split; [exact Hsorted|]. split; [exact Hnd|].
  split; [exact Hin'|].
  intros names Hne Hsub.
  destruct (points_spec h df g D names Hh Hp)
    as (news & out & t & Hrun & Hout & _ & _ & Hcov).
  exists news, out, t. split; [exact Hrun|]. split; [exact Hout|].
  destruct names as [|s names']; [done|].
  destruct (proj1 (Hin' s)) as (r & Hr & Hdate & E);
    [apply Hsub, list_elem_of_here|].
  destruct (Hcov r Hr) as (p & Hpt & _).
  { split; [done|]. right. exists s. split; [apply list_elem_of_here|done]. }
  intros E'. rewrite E' in Hpt. by apply elem_of_nil in Hpt.
Qed.

(** X12 on the table of two days, for its second day. *)
Lemma countries_offered_witness :
  let gb := PandasModel.group_by in
  ∃ day offered,
    select_date 0 (Date 2024 1 2) [table_days] = (Return 2, [table_days; day; day]) ∧
    countries day = Some offered ∧
    StronglySorted String.le offered ∧ NoDup offered ∧
    (∀ s, s ∈ offered ↔
          ∃ r, r ∈ rows table_days ∧ row_cell table_days "date" r = CDate (Date 2024 1 2) ∧
               row_cell table_days "country_name" r = CStr s) ∧
    ∀ names, names ≠ [] → (∀ s, s ∈ names → s ∈ offered) →
      ∃ (news : list DataFrame) (out : ref) (t : DataFrame),
        points 0 (Date 2024 1 2) names [table_days] = (Return out, [table_days] ++ news) ∧
        ([table_days] ++ news) !! out = Some t ∧ rows t ≠ [].
Proof.
  exact (countries_offered AsciiStr PandasModel.group_by [table_days] 0 table_days
           (Date 2024 1 2) eq_refl prepared_table_days).
Defined.

(** ** The mean of one value *)



(** ** One measure for each city *)






(** ** Choosing every country *)

(** The table of points, from the rows that are selected. *)
Lemma points_table {py : PyStr} {gb : PdGroupBy} (h : store) (df : ref) (g : DataFrame) (D : date)
    (names : list string) (ix : list nat) (iv : nat) :
  h !! df = Some g → prepared g →
  Frame.indices city_keys g = Some ix →
  Frame.index_of "european_aqi" (columns g) = Some iv →
  let sel := Frame (columns g) (List.filter (chosen g D names) (rows g)) in
  ∃ (news : list DataFrame) (out : ref),
    points df D names h = (Return out, h ++ news) ∧
    (h ++ news) !! out
    = Some (Frame (city_keys ++ ["european_aqi"; "label"; "color"])
              (map (λ k, point k (group_mean sel ix iv k))
                   (group_order (group_keys sel ix)))).
Proof.
  intros Hh Hp Hix Hiv sel.
  destruct (prepared_clean g Hp) as (ix' & iv' & Hix' & Hiv' & Hc).
  rewrite Hix in Hix'. injection Hix' as <-.
  rewrite Hiv in Hiv'. injection Hiv' as <-.
  destruct Hp as (Hwf & Hcols & Hrows).
  assert ("date" ∈ columns g) as Hd
    by (apply Hcols; unfold needed_list; simpl; in_list).
  assert ("country_name" ∈ columns g) as Hcn
    by (apply Hcols; unfold needed_list; simpl; in_list).
  destruct (points_run h df g D names Hh Hd Hcn) as (pre & r0 & Hsel & Hrun).
  fold sel in Hsel.
  assert (clean sel ix iv) as Hcs.
  { intros r Hr. unfold sel in Hr. simpl in Hr.
    apply list_elem_of_In, filter_In in Hr as [Hr _]. by apply Hc, list_elem_of_In. }
  pose proof (city_means_for_day_run r0 sel ix iv (h ++ pre) Hsel Hix Hiv Hcs) as Hcm.
  eexists (pre ++ [_]), (length (h ++ pre)).
  split; [rewrite Hrun, Hcm; by rewrite <- app_assoc|].
  rewrite app_assoc. apply lookup_alloc.
Qed.

(** X15. On a cleaned table and for a chosen day, choosing all the
    countries that are offered (or more names) gives the table of points
    that choosing none gives: the same points, with the same means, labels
    and colors, in the same order. *)
Theorem all_countries_is_no_filter (py : PyStr) (gb : PdGroupBy) (h : store)
    (df : ref) (g : DataFrame) (D : date) (names : list string) :
  h !! df = Some g → prepared g →
  (∀ r s, r ∈ rows g → row_cell g "date" r = CDate D →
          row_cell g "country_name" r = CStr s → s ∈ names) →
  ∃ (news news' : list DataFrame) (out out' : ref) (t : DataFrame),
    points df D names h = (Return out, h ++ news) ∧
    (h ++ news) !! out = Some t ∧
    points df D [] h = (Return out', h ++ news') ∧
    (h ++ news') !! out' = Some t.
Proof.
  intros Hh Hp Hall.
  destruct (prepared_clean g Hp) as (ix & iv & Hix & Hiv & Hc).
  destruct (points_table h df g D names ix iv Hh Hp Hix Hiv) as (news & out & Hrun & Hout).
  destruct (points_table h df g D [] ix iv Hh Hp Hix Hiv) as (news' & out' & Hrun' & Hout').
  assert (List.filter (chosen g D names) (rows g) = List.filter (chosen g D []) (rows g))
    as Hsame.
  { apply filter_ext_in. intros r Hr%list_elem_of_In.
    apply eq_true_iff_eq. rewrite !chosen_spec. unfold selected. split.
    - intros [Hd _]. split; [done|by left].
    - intros [Hd _]. split; [done|].
      destruct names as [|s0 names']; [by left|right].
      destruct Hp as (_ & _ & Hrows).
      destruct (Hrows r Hr) as (_ & _ & _ & _ & _ & _ & Hname).
      eexists. split; [|exact Hname]. by eapply Hall. }
  rewrite Hsame in Hout.
  eexists news, news', out, out', _.
  split; [exact Hrun|]. split; [exact Hout|]. split; [exact Hrun'|exact Hout'].
Qed.

(** X15 on the table of two days, for its second day, France and Norway. *)
Lemma all_countries_is_no_filter_witness :
  let gb := PandasModel.group_by in
  ∃ (news news' : list DataFrame) (out out' : ref) (t : DataFrame),
    points 0 (Date 2024 1 2) ["France"; "Norvège"] [table_days]
    = (Return out, [table_days] ++ news) ∧
    ([table_days] ++ news) !! out = Some t ∧
    points 0 (Date 2024 1 2) [] [table_days] = (Return out', [table_days] ++ news') ∧
    ([table_days] ++ news') !! out' = Some t.
Proof.
  apply (all_countries_is_no_filter AsciiStr PandasModel.group_by [table_days] 0
           table_days (Date 2024 1 2) ["France"; "Norvège"] eq_refl prepared_table_days).
  intros r s Hr _. unfold table_days in Hr. simpl in Hr.
  rewrite !elem_of_cons, elem_of_nil in Hr.
  destruct Hr as [->|[->|[->|[]]]]; intros [= <-]; in_list.
Defined.
